(** * testvibe: the [tvctl] command handler and the assertion counters

    A shallow embedding of [testvibe/core/cli_handler.py] (class
    [CLIHandler]) and of the behaviour that [tests/test_asserts.py] pins
    down for the assertion methods of [testvibe.Testsuite].

    The program is Python 2 ([_run_tsuites] uses [xrange]): text read from
    a file is a byte string, [str.splitlines] breaks lines at LF, CR and
    CR LF only, and a [set] is iterated in an order the program does not
    control. *)

From Stdlib Require Import Ascii String QArith.
From stdpp Require Import gmap strings list.

Set Warnings "-register-all".
Open Scope string_scope.

(** ** Python string primitives used by the handler *)

Module PyStr.

Definition LF : ascii := "010"%char.
Definition CR : ascii := "013"%char.

(** [s.startswith(p)] *)
Definition startswith (s p : string) : bool := String.prefix p s.

(** [c in s] for a one-character [c] *)
Fixpoint contains_char (c : ascii) (s : string) : bool :=
  match s with
  | EmptyString => false
  | String d s' => Ascii.eqb c d || contains_char c s'
  end.

(** [s.split(c)] for a one-character separator, written with the piece
    under construction as an accumulator: the result always has at least
    one piece. *)
Fixpoint split_acc (c : ascii) (cur : string) (s : string) : list string :=
  match s with
  | EmptyString => [cur]
  | String d s' =>
      if Ascii.eqb d c then cur :: split_acc c EmptyString s'
      else split_acc c (cur +:+ String d EmptyString) s'
  end.

Definition split (c : ascii) (s : string) : list string :=
  split_acc c EmptyString s.

(** [l[0]] and [l[-1]] on the result of a split (never empty). *)
Definition first_piece (l : list string) : string := hd EmptyString l.
Definition last_piece (l : list string) : string := List.last l EmptyString.

(** [s[:-3]]: everything but the last three characters, the empty string
    when [s] has at most three. *)
Definition drop_last3 (s : string) : string :=
  String.substring 0 (String.length s - 3) s.

(** [s.splitlines()] on a byte string: a line ends at LF, at CR, or at
    CR LF taken as one break; the breaks are not kept, and a text that
    ends with a break has no empty last line. *)
Fixpoint splitlines_acc (cur : string) (s : string) : list string :=
  match s with
  | EmptyString =>
      match cur with EmptyString => [] | _ => [cur] end
  | String d s' =>
      if Ascii.eqb d LF then cur :: splitlines_acc EmptyString s'
      else if Ascii.eqb d CR then
        match s' with
        | String e s'' =>
            if Ascii.eqb e LF then cur :: splitlines_acc EmptyString s''
            else cur :: splitlines_acc EmptyString s'
        | EmptyString => cur :: splitlines_acc EmptyString s'
        end
      else splitlines_acc (cur +:+ String d EmptyString) s'
  end.

Definition splitlines (s : string) : list string :=
  splitlines_acc EmptyString s.

(** A line break character. *)
Definition is_break (c : ascii) : bool := Ascii.eqb c LF || Ascii.eqb c CR.

Fixpoint no_break (s : string) : bool :=
  match s with
  | EmptyString => true
  | String d s' => negb (is_break d) && no_break s'
  end.

(** [''.join(l)] with every line terminated by LF. *)
Fixpoint unlines (l : list string) : string :=
  match l with
  | [] => EmptyString
  | x :: l' => x +:+ String LF (unlines l')
  end.

End PyStr.

(** ** The regular expressions of [re] that [RE_VALID_NAME] uses

    A pattern is a sequence of items: the anchors [^] and [$] and a
    character set under [+].  Without [re.MULTILINE], [^] matches only at
    the start of the subject, and [$] matches at the end of the subject
    and also just before a line feed that is its last character. *)

Module PyRe.

Inductive item : Type :=
  | Bol
  | Eol
  | PlusSet (ranges : list (ascii * ascii)).

Definition in_range (c : ascii) (r : ascii * ascii) : bool :=
  (nat_of_ascii (fst r) <=? nat_of_ascii c)%nat
  && (nat_of_ascii c <=? nat_of_ascii (snd r))%nat.

Definition in_set (ranges : list (ascii * ascii)) (c : ascii) : bool :=
  existsb (in_range c) ranges.

Definition at_eol (s : string) : bool :=
  match s with
  | EmptyString => true
  | String c EmptyString => Ascii.eqb c PyStr.LF
  | _ => false
  end.

(** [match_here p bol s]: [p] matches a prefix of [s]; [bol] tells
    whether [s] is the whole subject.  [PlusSet] takes one character of
    the set and then, at each further position, either hands over to the
    rest of the pattern or takes one more (the order of the two does not
    change whether a match exists). *)
Fixpoint match_here (p : list item) (bol : bool) (s : string) : bool :=
  match p with
  | [] => true
  | Bol :: p' => bol && match_here p' bol s
  | Eol :: p' => at_eol s && match_here p' bol s
  | PlusSet rs :: p' =>
      match s with
      | EmptyString => false
      | String c s' =>
          in_set rs c &&
          (fix more (t : string) : bool :=
             match_here p' false t ||
             match t with
             | EmptyString => false
             | String d t' => in_set rs d && more t'
             end) s'
      end
  end.

(** [re.match(p, s) is not None] *)
Definition re_match (p : list item) (s : string) : bool :=
  match_here p true s.

End PyRe.

(** ** Python objects seen by discovery

    Discovery only asks three things of an object: which object it is
    (a [set] of functions or classes holds each object once), whether it
    is a class ([isinstance(co, type)]) and whether it can be called.
    Objects are therefore references: a function or a class is named by
    its identity, and the classes themselves live in a class table. *)

Inductive pyobj : Type :=
  | PyFunc (f : positive)                    (* a function or method *)
  | PyClass (c : positive)                   (* a class object *)
  | PyInst (i : positive) (has_call : bool). (* any other object *)

#[global] Instance pyobj_eq_dec : EqDecision pyobj.
Proof. solve_decision. Defined.

#[global] Instance pyobj_countable : Countable pyobj.
Proof.
  refine (inj_countable'
    (fun o => match o with
              | PyFunc f => inl f
              | PyClass c => inr (inl c)
              | PyInst i b => inr (inr (i, b))
              end)
    (fun x => match x with
              | inl f => PyFunc f
              | inr (inl c) => PyClass c
              | inr (inr (i, b)) => PyInst i b
              end) _).
  by intros [].
Defined.

(** [callable(o)]: functions and classes are callable, another object is
    when its type defines [__call__]. *)
Definition callable (o : pyobj) : bool :=
  match o with
  | PyFunc _ => true
  | PyClass _ => true
  | PyInst _ b => b
  end.

(** A class: the module that declares it ([__module__]), its ancestors in
    method resolution order (the class itself, which heads [__mro__], is
    left out) and its own [__dict__]. *)
Record pyclass : Type := {
  cls_module : string;
  cls_ancestors : list positive;
  cls_dict : gmap string pyobj
}.

(** A module: its name and its namespace.  A name bound by an [import]
    statement is in the namespace like any other. *)
Record pymodule : Type := {
  mod_name : string;
  mod_dict : gmap string pyobj
}.

(** ** Programs with a state that may stop early

    A Python call either returns or stops with an exception (or with
    [sys.exit]); in both cases it leaves a state behind. *)

Inductive result (E A : Type) : Type :=
  | Ok (a : A)
  | Raise (e : E).
Arguments Ok {E A} a.
Arguments Raise {E A} e.

Definition prog (S E A : Type) : Type := S -> result E A * S.

Definition ret {S E A} (a : A) : prog S E A := fun s => (Ok a, s).
Definition raise {S E A} (e : E) : prog S E A := fun s => (Raise e, s).
Definition bind {S E A B} (m : prog S E A) (k : A -> prog S E B) : prog S E B :=
  fun s =>
    match m s with
    | (Ok a, s') => k a s'
    | (Raise e, s') => (Raise e, s')
    end.

Notation "m >> k" := (bind m (fun _ => k))
  (at level 65, right associativity).

(** [for x in l: body(x)] *)
Fixpoint for_each {S E A} (body : A -> prog S E unit) (l : list A)
  : prog S E unit :=
  match l with
  | [] => ret tt
  | x :: l' => body x >> for_each body l'
  end.

(** ** The assertion methods of [testvibe.Testsuite]

    [testvibe/asserts.py] is not part of the sources at hand: what
    follows is fixed by [tests/test_asserts.py], which calls every
    assertion method under every one of its names, names the exception
    each raises, and checks the counters. *)

Module Asserts.

(** Values passed to assertions in the tests: [None], booleans, integers,
    floats (a finite float is the rational it denotes, which is how Python
    compares it with an integer), strings, lists and tuples. *)
Inductive pyval : Type :=
  | VNone
  | VBool (b : bool)
  | VInt (z : Z)
  | VFloat (q : Q)
  | VStr (s : string)
  | VList (l : list pyval)
  | VTuple (l : list pyval).

Definition as_num (v : pyval) : option Q :=
  match v with
  | VBool b => Some (inject_Z (Z.b2z b))
  | VInt z => Some (inject_Z z)
  | VFloat q => Some q
  | _ => None
  end.

(** Python 2 orders values of different kinds: [None] first, then the
    numbers, then the other types by type name. *)
Definition type_rank (v : pyval) : nat :=
  match v with
  | VNone => 0
  | VBool _ | VInt _ | VFloat _ => 1
  | VList _ => 2
  | VStr _ => 3
  | VTuple _ => 4
  end.

(** [cmp(a, b)] *)
Fixpoint py_cmp (a b : pyval) : comparison :=
  match a, b with
  | VStr s, VStr t => String.compare s t
  | VList l, VList m | VTuple l, VTuple m =>
      (fix cmp_seq (l m : list pyval) : comparison :=
         match l, m with
         | [], [] => Eq
         | [], _ :: _ => Lt
         | _ :: _, [] => Gt
         | x :: l', y :: m' =>
             match py_cmp x y with
             | Eq => cmp_seq l' m'
             | r => r
             end
         end) l m
  | _, _ =>
      match as_num a, as_num b with
      | Some x, Some y => (x ?= y)%Q
      | _, _ => Nat.compare (type_rank a) (type_rank b)
      end
  end.

Definition py_eq (a b : pyval) : bool :=
  match py_cmp a b with Eq => true | _ => false end.
Definition py_lt (a b : pyval) : bool :=
  match py_cmp a b with Lt => true | _ => false end.
Definition py_le (a b : pyval) : bool :=
  match py_cmp a b with Gt => false | _ => true end.

Fixpoint is_substring (t s : string) : bool :=
  String.prefix t s ||
  match s with
  | EmptyString => false
  | String _ s' => is_substring t s'
  end.

(** [v in l]: an element equal to [v] for a list or tuple, a substring
    for two strings; what is not a collection has no members. *)
Definition py_in (v l : pyval) : bool :=
  match l with
  | VList xs | VTuple xs => existsb (py_eq v) xs
  | VStr s => match v with VStr t => is_substring t s | _ => false end
  | _ => false
  end.

(** The exceptions of [testvibe.asserts], one per assertion. *)
Inductive assertion_exception : Type :=
  | AssertionExceptionEqual
  | AssertionExceptionNotEqual
  | AssertionExceptionIsNull
  | AssertionExceptionIsNotNull
  | AssertionExceptionIsNotTrue
  | AssertionExceptionIsNotFalse
  | AssertionExceptionIn
  | AssertionExceptionNotIn
  | AssertionExceptionGreaterThan
  | AssertionExceptionGreaterThanOrEqual
  | AssertionExceptionLesserThan
  | AssertionExceptionLesserThanOrEqual
  | AssertionExceptionIsANumber.

Inductive exn : Type :=
  | AssertionException (k : assertion_exception)
  | AssertionError
  | TypeError
  | AttributeError
  | ImportError
  | IOError.

(** The assertions, under their full method names. *)
Inductive assertion : Type :=
  | assert_equal
  | assert_not_equal
  | assert_null
  | assert_not_null
  | assert_true
  | assert_false
  | assert_in
  | assert_not_in
  | assert_greater_than
  | assert_greater_than_or_equal
  | assert_lesser_than
  | assert_lesser_than_or_equal
  | assert_is_a_number.

Definition raised_by (a : assertion) : assertion_exception :=
  match a with
  | assert_equal => AssertionExceptionEqual
  | assert_not_equal => AssertionExceptionNotEqual
  | assert_null => AssertionExceptionIsNull
  | assert_not_null => AssertionExceptionIsNotNull
  | assert_true => AssertionExceptionIsNotTrue
  | assert_false => AssertionExceptionIsNotFalse
  | assert_in => AssertionExceptionIn
  | assert_not_in => AssertionExceptionNotIn
  | assert_greater_than => AssertionExceptionGreaterThan
  | assert_greater_than_or_equal => AssertionExceptionGreaterThanOrEqual
  | assert_lesser_than => AssertionExceptionLesserThan
  | assert_lesser_than_or_equal => AssertionExceptionLesserThanOrEqual
  | assert_is_a_number => AssertionExceptionIsANumber
  end.

(** Modelled from the spec: the condition each assertion checks (the
    table of section 4.1; the method bodies of [testvibe/asserts.py] are
    missing).  [None] stands for a call with the wrong number of
    arguments. *)
Definition holds (a : assertion) (args : list pyval) : option bool :=
  match a, args with
  | assert_equal, [v1; v2] => Some (py_eq v1 v2)
  | assert_not_equal, [v1; v2] => Some (negb (py_eq v1 v2))
  | assert_null, [v] => Some (match v with VNone => true | _ => false end)
  | assert_not_null, [v] => Some (match v with VNone => false | _ => true end)
  | assert_true, [v] => Some (match v with VBool true => true | _ => false end)
  | assert_false, [v] => Some (match v with VBool false => true | _ => false end)
  | assert_in, [v; l] => Some (py_in v l)
  | assert_not_in, [v; l] => Some (negb (py_in v l))
  | assert_greater_than, [v1; v2] => Some (py_lt v2 v1)
  | assert_greater_than_or_equal, [v1; v2] => Some (py_le v2 v1)
  | assert_lesser_than, [v1; v2] => Some (py_lt v1 v2)
  | assert_lesser_than_or_equal, [v1; v2] => Some (py_le v1 v2)
  | assert_is_a_number, [v] =>
      Some (match v with VInt _ | VFloat _ => true | _ => false end)
  | _, _ => None
  end.

(** Modelled from the spec: the two counters of a suite instance
    (section 3), in the order in which [get_assert_counters] returns
    them.  The spec calls them [pass_count] and [fail_count];
    [test_assert_counters] shows what they count: a passing assertion
    advances both, a failing one the second only. *)
Record counters : Type := {
  passed : nat;
  attempted : nat
}.

Definition fresh : counters := {| passed := 0; attempted := 0 |}.

(** A method body: it may raise, and it updates the counters of its
    receiver. *)
Definition M (A : Type) : Type := prog counters exn A.

(** Modelled from the spec: one assertion call (section 3,
    AssertionOutcome, and scenario 2 of section 8, which
    [test_assert_counters] checks): the condition is evaluated, then the
    counters are updated, then a failure is raised. *)
Definition check (a : assertion) (args : list pyval) : M unit :=
  fun c =>
    match holds a args with
    | None => (Raise TypeError, c)
    | Some true =>
        (Ok tt, {| passed := S (passed c); attempted := S (attempted c) |})
    | Some false =>
        (Raise (AssertionException (raised_by a)),
         {| passed := passed c; attempted := S (attempted c) |})
    end.

(** Modelled from the spec: [get_assert_counters] (section 4.1), the two
    counters as a pair. *)
Definition get_assert_counters (c : counters) : nat * nat :=
  (passed c, attempted c).

(** Modelled from the spec: [reset_assert_counter] (section 4.1), both
    counters back to zero. *)
Definition reset_assert_counter : M unit := fun _ => (Ok tt, fresh).

(** Modelled from the spec: the names under which [Testsuite] offers the
    assertions (section 4.1: a short name resolves to the implementation
    of the full name).  The names are those that [BasicTestSuite] calls,
    the full name first, then its short names. *)
Definition methods : list (string * assertion) :=
  [ ("assert_equal", assert_equal); ("assert_eq", assert_equal);
    ("a_eq", assert_equal);
    ("assert_not_equal", assert_not_equal); ("assert_neq", assert_not_equal);
    ("a_neq", assert_not_equal);
    ("assert_null", assert_null); ("a_null", assert_null);
    ("assert_not_null", assert_not_null); ("a_not_null", assert_not_null);
    ("assert_true", assert_true); ("a_true", assert_true);
    ("assert_false", assert_false); ("a_false", assert_false);
    ("assert_in", assert_in); ("a_in", assert_in);
    ("assert_not_in", assert_not_in); ("a_not_in", assert_not_in);
    ("assert_greater_than", assert_greater_than);
    ("assert_gt", assert_greater_than); ("a_gt", assert_greater_than);
    ("assert_greater_than_or_equal", assert_greater_than_or_equal);
    ("assert_gte", assert_greater_than_or_equal);
    ("a_gte", assert_greater_than_or_equal);
    ("assert_lesser_than", assert_lesser_than);
    ("assert_lt", assert_lesser_than); ("a_lt", assert_lesser_than);
    ("assert_lesser_than_or_equal", assert_lesser_than_or_equal);
    ("assert_lte", assert_lesser_than_or_equal);
    ("a_lte", assert_lesser_than_or_equal);
    ("assert_is_a_number", assert_is_a_number);
    ("assert_is_n", assert_is_a_number); ("a_is_n", assert_is_a_number) ].

Fixpoint lookup_method (tbl : list (string * assertion)) (name : string)
  : option assertion :=
  match tbl with
  | [] => None
  | (n, a) :: tbl' => if String.eqb n name then Some a else lookup_method tbl' name
  end.

(** [getattr(self, name)] called with the arguments [args]; a name that
    is not a method raises [AttributeError]. *)
Definition call (name : string) (args : list pyval) : M unit :=
  match lookup_method methods name with
  | Some a => check a args
  | None => raise AttributeError
  end.

(** The short names and the full name each stands for. *)
Definition aliases : list (string * string) :=
  [ ("assert_eq", "assert_equal"); ("a_eq", "assert_equal");
    ("assert_neq", "assert_not_equal"); ("a_neq", "assert_not_equal");
    ("a_null", "assert_null"); ("a_not_null", "assert_not_null");
    ("a_true", "assert_true"); ("a_false", "assert_false");
    ("a_in", "assert_in"); ("a_not_in", "assert_not_in");
    ("assert_gt", "assert_greater_than"); ("a_gt", "assert_greater_than");
    ("assert_gte", "assert_greater_than_or_equal");
    ("a_gte", "assert_greater_than_or_equal");
    ("assert_lt", "assert_lesser_than"); ("a_lt", "assert_lesser_than");
    ("assert_lte", "assert_lesser_than_or_equal");
    ("a_lte", "assert_lesser_than_or_equal");
    ("assert_is_n", "assert_is_a_number"); ("a_is_n", "assert_is_a_number") ].

End Asserts.

(** ** [tests/test_asserts.py]: [BasicTestSuite]

    Every method of the test suite calls one assertion method of
    [testvibe.Testsuite] on [self], under its full name or under a short
    name. *)

Module BasicTestSuite.
Import Asserts.

Definition test_equal (v1 v2 : pyval) : M unit := call "assert_equal" [v1; v2].
Definition test_equal_alias_1 (v1 v2 : pyval) : M unit := call "assert_eq" [v1; v2].
Definition test_equal_alias_2 (v1 v2 : pyval) : M unit := call "a_eq" [v1; v2].
Definition test_not_equal (v1 v2 : pyval) : M unit := call "assert_not_equal" [v1; v2].
Definition test_not_equal_alias_1 (v1 v2 : pyval) : M unit := call "assert_neq" [v1; v2].
Definition test_not_equal_alias_2 (v1 v2 : pyval) : M unit := call "a_neq" [v1; v2].
Definition test_null (v : pyval) : M unit := call "assert_null" [v].
Definition test_null_alias_1 (v : pyval) : M unit := call "a_null" [v].
Definition test_not_null (v : pyval) : M unit := call "assert_not_null" [v].
Definition test_not_null_alias_1 (v : pyval) : M unit := call "a_not_null" [v].
Definition test_true (v : pyval) : M unit := call "assert_true" [v].
Definition test_true_alias_1 (v : pyval) : M unit := call "a_true" [v].
Definition test_false (v : pyval) : M unit := call "assert_false" [v].
Definition test_false_alias_1 (v : pyval) : M unit := call "a_false" [v].
Definition test_in (v l : pyval) : M unit := call "assert_in" [v; l].
Definition test_in_alias_1 (v l : pyval) : M unit := call "a_in" [v; l].
Definition test_not_in (v l : pyval) : M unit := call "assert_not_in" [v; l].
Definition test_not_in_alias_1 (v l : pyval) : M unit := call "a_not_in" [v; l].
Definition test_greater_than (v1 v2 : pyval) : M unit :=
  call "assert_greater_than" [v1; v2].
Definition test_greater_than_alias_1 (v1 v2 : pyval) : M unit :=
  call "assert_gt" [v1; v2].
Definition test_greater_than_alias_2 (v1 v2 : pyval) : M unit :=
  call "a_gt" [v1; v2].
Definition test_greater_than_or_equal (v1 v2 : pyval) : M unit :=
  call "assert_greater_than_or_equal" [v1; v2].
Definition test_greater_than_or_equal_alias_1 (v1 v2 : pyval) : M unit :=
  call "assert_gte" [v1; v2].
Definition test_greater_than_or_equal_alias_2 (v1 v2 : pyval) : M unit :=
  call "a_gte" [v1; v2].
Definition test_lesser_than (v1 v2 : pyval) : M unit :=
  call "assert_lesser_than" [v1; v2].
Definition test_lesser_than_alias_1 (v1 v2 : pyval) : M unit :=
  call "assert_lt" [v1; v2].
Definition test_lesser_than_alias_2 (v1 v2 : pyval) : M unit :=
  call "a_lt" [v1; v2].
Definition test_lesser_than_or_equal (v1 v2 : pyval) : M unit :=
  call "assert_lesser_than_or_equal" [v1; v2].
Definition test_lesser_than_or_equal_alias_1 (v1 v2 : pyval) : M unit :=
  call "assert_lte" [v1; v2].
Definition test_lesser_than_or_equal_alias_2 (v1 v2 : pyval) : M unit :=
  call "a_lte" [v1; v2].
Definition test_is_a_number (v : pyval) : M unit := call "assert_is_a_number" [v].
Definition test_is_a_number_alias1 (v : pyval) : M unit := call "assert_is_n" [v].
Definition test_is_a_number_alias2 (v : pyval) : M unit := call "a_is_n" [v].

(** [try: m except AssertionExceptionIn: pass] *)
Definition try_except_In (m : M unit) : M unit :=
  fun c =>
    match m c with
    | (Raise (AssertionException AssertionExceptionIn), c') => (Ok tt, c')
    | r => r
    end.

(** [assert self.t.get_assert_counters() == expected]: a failed [assert]
    statement raises the built-in [AssertionError], which is none of the
    exceptions of [testvibe.asserts]. *)
Definition expect_counters (expected : nat * nat) : M unit :=
  fun c =>
    if decide (get_assert_counters c = expected) then (Ok tt, c)
    else (Raise AssertionError, c).

(** [TestAsserts.test_assert_counters], on the suite that [setUp] has
    just built. *)
Definition test_assert_counters : M unit :=
  expect_counters (0, 0) >>
  test_equal (VStr "A") (VStr "A") >>
  expect_counters (1, 1) >>
  test_null VNone >>
  test_lesser_than_or_equal (VInt 7) (VInt 9) >>
  expect_counters (3, 3) >>
  try_except_In (test_in (VInt 3) (VList [VInt 1; VInt 2; VInt 4])) >>
  expect_counters (3, 4).

End BasicTestSuite.

(** A run of assertion calls on one suite instance: each entry is a
    method name and its arguments, and a caller that goes on after a
    failure (as [test_assert_counters] does with [try] and [except]).
    The list of results is kept next to the counters. *)
Module Session.
Import Asserts.

Definition step (cl : string * list pyval) (st : list (result exn unit) * counters)
  : list (result exn unit) * counters :=
  let (r, c') := call (fst cl) (snd cl) (snd st) in
  ((fst st ++ [r])%list, c').

Definition run (calls : list (string * list pyval)) (c : counters)
  : list (result exn unit) * counters :=
  fold_left (fun st cl => step cl st) calls ([], c).

(** A call was attempted when a method was found and given the right
    number of arguments: it passed or it raised its assertion failure. *)
Definition is_pass (r : result exn unit) : bool :=
  match r with Ok _ => true | _ => false end.
Definition is_failure (r : result exn unit) : bool :=
  match r with Raise (AssertionException _) => true | _ => false end.

Definition count (p : result exn unit -> bool) (rs : list (result exn unit)) : nat :=
  length (filter (fun r => p r = true) rs).

End Session.

(** ** [testvibe/core/cli_handler.py]: [CLIHandler]

    The constructor, the logger and the progress bar are left out: they
    decide neither what is run nor how a command ends. *)

(** What the handler asks of the interpreter and of the operating
    system.  [testvibe.Testsuite] and its [RESERVED_NAMES] are declared
    outside the file at hand and are taken as given. *)
Record host : Type := {
  classes : positive -> pyclass;        (* the class objects *)
  Testsuite : positive;                 (* [testvibe.Testsuite] *)
  RESERVED_NAMES : list string;         (* [testvibe.Testsuite.RESERVED_NAMES] *)
  import_module : string -> string -> option pymodule;
                                        (* [importlib.import_module(name, package)],
                                           [None] for [ImportError] *)
  apply_to : pyobj -> Asserts.M unit;   (* calling a callable with a suite
                                           instance as its only argument,
                                           as far as that instance's
                                           counters are concerned *)
  path_exists : string -> bool;         (* [os.path.exists] *)
  path_isdir : string -> bool;          (* [os.path.isdir] *)
  path_abspath : string -> string;      (* [os.path.abspath] *)
  listdir : string -> list string;      (* [os.listdir] *)
  getcwd : string;                      (* [os.getcwd()] *)
  read_file : string -> option string   (* [open(path, 'r').read()],
                                           [None] for [IOError] *)
}.

Module CLIHandler.
Import PyStr.

Definition DEFAULT_INSTALL_DIR := "default_install/".
Definition FILENAME_SETTINGS := "settings.py".
Definition FILENAME_RUNLIST := "RUNLIST".
Definition FILENAME_TESTSUITE := "example_testsuite.py".
Definition INIT_FILENAME := "__init__.py".
Definition RUNLIST_COMMENT_PREFIX := "#".
Definition PLACEHOLDER_NAME := "<Example>".
(** [r'^[A-Za-z0-9_]+$'] *)
Definition RE_VALID_NAME : list PyRe.item :=
  [ PyRe.Bol;
    PyRe.PlusSet [("A", "Z"); ("a", "z"); ("0", "9"); ("_", "_")]%char;
    PyRe.Eol ].
Definition CMD_STARTPROJECT := "startproject".
Definition CMD_ADDTESTGROUP := "addtestgroup".
Definition CMD_RUN := "run".
Definition CMDS_WITH_NAME_ARG := [CMD_STARTPROJECT; CMD_ADDTESTGROUP].
Definition CURRENT_WORKING_DIR := ".".

Definition nl : string := String LF EmptyString.

(** What a run leaves behind: the suite instances built so far, each with
    its counters (an instance is named by its position), what was done,
    in order, and what was written to [sys.stderr]. *)
Inductive event : Type :=
  | EvImport (name package : string)
  | EvConstruct (cls : positive) (inst : nat)
  | EvTest (inst : nat) (tc : pyobj)
  | EvMakedirs (path : string)
  | EvCopyFile (dir_name filename : string) (subst : option (string * string))
  | EvAddInitFile (path : string).

Record state : Type := {
  insts : list Asserts.counters;
  events : list event;
  stderr : list string
}.

Definition initial : state := {| insts := []; events := []; stderr := [] |}.

(** A command stops early by [sys.exit] or by an exception nobody
    catches. *)
Inductive stop : Type :=
  | Exit (status : Z)
  | Uncaught (e : Asserts.exn).

Definition act : Type := prog state stop unit.

Definition emit (e : event) : act :=
  fun st => (Ok tt, {| insts := insts st;
                       events := (events st ++ [e])%list;
                       stderr := stderr st |}).

Definition stderr_write (msg : string) : act :=
  fun st => (Ok tt, {| insts := insts st;
                       events := events st;
                       stderr := (stderr st ++ [msg])%list |}).

Definition sys_exit (status : Z) : act := raise (Exit status).

(** *** Discovery *)

(** [issubclass(c, t)]: [t] is in the method resolution order of [c]. *)
Definition issubclass (h : host) (c t : positive) : bool :=
  bool_decide (t ∈ c :: cls_ancestors (classes h c)).

(** [dir(cl)]: the names of [cl.__dict__] and of the dictionaries of its
    ancestors.  (Python sorts them; the loops below build sets, so the
    order is of no consequence.) *)
Definition dir_class (h : host) (cl : positive) : list string :=
  elements (dom (cls_dict (classes h cl)) ∪
            ⋃ (map (fun a => dom (cls_dict (classes h a)))
                   (cls_ancestors (classes h cl)))).

(** [getattr(cl, o)]: the first dictionary along the method resolution
    order that has [o]. *)
Fixpoint lookup_mro (h : host) (mro : list positive) (o : string)
  : option pyobj :=
  match mro with
  | [] => None
  | k :: mro' =>
      match cls_dict (classes h k) !! o with
      | Some v => Some v
      | None => lookup_mro h mro' o
      end
  end.

Definition getattr_class (h : host) (cl : positive) (o : string)
  : option pyobj :=
  lookup_mro h (cl :: cls_ancestors (classes h cl)) o.

(** One turn of the loop of [_get_all_tcases]. *)
Definition tcases_step (h : host) (cl : positive) (tcases : gset pyobj)
    (o : string) : gset pyobj :=
  if startswith o "_" then tcases                         (* no private methods *)
  else if bool_decide (o ∈ RESERVED_NAMES h) then tcases  (* skip the reserved method names *)
  else if bool_decide (cls_dict (classes h cl) !! o = None)
       then tcases                                        (* don't consider inherited *)
  else match getattr_class h cl o with
       | Some v => if callable v then {[ v ]} ∪ tcases    (* only methods *)
                   else tcases
       | None => tcases
       end.

Definition _get_all_tcases (h : host) (cl : positive) : gset pyobj :=
  fold_left (tcases_step h cl) (dir_class h cl) ∅.

(** [dir(module)] *)
Definition dir_module (m : pymodule) : list string :=
  elements (dom (mod_dict m)).

(** One turn of the loop of [_get_all_tsuite_classes]; the classes are
    collected by identity. *)
Definition tsuites_step (h : host) (m : pymodule) (tsuites : gset positive)
    (o : string) : gset positive :=
  match mod_dict m !! o with
  | Some (PyClass c) =>
      if issubclass h c (Testsuite h) then {[ c ]} ∪ tsuites else tsuites
  | _ => tsuites
  end.

Definition _get_all_tsuite_classes (h : host) (m : pymodule) : gset positive :=
  fold_left (tsuites_step h m) (dir_module m) ∅.

(** *** Run lists *)

(** The loop of [_parse_runlist] over the text of the file. *)
Definition parse_runlist_text (content : string) : list string :=
  fold_left
    (fun tsuites line =>
       if negb (startswith line RUNLIST_COMMENT_PREFIX)
       then (tsuites ++ [line])%list else tsuites)
    (splitlines content) [].

Definition _parse_runlist (h : host) (path : string) : option (list string) :=
  parse_runlist_text <$> read_file h path.

Definition _get_all_dirs (h : host) (path : string) : gset string :=
  fold_left
    (fun dirs f => if path_isdir h f then {[ f ]} ∪ dirs else dirs)
    (listdir h path) ∅.

Definition _get_runlists (h : host) : gset string :=
  if path_exists h FILENAME_RUNLIST then {[ FILENAME_RUNLIST ]}
  else
    fold_left
      (fun runlists d =>
         fold_left
           (fun runlists f =>
              if String.eqb f FILENAME_RUNLIST
              then {[ d +:+ "/" +:+ f ]} ∪ runlists else runlists)
           (listdir h d) runlists)
      (elements (_get_all_dirs h CURRENT_WORKING_DIR)) ∅.

(** *** Running the suites *)

(** [tsuite_class()]: a new instance, its counters at zero. *)
Definition construct (cls : positive) : prog state stop nat :=
  fun st =>
    let i := length (insts st) in
    (Ok i, {| insts := (insts st ++ [Asserts.fresh])%list;
              events := (events st ++ [EvConstruct cls i])%list;
              stderr := stderr st |}).

(** Modelled from the spec: [Testsuite.test(tc, arg)], which is declared
    outside the file at hand (section 4.5: the test-case callable is
    invoked on the instance, and a failure it raises is not caught).  The
    callable runs on the counters of [arg], which are read from and
    written back to the instance. *)
Definition Testsuite_test (h : host) (self : nat) (tc : pyobj) (arg : nat)
  : act :=
  fun st =>
    match insts st !! arg with
    | None => (Raise (Uncaught Asserts.AttributeError), st)
    | Some c =>
        let (r, c') := apply_to h tc c in
        let st' := {| insts := <[arg := c']> (insts st);
                      events := (events st ++ [EvTest arg tc])%list;
                      stderr := stderr st |} in
        match r with
        | Ok _ => (Ok tt, st')
        | Raise e => (Raise (Uncaught e), st')
        end
    end.

(** The body of the loop over [tsuite_classes] in [_run_tsuites]. *)
Definition run_tsuite_class (h : host) (tsuite_class : positive) : act :=
  let tcs := _get_all_tcases h tsuite_class in
  bind (construct tsuite_class) (fun tsuite_class_i =>
  for_each (fun tc => Testsuite_test h tsuite_class_i tc tsuite_class_i)
           (elements tcs)).

(** The name handed to [importlib.import_module]: ['.%s' % tsuite[:-3]],
    after [tsuite = tsuite.split('/')[-1]] when there is a slash. *)
Definition module_name (tsuite : string) : string :=
  let tsuite :=
    if contains_char "/" tsuite then last_piece (split "/" tsuite)
    else tsuite in
  "." +:+ drop_last3 tsuite.

(** The body of the loop over the suites in [_run_tsuites]. *)
Definition run_tsuite (h : host) (tgroup tsuite : string) : act :=
  emit (EvImport (module_name tsuite) tgroup) >>
  match import_module h (module_name tsuite) tgroup with
  | None => raise (Uncaught Asserts.ImportError)
  | Some ts =>
      let tsuite_classes := _get_all_tsuite_classes h ts in
      (if bool_decide (size tsuite_classes = 0)
       then stderr_write ("no subclasses of testvibe.Testsuite found" +:+ nl) >>
            sys_exit 1
       else ret tt) >>
      for_each (run_tsuite_class h) (elements tsuite_classes)
  end.

(** The logging calls and the progress bar are left out: the loop visits
    [tsuites[0]], ..., [tsuites[len_tsuites - 1]] either way. *)
Definition _run_tsuites (h : host) (tgroup : string) (tsuites : list string)
  : act :=
  for_each (run_tsuite h tgroup) tsuites.

(** The body of the loop of [cmd_run]; both branches end alike. *)
Definition run_runlist (h : host) (rl : string) : act :=
  let tgroup :=
    if contains_char "/" rl then first_piece (split "/" rl)
    else last_piece (split "/" (getcwd h)) in
  match _parse_runlist h rl with
  | None => raise (Uncaught Asserts.IOError)
  | Some tsuites => _run_tsuites h tgroup tsuites
  end.

Definition cmd_run (h : host) : act :=
  let runlists := _get_runlists h in
  (if bool_decide (size runlists = 0)
   then stderr_write ("no runlists found..." +:+ nl) >> sys_exit 1
   else ret tt) >>
  for_each (run_runlist h) (elements runlists).

(** *** The commands that take a name *)

Definition _is_valid_name (s : string) : bool :=
  PyRe.re_match RE_VALID_NAME s.

Definition _exit_if_dir_exists (h : host) (dir_name : string) : act :=
  if path_exists h dir_name
  then stderr_write ("command error: '" +:+ path_abspath h dir_name
                     +:+ "' already exists" +:+ nl) >>
       sys_exit 1
  else ret tt.

Definition _add_init_file (path : string) : act :=
  emit (EvAddInitFile (path +:+ "/" +:+ INIT_FILENAME)).

Definition _copy_file (dir_name filename : string)
    (subst : option (string * string)) : act :=
  emit (EvCopyFile dir_name filename subst).

Definition cmd_startproject (h : host) (name : string) : act :=
  _exit_if_dir_exists h name >>
  emit (EvMakedirs (name +:+ "/logs")) >>
  _copy_file name FILENAME_SETTINGS (Some (PLACEHOLDER_NAME, name)) >>
  _add_init_file name.

Definition cmd_addtestgroup (h : host) (name : string) : act :=
  _exit_if_dir_exists h name >>
  emit (EvMakedirs name) >>
  _add_init_file name >>
  _copy_file name FILENAME_RUNLIST None >>
  _copy_file name FILENAME_TESTSUITE None.

(** [self.args]: the command and, for the commands that take one, the
    name. *)
Record arguments : Type := {
  cmd : string;
  name : string
}.

Definition execute (h : host) (args : arguments) : act :=
  if bool_decide (cmd args ∈ CMDS_WITH_NAME_ARG) then
    (if negb (_is_valid_name (name args))
     then stderr_write ("error: unsupported characters in name" +:+ nl) >>
          sys_exit 1
     else ret tt) >>
    (if String.eqb (cmd args) CMD_STARTPROJECT
     then cmd_startproject h (name args)
     else if String.eqb (cmd args) CMD_ADDTESTGROUP
     then cmd_addtestgroup h (name args)
     else ret tt)
  else if String.eqb (cmd args) CMD_RUN then cmd_run h
  else ret tt.

End CLIHandler.

(** ** A small project to run the handler on

    A test group [webtests] with three suite modules and a helper module.
    [login.py] imports [SmokeSuite] from [smoke.py], so both classes are
    in its namespace. *)

Module Demo.
Import Asserts CLIHandler.

Definition Testsuite_class : pyclass :=
  {| cls_module := "testvibe";
     cls_ancestors := [];
     cls_dict := list_to_map
       [ ("assert_equal", PyFunc 101); ("assert_eq", PyFunc 101);
         ("get_assert_counters", PyFunc 102);
         ("reset_assert_counter", PyFunc 103);
         ("test", PyFunc 104); ("setup", PyFunc 105);
         ("teardown", PyFunc 106) ] |}.

Definition LoginSuite : pyclass :=
  {| cls_module := "webtests.login";
     cls_ancestors := [1%positive];
     cls_dict := list_to_map
       [ ("test_login", PyFunc 201); ("test_logout", PyFunc 202);
         ("_make_user", PyFunc 203); ("setup", PyFunc 204);
         ("TIMEOUT", PyInst 205 false) ] |}.

Definition SmokeSuite : pyclass :=
  {| cls_module := "webtests.smoke";
     cls_ancestors := [1%positive];
     cls_dict := list_to_map [ ("test_ping", PyFunc 301) ] |}.

Definition BrokenSuite : pyclass :=
  {| cls_module := "webtests.broken";
     cls_ancestors := [1%positive];
     cls_dict := list_to_map
       [ ("test_1_broken", PyFunc 401); ("test_2_after", PyFunc 402) ] |}.

Definition no_class : pyclass :=
  {| cls_module := ""; cls_ancestors := []; cls_dict := ∅ |}.

Definition demo_classes (c : positive) : pyclass :=
  match c with
  | 1 => Testsuite_class
  | 2 => LoginSuite
  | 3 => SmokeSuite
  | 4 => BrokenSuite
  | _ => no_class
  end%positive.

Definition login_module : pymodule :=
  {| mod_name := "webtests.login";
     mod_dict := list_to_map
       [ ("testvibe", PyInst 900 false); ("LoginSuite", PyClass 2);
         ("SmokeSuite", PyClass 3); ("DEFAULT_USER", PyInst 901 false) ] |}.

Definition smoke_module : pymodule :=
  {| mod_name := "webtests.smoke";
     mod_dict := list_to_map
       [ ("testvibe", PyInst 900 false); ("SmokeSuite", PyClass 3) ] |}.

Definition broken_module : pymodule :=
  {| mod_name := "webtests.broken";
     mod_dict := list_to_map
       [ ("testvibe", PyInst 900 false); ("BrokenSuite", PyClass 4) ] |}.

Definition helpers_module : pymodule :=
  {| mod_name := "webtests.helpers";
     mod_dict := list_to_map
       [ ("make_user", PyFunc 950); ("DEFAULT_USER", PyInst 901 false) ] |}.

Definition demo_import (name package : string) : option pymodule :=
  if negb (String.eqb package "webtests") then None
  else if String.eqb name ".login" then Some login_module
  else if String.eqb name ".smoke" then Some smoke_module
  else if String.eqb name ".broken" then Some broken_module
  else if String.eqb name ".helpers" then Some helpers_module
  else None.

(** The test cases, called with the suite instance alone. *)
Definition demo_apply (o : pyobj) : M unit :=
  match o with
  | PyFunc 201 => check assert_equal [VInt 9; VInt 9]
  | PyFunc 202 =>
      check assert_null [VNone] >>
      check assert_lesser_than_or_equal [VInt 7; VInt 9]
  | PyFunc 301 => check assert_true [VBool true]
  | PyFunc 401 => check assert_in [VInt 3; VList [VInt 1; VInt 2; VInt 4]]
  | PyFunc 402 => check assert_equal [VStr "A"; VStr "A"]
  | _ => ret tt
  end%positive.

Definition runlist_text : string :=
  "# smoke tests first" +:+ nl +:+ "smoke.py" +:+ nl +:+ "login.py" +:+ nl.

(** The handler is started inside the test group, next to its [RUNLIST]. *)
Definition project : host :=
  {| classes := demo_classes;
     Testsuite := 1%positive;
     RESERVED_NAMES := ["setup"; "teardown"; "test"];
     import_module := demo_import;
     apply_to := demo_apply;
     path_exists := fun p => String.eqb p "RUNLIST";
     path_isdir := fun _ => false;
     path_abspath := fun p => "/home/ci/project/webtests/" +:+ p;
     listdir := fun _ => [];
     getcwd := "/home/ci/project/webtests";
     read_file := fun p =>
       if String.eqb p "RUNLIST" then Some runlist_text else None |}.

(** The same place without any [RUNLIST]. *)
Definition bare_directory : host :=
  {| classes := demo_classes;
     Testsuite := 1%positive;
     RESERVED_NAMES := ["setup"; "teardown"; "test"];
     import_module := demo_import;
     apply_to := demo_apply;
     path_exists := fun _ => false;
     path_isdir := fun _ => false;
     path_abspath := fun p => "/home/ci/" +:+ p;
     listdir := fun _ => [];
     getcwd := "/home/ci";
     read_file := fun _ => None |}.

End Demo.

(** ** Vocabulary of the statements *)

Module Vocabulary.
Import PyStr CLIHandler.

(** A line of a run list that is not a comment. *)
Definition kept (line : string) : Prop :=
  startswith line RUNLIST_COMMENT_PREFIX = false.

(** A character that [RE_VALID_NAME] allows in a name. *)
Definition valid_char (c : ascii) : bool :=
  PyRe.in_set [("A", "Z"); ("a", "z"); ("0", "9"); ("_", "_")]%char c.

Fixpoint all_valid (s : string) : bool :=
  match s with
  | EmptyString => true
  | String c s' => valid_char c && all_valid s'
  end.

(** What is left to match once the first character of the name is
    taken: more characters of the set, then the end of the name. *)
Fixpoint more_valid (t : string) : bool :=
  PyRe.at_eol t ||
  match t with
  | EmptyString => false
  | String d t' => valid_char d && more_valid t'
  end.

(** The name [o] of class [cl] passes the four tests of
    [_get_all_tcases], and [v] is what it is bound to. *)
Definition is_test_case (h : host) (cl : positive) (o : string) (v : pyobj)
  : Prop :=
  startswith o "_" = false
  /\ (o ∉ RESERVED_NAMES h)
  /\ cls_dict (classes h cl) !! o = Some v
  /\ callable v = true.

(** Some name of the module is bound to the class [c]. *)
Definition bound_in (m : pymodule) (c : positive) : Prop :=
  exists o, mod_dict m !! o = Some (PyClass c).

(** The class [c] was declared by a [class] statement of the module
    [m]. *)
Definition declared_in (h : host) (m : pymodule) (c : positive) : Prop :=
  cls_module (classes h c) = mod_name m.

(** Among the results of a run of assertion calls: the assertions that
    were attempted (they passed or raised their failure) and those that
    failed. *)
Definition attempts (rs : list (result Asserts.exn unit)) : nat :=
  Session.count Session.is_pass rs + Session.count Session.is_failure rs.

Definition failures (rs : list (result Asserts.exn unit)) : nat :=
  Session.count Session.is_failure rs.

(** The test cases that get called when [tcs] are called in turn on an
    instance whose counters are [c]: all of them up to and including the
    first that raises. *)
Fixpoint invoked (h : host) (tcs : list pyobj) (c : Asserts.counters)
  : list pyobj :=
  match tcs with
  | [] => []
  | tc :: tcs' =>
      tc :: match apply_to h tc c with
            | (Ok _, c') => invoked h tcs' c'
            | (Raise _, _) => []
            end
  end.

(** The test cases of a suite class, in the order in which the
    dispatcher goes through them; whether they all return; the counters
    they leave on a fresh instance. *)
Definition tcases_of (h : host) (cl : positive) : list pyobj :=
  elements (_get_all_tcases h cl).

Definition all_pass (h : host) (cl : positive) : Prop :=
  (for_each (apply_to h) (tcases_of h cl) Asserts.fresh).1 = Ok tt.

Definition counters_of (h : host) (cl : positive) : Asserts.counters :=
  (for_each (apply_to h) (tcases_of h cl) Asserts.fresh).2.

(** What running the suite classes [cls] does when every test case
    returns, the first instance being number [i]: for each class one
    instance is built, then each of its test cases is called on it. *)
Fixpoint suite_events (h : host) (cls : list positive) (i : nat)
  : list event :=
  match cls with
  | [] => []
  | cl :: cls' =>
      (EvConstruct cl i :: map (EvTest i) (tcases_of h cl)
       ++ suite_events h cls' (S i))%list
  end.

(** An exception of a test case, seen from the command. *)
Definition uncaught (r : result Asserts.exn unit) : result stop unit :=
  match r with
  | Ok _ => Ok tt
  | Raise e => Raise (Uncaught e)
  end.

(** How a test method ends on a suite that [setUp] has just built. *)
Definition ends (m : Asserts.M unit) : result Asserts.exn unit :=
  (m Asserts.fresh).1.

Definition raises (k : Asserts.assertion_exception)
  : result Asserts.exn unit :=
  Raise (Asserts.AssertionException k).

(** The second state has what the first has done, and maybe more. *)
Definition grows (st st' : state) : Prop :=
  events st `prefix_of` events st'.

End Vocabulary.

(** ** What the dispatcher is to do, read off the project

    The suite classes that an identifier of a run list stands for, and
    what running a list of identifiers leaves when every test case
    returns: the statements about [_run_tsuites] and [cmd_run] are
    written with these. *)

Module Plan.
Import PyStr CLIHandler Vocabulary.

(** The test group in which [cmd_run] runs the run list [rl]. *)
Definition tgroup_of (h : host) (rl : string) : string :=
  if contains_char "/" rl then first_piece (split "/" rl)
  else last_piece (split "/" (getcwd h)).

(** The suite classes discovered for one identifier, in the order in
    which the dispatcher goes through them; none when the module cannot
    be imported. *)
Definition suites_of (h : host) (tgroup tsuite : string) : list positive :=
  match import_module h (module_name tsuite) tgroup with
  | Some m => elements (_get_all_tsuite_classes h m)
  | None => []
  end.

(** An identifier whose module is imported, has a suite class, and
    whose test cases all return. *)
Definition runnable (h : host) (tgroup tsuite : string) : Prop :=
  suites_of h tgroup tsuite <> []
  /\ Forall (all_pass h) (suites_of h tgroup tsuite).

(** The events of running the identifiers [tsuites], the next instance
    being number [i]: for each identifier the import, then for each of
    its suite classes one construction and the calls of its test cases
    on the instance built. *)
Fixpoint dispatch_events (h : host) (tgroup : string) (tsuites : list string)
    (i : nat) : list event :=
  match tsuites with
  | [] => []
  | tsuite :: tsuites' =>
      (EvImport (module_name tsuite) tgroup
       :: suite_events h (suites_of h tgroup tsuite) i
       ++ dispatch_events h tgroup tsuites'
            (i + length (suites_of h tgroup tsuite)))%list
  end.

(** The instances that running [tsuites] builds, with the counters they
    end with: one per suite class of each identifier. *)
Fixpoint dispatch_insts (h : host) (tgroup : string) (tsuites : list string)
  : list Asserts.counters :=
  match tsuites with
  | [] => []
  | tsuite :: tsuites' =>
      (map (counters_of h) (suites_of h tgroup tsuite)
       ++ dispatch_insts h tgroup tsuites')%list
  end.

(** The imports among some events, as pairs of module name and
    package. *)
Definition imports (evs : list event) : list (string * string) :=
  omap (fun e => match e with
                 | EvImport name package => Some (name, package)
                 | _ => None
                 end) evs.

End Plan.

(** ** Further notions: texts and traces *)

Module Notions.
Import PyStr CLIHandler.

(** A text whose lines end with CR LF, as an editor on Windows writes
    them. *)
Fixpoint unlines_crlf (l : list string) : string :=
  match l with
  | [] => EmptyString
  | x :: l' => x +:+ String CR (String LF (unlines_crlf l'))
  end.

(** A suite identifier as [_parse_runlist] can return it. *)
Definition identifier (line : string) : Prop :=
  no_break line = true /\ startswith line RUNLIST_COMMENT_PREFIX = false.

(** The events of running suites and those of laying out files. *)
Definition is_run_event (e : event) : bool :=
  match e with
  | EvImport _ _ | EvConstruct _ _ | EvTest _ _ => true
  | _ => false
  end.

Definition is_file_event (e : event) : bool :=
  match e with
  | EvMakedirs _ | EvCopyFile _ _ _ | EvAddInitFile _ => true
  | _ => false
  end.

Definition is_construct (e : event) : bool :=
  match e with EvConstruct _ _ => true | _ => false end.

Definition constructs (evs : list event) : nat :=
  length (filter (fun e => is_construct e = true) evs).

(** What a run adds to a state: events of running suites only, new
    instances after the instances that were there, which are left as
    they were, and as many new instances as instances were built. *)
Definition run_adds (st st' : state) : Prop :=
  exists evs,
    events st' = (events st ++ evs)%list
    /\ Forall (fun e => is_run_event e = true) evs
    /\ insts st `prefix_of` insts st'
    /\ length (insts st') = length (insts st) + constructs evs.

(** What a command that lays out files adds to a state: events of
    laying out files only, and no suite instance. *)
Definition file_adds (st st' : state) : Prop :=
  insts st' = insts st
  /\ exists evs,
       events st' = (events st ++ evs)%list
       /\ Forall (fun e => is_file_event e = true) evs.

End Notions.

(** ** The same project, seen from its root

    The handler is started one level up: no [RUNLIST] there, two test
    groups below, of which only [webtests] has a run list, and a plain
    file. *)

Module Workspace.
Import Asserts CLIHandler.

Definition root_listdir (p : string) : list string :=
  if String.eqb p "." then ["README"; "apitests"; "webtests"]
  else if String.eqb p "webtests"
       then ["RUNLIST"; "__init__.py"; "login.py"; "smoke.py"]
  else if String.eqb p "apitests" then ["__init__.py"]
  else [].

Definition root : host :=
  {| classes := Demo.demo_classes;
     Testsuite := 1%positive;
     RESERVED_NAMES := ["setup"; "teardown"; "test"];
     import_module := Demo.demo_import;
     apply_to := Demo.demo_apply;
     path_exists := fun p =>
       String.eqb p "webtests" || String.eqb p "apitests"
       || String.eqb p "README";
     path_isdir := fun p => String.eqb p "webtests" || String.eqb p "apitests";
     path_abspath := fun p => "/home/ci/project/" +:+ p;
     listdir := root_listdir;
     getcwd := "/home/ci/project";
     read_file := fun p =>
       if String.eqb p "webtests/RUNLIST" then Some Demo.runlist_text
       else None |}.

(** The test group with a run list that names, between two suites, a
    module without any suite class. *)
Definition helpers_runlist_text : string :=
  "smoke.py" +:+ nl +:+ "helpers.py" +:+ nl +:+ "login.py" +:+ nl.

Definition with_helpers : host :=
  {| classes := Demo.demo_classes;
     Testsuite := 1%positive;
     RESERVED_NAMES := ["setup"; "teardown"; "test"];
     import_module := Demo.demo_import;
     apply_to := Demo.demo_apply;
     path_exists := fun p => String.eqb p "RUNLIST";
     path_isdir := fun _ => false;
     path_abspath := fun p => "/home/ci/project/webtests/" +:+ p;
     listdir := fun _ => [];
     getcwd := "/home/ci/project/webtests";
     read_file := fun p =>
       if String.eqb p "RUNLIST" then Some helpers_runlist_text else None |}.

End Workspace.

(** ** [startproject] and [addtestgroup] on a file system

    [CLIHandler] above keeps, of the two commands that lay out files,
    the order of what they do.  Here the same functions are run on a
    file system, to see what they leave on it.  A path is the string the
    program builds, relative to the current directory; the program only
    ever joins a name and a file name with a slash. *)

Module Scaffold.
Import PyStr.

(** *** [os.path.dirname] *)

(** [p[:p.rfind('/') + 1]]: the characters up to and including the last
    slash. *)
Fixpoint head_upto_last (c : ascii) (s : string) : string :=
  match s with
  | EmptyString => EmptyString
  | String d s' =>
      if contains_char c s' then String d (head_upto_last c s')
      else if Ascii.eqb d c then String d EmptyString
      else EmptyString
  end.

Fixpoint all_char (c : ascii) (s : string) : bool :=
  match s with
  | EmptyString => true
  | String d s' => Ascii.eqb d c && all_char c s'
  end.

(** [s.rstrip(c)] *)
Fixpoint rstrip (c : ascii) (s : string) : string :=
  match s with
  | EmptyString => EmptyString
  | String d s' =>
      match rstrip c s' with
      | EmptyString => if Ascii.eqb d c then EmptyString else String d EmptyString
      | r => String d r
      end
  end.

Definition dirname (p : string) : string :=
  let head := head_upto_last "/" p in
  if negb (String.eqb head EmptyString) && negb (all_char "/" head)
  then rstrip "/" head else head.

(** The directories that [os.makedirs(p)] makes on the way to [p]: what
    stands before each slash of [p], the root apart. *)
Fixpoint prefixes_at (c : ascii) (cur : string) (s : string) : list string :=
  match s with
  | EmptyString => []
  | String d s' =>
      if Ascii.eqb d c
      then match cur with
           | EmptyString => prefixes_at c (String d EmptyString) s'
           | _ => cur :: prefixes_at c (cur +:+ String d EmptyString) s'
           end
      else prefixes_at c (cur +:+ String d EmptyString) s'
  end.

Definition ancestors (p : string) : list string :=
  prefixes_at "/" EmptyString p.

(** *** [str.replace] *)

(** The occurrences of [old] are taken from left to right and do not
    overlap: after one is replaced, the rest of it is skipped. *)
Fixpoint replace_from (old new : string) (skip : nat) (s : string) : string :=
  match s with
  | EmptyString => EmptyString
  | String c s' =>
      match skip with
      | S k => replace_from old new k s'
      | O =>
          if String.prefix old s
          then new +:+ replace_from old new (String.length old - 1) s'
          else String c (replace_from old new 0 s')
      end
  end.

(** With an empty [old], [new] goes before every character and at the
    end. *)
Fixpoint interleave (new s : string) : string :=
  match s with
  | EmptyString => new
  | String c s' => new +:+ String c (interleave new s')
  end.

Definition py_replace (old new s : string) : string :=
  match old with
  | EmptyString => interleave new s
  | _ => replace_from old new 0 s
  end.

(** *** The file system *)

Record filesys : Type := {
  fs_files : gmap string string;   (* regular files and what is in them *)
  fs_dirs : gset string            (* directories *)
}.

(** [os.path.exists(p)] *)
Definition fs_exists (fs : filesys) (p : string) : bool :=
  bool_decide (is_Some (fs_files fs !! p)) || bool_decide (p ∈ fs_dirs fs).

(** The directory an entry is in is there ([''] is the current
    directory, and the root is its own parent). *)
Definition parent_ok (fs : filesys) (p : string) : Prop :=
  dirname p = EmptyString \/ dirname p = p \/ dirname p ∈ fs_dirs fs.

#[global] Instance parent_ok_dec fs p : Decision (parent_ok fs p).
Proof. unfold parent_ok. apply _. Defined.

(** A file system as the operating system keeps it: every entry is in a
    directory that is there, and nothing is both a file and a
    directory. *)
Definition well_formed (fs : filesys) : Prop :=
  set_Forall (parent_ok fs) (fs_dirs fs)
  /\ map_Forall (fun p _ => parent_ok fs p /\ p ∉ fs_dirs fs) (fs_files fs).

#[global] Instance well_formed_dec fs : Decision (well_formed fs).
Proof. unfold well_formed. apply _. Defined.

Record world : Type := {
  w_fs : filesys;
  w_stderr : list string
}.

Inductive halt : Type :=
  | Exit (status : Z)
  | OSError
  | IOError.

(** Where the package is installed, and [os.path.abspath]. *)
Record install : Type := {
  pkg_dir : string;                (* [os.path.dirname(testvibe.__file__)] *)
  abspath : string -> string
}.

Definition stderr_write (msg : string) : prog world halt unit :=
  fun w => (Ok tt, {| w_fs := w_fs w; w_stderr := (w_stderr w ++ [msg])%list |}).

Definition sys_exit (status : Z) : prog world halt unit := raise (Exit status).

(** [os.makedirs(p)]: [OSError] when [p] is there already or when a file
    stands where a directory is needed; otherwise [p] and the
    directories on the way to it are made. *)
Definition makedirs (p : string) : prog world halt unit :=
  fun w =>
    let fs := w_fs w in
    if fs_exists fs p then (Raise OSError, w)
    else if existsb (fun a => bool_decide (is_Some (fs_files fs !! a)))
                    (ancestors p)
    then (Raise OSError, w)
    else (Ok tt,
          {| w_fs := {| fs_files := fs_files fs;
                        fs_dirs := fs_dirs fs ∪ list_to_set (ancestors p)
                                   ∪ {[ p ]} |};
             w_stderr := w_stderr w |}).

(** [with open(p, 'w') as f: f.write(content)]: [IOError] when the
    directory of [p] is not there or [p] is a directory; otherwise the
    file is made, or made anew. *)
Definition write_file (p content : string) : prog world halt unit :=
  fun w =>
    let fs := w_fs w in
    if negb (String.eqb (dirname p) EmptyString)
       && negb (bool_decide (dirname p ∈ fs_dirs fs))
    then (Raise IOError, w)
    else if bool_decide (p ∈ fs_dirs fs) then (Raise IOError, w)
    else (Ok tt,
          {| w_fs := {| fs_files := <[p := content]> (fs_files fs);
                        fs_dirs := fs_dirs fs |};
             w_stderr := w_stderr w |}).

(** [with open(p, 'r') as f: f.read()] *)
Definition read_file (p : string) : prog world halt string :=
  fun w =>
    match fs_files (w_fs w) !! p with
    | Some content => (Ok content, w)
    | None => (Raise IOError, w)
    end.

(** *** The functions of [CLIHandler] *)

Definition _get_src (ins : install) (filename : string) : string :=
  pkg_dir ins +:+ "/" +:+ CLIHandler.DEFAULT_INSTALL_DIR +:+ filename.

Definition _exit_if_dir_exists (ins : install) (dir_name : string)
  : prog world halt unit :=
  fun w =>
    if fs_exists (w_fs w) dir_name
    then (stderr_write ("command error: '" +:+ abspath ins dir_name
                        +:+ "' already exists" +:+ CLIHandler.nl) >>
          sys_exit 1) w
    else (Ok tt, w).

Definition _add_init_file (path : string) : prog world halt unit :=
  write_file (path +:+ "/" +:+ CLIHandler.INIT_FILENAME) EmptyString.

Definition _copy_file (ins : install) (dir_name filename : string)
    (search replace : option string) : prog world halt unit :=
  bind (read_file (_get_src ins filename)) (fun src_content =>
  let src_content :=
    match search, replace with
    | Some search, Some replace => py_replace search replace src_content
    | _, _ => src_content
    end in
  write_file (dir_name +:+ "/" +:+ filename) src_content).

Definition cmd_startproject (ins : install) (name : string)
  : prog world halt unit :=
  _exit_if_dir_exists ins name >>
  makedirs (name +:+ "/logs") >>
  _copy_file ins name CLIHandler.FILENAME_SETTINGS
    (Some CLIHandler.PLACEHOLDER_NAME) (Some name) >>
  _add_init_file name.

Definition cmd_addtestgroup (ins : install) (name : string)
  : prog world halt unit :=
  _exit_if_dir_exists ins name >>
  makedirs name >>
  _add_init_file name >>
  _copy_file ins name CLIHandler.FILENAME_RUNLIST None None >>
  _copy_file ins name CLIHandler.FILENAME_TESTSUITE None None.

(** *** A machine with the package installed *)

Definition site : string := "/opt/testvibe".

Definition settings_template : string :=
  "PROJECT = '<Example>'" +:+ CLIHandler.nl +:+ "LOG_LEVEL_DEBUG = True"
  +:+ CLIHandler.nl.

Definition runlist_template : string :=
  "# list your test suites here" +:+ CLIHandler.nl +:+ "example_testsuite.py"
  +:+ CLIHandler.nl.

Definition testsuite_template : string :=
  "import testvibe" +:+ CLIHandler.nl.

Definition installed : filesys :=
  {| fs_files := list_to_map
       [ (site +:+ "/default_install/settings.py", settings_template);
         (site +:+ "/default_install/RUNLIST", runlist_template);
         (site +:+ "/default_install/example_testsuite.py", testsuite_template) ];
     fs_dirs := list_to_set
       [ "/"; "/opt"; site; site +:+ "/default_install" ] |}.

Definition machine : install :=
  {| pkg_dir := site; abspath := fun p => "/home/ci/" +:+ p |}.

Definition start : world := {| w_fs := installed; w_stderr := [] |}.

(** The same machine with the templates gone. *)
Definition stripped : world :=
  {| w_fs := {| fs_files := ∅; fs_dirs := fs_dirs installed |};
     w_stderr := [] |}.

End Scaffold.

(** ** Notions for the file system *)

Module Layout.
Import Scaffold.

(** A file system with one more directory, or with a file written. *)
Definition add_dir (fs : filesys) (d : string) : filesys :=
  {| fs_files := fs_files fs; fs_dirs := fs_dirs fs ∪ {[ d ]} |}.

Definition add_file (fs : filesys) (p content : string) : filesys :=
  {| fs_files := <[p := content]> (fs_files fs); fs_dirs := fs_dirs fs |}.

Definition on_fs (w : world) (fs : filesys) : world :=
  {| w_fs := fs; w_stderr := w_stderr w |}.

(** The world after the complaint that [name] is there already. *)
Definition complained (ins : install) (name : string) (w : world) : world :=
  {| w_fs := w_fs w;
     w_stderr := (w_stderr w
                  ++ ["command error: '" +:+ abspath ins name
                      +:+ "' already exists" +:+ CLIHandler.nl])%list |}.

(** How often a character occurs in a string. *)
Fixpoint count_char (c : ascii) (s : string) : nat :=
  match s with
  | EmptyString => 0
  | String d s' => (if Ascii.eqb d c then 1 else 0) + count_char c s'
  end.

(** A name of one path component. *)
Definition plain (name : string) : Prop :=
  name <> EmptyString /\ PyStr.contains_char "/" name = false.

(** What [startproject] leaves when it comes to its end, and what it
    leaves when the settings template cannot be read. *)
Definition project_dirs (fs : filesys) (name : string) : filesys :=
  add_dir (add_dir fs name) (name +:+ "/logs").

Definition project (fs : filesys) (name settings : string) : filesys :=
  add_file
    (add_file (project_dirs fs name)
       (name +:+ "/" +:+ CLIHandler.FILENAME_SETTINGS) settings)
    (name +:+ "/" +:+ CLIHandler.INIT_FILENAME) EmptyString.

(** What [addtestgroup] leaves: after its first two steps, after its
    third, and when it comes to its end. *)
Definition group_init (fs : filesys) (name : string) : filesys :=
  add_file (add_dir fs name)
    (name +:+ "/" +:+ CLIHandler.INIT_FILENAME) EmptyString.

Definition group_runlist (fs : filesys) (name runlist : string) : filesys :=
  add_file (group_init fs name)
    (name +:+ "/" +:+ CLIHandler.FILENAME_RUNLIST) runlist.

Definition group (fs : filesys) (name runlist testsuite : string) : filesys :=
  add_file (group_runlist fs name runlist)
    (name +:+ "/" +:+ CLIHandler.FILENAME_TESTSUITE) testsuite.

End Layout.

(** * Properties *)

(** ** Strings *)

Section StringFacts.
Import PyStr.

(** stdpp keeps [append] from being unfolded by [simpl]. *)
Lemma append_nil (t : string) : EmptyString +:+ t = t.
Proof. reflexivity. Qed.

Lemma append_cons (c : ascii) (s t : string) :
  String c s +:+ t = String c (s +:+ t).
Proof. reflexivity. Qed.

Lemma append_empty_r (s : string) : s +:+ EmptyString = s.
Proof.
  induction s as [|c s IH]; [reflexivity|]. by rewrite append_cons, IH.
Qed.

Lemma append_snoc (s t : string) (c : ascii) :
  (s +:+ String c EmptyString) +:+ t = s +:+ String c t.
Proof.
  induction s as [|d s IH]; [reflexivity|]. by rewrite !append_cons, IH.
Qed.

Lemma length_append (s t : string) :
  String.length (s +:+ t) = String.length s + String.length t.
Proof.
  induction s as [|c s IH]; [reflexivity|].
  rewrite append_cons. simpl. by rewrite IH.
Qed.

Lemma substring_append_l (s t : string) :
  String.substring 0 (String.length s) (s +:+ t) = s.
Proof.
  induction s as [|c s IH].
  - rewrite append_nil. by destruct t.
  - rewrite append_cons. simpl. by rewrite IH.
Qed.

(** A prefix of length [n] and what is left of the string. *)
Lemma substring_split (s : string) (n : nat) :
  n <= String.length s ->
  exists t, s = String.substring 0 n s +:+ t /\ String.length t = String.length s - n.
Proof.
  revert n. induction s as [|c s IH]; intros n Hn; simpl in *.
  - assert (n = 0) as -> by lia. by exists EmptyString.
  - destruct n as [|n]; simpl.
    + by exists (String c s).
    + destruct (IH n) as [t [Ht Hl]]; [lia|].
      exists t. split; [rewrite append_cons; by f_equal | done].
Qed.

Lemma startswith_char (s : string) (c : ascii) :
  startswith s (String c EmptyString) = true <-> exists r, s = String c r.
Proof.
  unfold startswith. destruct s as [|d s]; simpl.
  - split; [done | by intros [r Hr]].
  - destruct (ascii_dec c d) as [->|Hne].
    + split; [by exists s | by destruct s].
    + split; [done | intros [r Hr]; congruence].
Qed.

Lemma split_acc_nonempty (c : ascii) (cur s : string) : split_acc c cur s <> [].
Proof.
  revert cur. induction s as [|d s IH]; intros cur; simpl; [done|].
  destruct (Ascii.eqb d c); [done | apply IH].
Qed.

Lemma last_cons_nonempty (x : string) (l : list string) :
  l <> [] -> List.last (x :: l) EmptyString = List.last l EmptyString.
Proof. by destruct l. Qed.

Lemma split_acc_no_sep (c : ascii) (cur s : string) :
  contains_char c s = false -> split_acc c cur s = [cur +:+ s].
Proof.
  revert cur. induction s as [|d s IH]; intros cur Hs; simpl in *.
  - by rewrite append_empty_r.
  - apply orb_false_iff in Hs as [Hd Hs].
    rewrite Ascii.eqb_sym, Hd, IH by done. by rewrite append_snoc.
Qed.

Lemma last_split_acc_app (c : ascii) (x cur y : string) :
  last_piece (split_acc c cur (x +:+ String c y))
  = last_piece (split_acc c EmptyString y).
Proof.
  unfold last_piece. revert cur.
  induction x as [|d x IH]; intros cur; rewrite ?append_nil, ?append_cons; simpl.
  - rewrite Ascii.eqb_refl.
    apply last_cons_nonempty, split_acc_nonempty.
  - destruct (Ascii.eqb d c).
    + rewrite last_cons_nonempty by apply split_acc_nonempty. apply IH.
    + apply IH.
Qed.

Lemma contains_char_app_sep (c : ascii) (x y : string) :
  contains_char c (x +:+ String c y) = true.
Proof.
  induction x as [|d x IH]; rewrite ?append_nil, ?append_cons; simpl.
  - by rewrite Ascii.eqb_refl.
  - rewrite IH. apply orb_true_r.
Qed.

(** [(path + '/' + base).split('/')[-1] == base] when [base] has no slash *)
Lemma last_piece_split (c : ascii) (path base : string) :
  contains_char c base = false ->
  last_piece (split c (path +:+ String c base)) = base.
Proof.
  intros Hb. unfold split. rewrite last_split_acc_app.
  by rewrite split_acc_no_sep.
Qed.

Lemma drop_last3_suffix (stem sfx : string) :
  String.length sfx = 3 -> drop_last3 (stem +:+ sfx) = stem.
Proof.
  intros Hs. unfold drop_last3. rewrite length_append, Hs.
  replace (String.length stem + 3 - 3) with (String.length stem) by lia.
  apply substring_append_l.
Qed.

Lemma drop_last3_split (s : string) :
  exists t, s = drop_last3 s +:+ t
            /\ String.length t = Nat.min 3 (String.length s).
Proof.
  unfold drop_last3.
  destruct (substring_split s (String.length s - 3)) as [t [Ht Hl]]; [lia|].
  exists t. split; [done | lia].
Qed.

Lemma splitlines_acc_line (l cur rest : string) :
  no_break l = true ->
  splitlines_acc cur (l +:+ String LF rest)
  = (cur +:+ l) :: splitlines_acc EmptyString rest.
Proof.
  revert cur.
  induction l as [|d l IH]; intros cur Hl;
    rewrite ?append_nil, ?append_cons; simpl in *.
  - by rewrite append_empty_r.
  - apply andb_true_iff in Hl as [Hd Hl]. unfold is_break in Hd.
    apply negb_true_iff, orb_false_iff in Hd as [H1 H2].
    rewrite H1, H2, IH by done. by rewrite append_snoc.
Qed.

(** Lines written out one per line are read back as they were. *)
Lemma splitlines_unlines (lines : list string) :
  Forall (fun l => no_break l = true) lines ->
  splitlines (unlines lines) = lines.
Proof.
  unfold splitlines. induction 1 as [|l lines Hl _ IH]; simpl; [done|].
  by rewrite splitlines_acc_line, append_nil, IH.
Qed.

(** The primitives on the cases that matter to the handler. *)

Example splitlines_breaks :
  splitlines ("a" +:+ String LF (String LF ("b" +:+ String CR (String LF
              ("c" +:+ String CR EmptyString)))))
  = ["a"; ""; "b"; "c"].
Proof. reflexivity. Qed.

Example splitlines_empty :
  splitlines EmptyString = [] /\ splitlines (String LF EmptyString) = [""].
Proof. by split. Qed.

Example split_slash :
  split "/" "webtests/RUNLIST" = ["webtests"; "RUNLIST"]
  /\ split "/" "RUNLIST" = ["RUNLIST"]
  /\ split "/" "a//b/" = ["a"; ""; "b"; ""].
Proof. by repeat split. Qed.

Example drop_last3_short :
  drop_last3 "smoke.py" = "smoke" /\ drop_last3 "ab" = ""
  /\ drop_last3 "" = "".
Proof. by repeat split. Qed.

End StringFacts.

(** ** Programs *)

Section ProgFacts.
Context {S E A : Type}.
Implicit Types (body : A -> prog S E unit) (l : list A) (s : S).

Lemma for_each_app body l1 l2 s :
  for_each body (l1 ++ l2) s
  = match for_each body l1 s with
    | (Ok _, s') => for_each body l2 s'
    | (Raise e, s') => (Raise e, s')
    end.
Proof.
  revert s. induction l1 as [|x l1 IH]; intros s; simpl; [done|].
  unfold bind. destruct (body x s) as [[[]|e] s1]; [apply IH | done].
Qed.

(** A loop that stops early was stopped by one of its turns. *)
Lemma for_each_raise_inv body l s e s' :
  for_each body l s = (Raise e, s') ->
  exists x s0, x ∈ l /\ body x s0 = (Raise e, s').
Proof.
  revert s. induction l as [|x l IH]; intros s; simpl; [done|].
  unfold bind. destruct (body x s) as [[[]|e0] s1] eqn:Hx.
  - intros H. destruct (IH _ H) as (y & s0 & Hy & Hb).
    exists y, s0. split; [by right | done].
  - intros [= <- <-]. exists x, s. split; [by left | done].
Qed.

(** A property of the state that every turn keeps is kept by the loop. *)
Lemma for_each_preserves (R : S -> S -> Prop) body l :
  (forall s, R s s) ->
  (forall s1 s2 s3, R s1 s2 -> R s2 s3 -> R s1 s3) ->
  (forall x s, R s (body x s).2) ->
  forall s, R s (for_each body l s).2.
Proof.
  intros Hrefl Htrans Hbody. induction l as [|x l IH]; intros s; simpl.
  - apply Hrefl.
  - unfold bind. specialize (Hbody x s).
    destruct (body x s) as [[[]|e] s1]; simpl in *; [|done].
    eapply Htrans; [exact Hbody | apply IH].
Qed.

End ProgFacts.

(** ** Run lists *)

Section RunlistFacts.
Import PyStr CLIHandler Vocabulary.

Lemma parse_loop_filter (lines acc : list string) :
  fold_left
    (fun tsuites line =>
       if negb (startswith line RUNLIST_COMMENT_PREFIX)
       then (tsuites ++ [line])%list else tsuites) lines acc
  = (acc ++ filter kept lines)%list.
Proof.
  revert acc. induction lines as [|l lines IH]; intros acc; simpl.
  - by rewrite app_nil_r.
  - rewrite IH, filter_cons.
    destruct (decide (kept l)) as [Hk|Hk]; unfold kept in Hk.
    + rewrite Hk. simpl. by rewrite <- app_assoc.
    + apply not_false_iff_true in Hk. by rewrite Hk.
Qed.

Lemma parse_runlist_text_filter (content : string) :
  parse_runlist_text content = filter kept (splitlines content).
Proof. unfold parse_runlist_text. by rewrite parse_loop_filter. Qed.

(** C6: parsing a run list splits the text into lines, drops exactly the
    lines whose first character is [#] and returns the others as they
    are, in order and with their repetitions; an empty line is kept as an
    empty identifier; the text [# comment], line break, [mysuite] parses
    to [mysuite] alone. *)
Theorem parse_runlist_drops_comment_lines :
  (forall content,
     parse_runlist_text content = filter kept (splitlines content))
  /\ (forall line, ~ kept line <-> exists rest, line = String "#" rest)
  /\ (forall h path,
        _parse_runlist h path
        = (fun content => filter kept (splitlines content)) <$> read_file h path)
  /\ (forall lines,
        Forall (fun l => no_break l = true) lines ->
        parse_runlist_text (unlines lines) = filter kept lines)
  /\ (forall content,
        EmptyString ∈ splitlines content ->
        EmptyString ∈ parse_runlist_text content)
  /\ parse_runlist_text ("# comment" +:+ nl +:+ "mysuite") = ["mysuite"].
Proof.
  split; [exact parse_runlist_text_filter|].
  split.
  { intros line. unfold kept, RUNLIST_COMMENT_PREFIX.
    rewrite <- startswith_char.
    destruct (startswith line "#"); split; (done || (intros H; by destruct H)). }
  split.
  { intros h path. unfold _parse_runlist.
    destruct (read_file h path); simpl; [|done].
    by rewrite parse_runlist_text_filter. }
  split.
  { intros lines Hl.
    by rewrite parse_runlist_text_filter, splitlines_unlines. }
  split; [|reflexivity].
  intros content Hin. rewrite parse_runlist_text_filter.
  apply list_elem_of_filter. split; [reflexivity | done].
Qed.

Lemma parse_runlist_drops_comment_lines_witness :
  Forall (fun l => no_break l = true)
         ["# smoke tests first"; "smoke.py"; ""; "smoke.py"]
  /\ parse_runlist_text
       (unlines ["# smoke tests first"; "smoke.py"; ""; "smoke.py"])
     = ["smoke.py"; ""; "smoke.py"].
Proof.
  assert (Forall (fun l => no_break l = true)
            ["# smoke tests first"; "smoke.py"; ""; "smoke.py"]) as H.
  { repeat constructor. }
  split; [exact H|].
  destruct parse_runlist_drops_comment_lines as (_ & _ & _ & Hlines & _).
  rewrite (Hlines _ H). reflexivity.
Defined.

End RunlistFacts.

(** ** What a command leaves behind only grows *)

Section GrowFacts.
Import CLIHandler Vocabulary.
Context (h : host).

Lemma grows_refl st : grows st st.
Proof. by unfold grows. Qed.

Lemma grows_trans st1 st2 st3 : grows st1 st2 -> grows st2 st3 -> grows st1 st3.
Proof. unfold grows. by etrans. Qed.

Lemma bind_grows {A B} (m : prog state stop A) (k : A -> prog state stop B) st :
  (forall s, grows s (m s).2) -> (forall a s, grows s (k a s).2) ->
  grows st (bind m k st).2.
Proof.
  intros Hm Hk. unfold bind. specialize (Hm st).
  destruct (m st) as [[a|e] s1]; simpl in *; [|done].
  eapply grows_trans; [exact Hm | apply Hk].
Qed.

Lemma for_each_grows {A} (body : A -> act) l st :
  (forall x s, grows s (body x s).2) -> grows st (for_each body l st).2.
Proof.
  intros Hb. apply (for_each_preserves grows);
    [apply grows_refl | apply grows_trans | exact Hb].
Qed.

Lemma emit_grows e st : grows st (emit e st).2.
Proof. unfold grows; simpl. by apply prefix_app_r. Qed.

Lemma stderr_write_grows msg st : grows st (stderr_write msg st).2.
Proof. by unfold grows. Qed.

Lemma construct_grows cls st : grows st (construct cls st).2.
Proof. unfold grows; simpl. by apply prefix_app_r. Qed.

Lemma Testsuite_test_grows self tc arg st :
  grows st (Testsuite_test h self tc arg st).2.
Proof.
  unfold Testsuite_test, grows.
  destruct (insts st !! arg) as [c|]; [|done].
  destruct (apply_to h tc c) as [[[]|e] c']; simpl; by apply prefix_app_r.
Qed.

Lemma run_tsuite_class_grows cl st : grows st (run_tsuite_class h cl st).2.
Proof.
  unfold run_tsuite_class. apply bind_grows.
  - apply construct_grows.
  - intros i s. apply for_each_grows. intros. apply Testsuite_test_grows.
Qed.

Lemma guard_grows (b : bool) (m : act) st :
  (forall s, grows s (m s).2) -> grows st ((if b then m else ret tt) st).2.
Proof. intros Hm. destruct b; [apply Hm | apply grows_refl]. Qed.

End GrowFacts.

(** ** Module names *)

Section ModuleNameFacts.
Import PyStr CLIHandler Vocabulary.

Lemma module_name_bare (base : string) :
  contains_char "/" base = false ->
  module_name base = "." +:+ drop_last3 base.
Proof. intros Hb. unfold module_name. by rewrite Hb. Qed.

Lemma module_name_in_group (path base : string) :
  contains_char "/" base = false ->
  module_name (path +:+ String "/" base) = "." +:+ drop_last3 base.
Proof.
  intros Hb. unfold module_name.
  by rewrite contains_char_app_sep, last_piece_split.
Qed.

Lemma run_tsuite_imports (h : host) (tgroup tsuite : string) (st : state) :
  (events st ++ [EvImport (module_name tsuite) tgroup])%list
    `prefix_of` events (run_tsuite h tgroup tsuite st).2.
Proof.
  unfold run_tsuite, bind at 1. simpl.
  set (st1 := {| insts := insts st; events := _; stderr := stderr st |}).
  destruct (import_module h (module_name tsuite) tgroup) as [ts|].
  - refine (bind_grows _ _ st1 _ _).
    + intros s. apply guard_grows. intros s'. apply bind_grows.
      * intros. apply stderr_write_grows.
      * intros. apply grows_refl.
    + intros _ s. apply for_each_grows. intros. apply run_tsuite_class_grows.
  - apply grows_refl.
Qed.

End ModuleNameFacts.

(** ** Names of projects and test groups *)

Section NameFacts.
Import PyStr CLIHandler Vocabulary.

Lemma is_valid_name_unfold (s : string) :
  _is_valid_name s
  = match s with
    | EmptyString => false
    | String c s' => valid_char c && more_valid s'
    end.
Proof.
  unfold _is_valid_name, PyRe.re_match, RE_VALID_NAME. simpl.
  destruct s as [|c s']; [done|]. f_equal.
  induction s' as [|d t IH]; simpl; [done|].
  rewrite <- IH. by rewrite andb_true_r.
Qed.

Lemma more_valid_spec (t : string) :
  more_valid t = true <->
  exists w, all_valid w = true /\ (t = w \/ t = w +:+ nl).
Proof.
  induction t as [|d t IH]; simpl.
  - split; [|done]. intros _. exists EmptyString. by split; [|left].
  - rewrite orb_true_iff, andb_true_iff, IH. split.
    + intros [Heol | [Hd (w & Hw & Ht)]].
      * destruct t; [|done]. apply Ascii.eqb_eq in Heol as ->.
        exists EmptyString. by split; [|right].
      * exists (String d w). simpl. rewrite Hd, Hw. split; [done|].
        destruct Ht as [->| ->]; [by left | by right].
    + intros (w & Hw & Ht). destruct w as [|c w].
      * left. by destruct Ht as [Ht|Ht]; inversion Ht.
      * simpl in Hw. apply andb_true_iff in Hw as [Hc Hw]. right.
        assert (d = c /\ (t = w \/ t = w +:+ nl)) as [-> Ht'].
        { destruct Ht as [Ht|Ht]; inversion Ht; auto. }
        split; [done|]. by exists w.
Qed.

(** [_is_valid_name] accepts the names made of letters, digits and
    underscores, and the same names followed by one line feed. *)
Lemma is_valid_name_spec (s : string) :
  _is_valid_name s = true <->
  exists w, w <> EmptyString /\ all_valid w = true /\ (s = w \/ s = w +:+ nl).
Proof.
  rewrite is_valid_name_unfold. destruct s as [|c s'].
  - split; [done|]. intros (w & Hne & _ & [Hs|Hs]); destruct w; done.
  - rewrite andb_true_iff, more_valid_spec. split.
    + intros [Hc (w & Hw & Ht)]. exists (String c w). simpl.
      rewrite Hc, Hw. split; [done|]. split; [done|].
      destruct Ht as [->| ->]; [by left | by right].
    + intros (w & Hne & Hw & Ht). destruct w as [|d w]; [done|].
      simpl in Hw. apply andb_true_iff in Hw as [Hd Hw].
      assert (c = d /\ (s' = w \/ s' = w +:+ nl)) as [-> Ht'].
      { destruct Ht as [Ht|Ht]; inversion Ht; auto. }
      split; [done|]. by exists w.
Qed.

Example is_valid_name_cases :
  _is_valid_name "web_tests2" = true
  /\ _is_valid_name "web-tests" = false
  /\ _is_valid_name "" = false
  /\ _is_valid_name ("abc" +:+ nl) = true
  /\ _is_valid_name ("abc" +:+ nl +:+ nl) = false
  /\ _is_valid_name ("abc" +:+ nl +:+ "d") = false
  /\ _is_valid_name nl = false.
Proof. by repeat split. Qed.

(** A name that is turned down stops the command before it does
    anything. *)
Lemma execute_rejects (h : host) (args : arguments) (st : state) :
  cmd args ∈ CMDS_WITH_NAME_ARG ->
  _is_valid_name (name args) = false ->
  execute h args st
  = (Raise (Exit 1),
     {| insts := insts st; events := events st;
        stderr := (stderr st ++ ["error: unsupported characters in name" +:+ nl])%list |}).
Proof.
  intros Hc Hv. unfold execute. rewrite bool_decide_eq_true_2 by done.
  by rewrite Hv.
Qed.

(** C9: the name of a project or test group is accepted when it is made
    of letters, digits and underscores, and also when such a name is
    followed by a line feed: [startproject] with the name [abc] and a
    line feed is carried out, although the name has a character outside
    the set. *)
Theorem name_with_line_feed_is_accepted :
  (forall s,
     _is_valid_name s = true <->
     exists w, w <> EmptyString /\ all_valid w = true
               /\ (s = w \/ s = w +:+ nl))
  /\ all_valid ("abc" +:+ nl) = false
  /\ _is_valid_name ("abc" +:+ nl) = true
  /\ execute Demo.project
       {| cmd := CMD_STARTPROJECT; name := "abc" +:+ nl |} initial
     = (Ok tt,
        {| insts := [];
           events :=
             [ EvMakedirs ("abc" +:+ nl +:+ "/logs");
               EvCopyFile ("abc" +:+ nl) "settings.py"
                 (Some ("<Example>", "abc" +:+ nl));
               EvAddInitFile ("abc" +:+ nl +:+ "/__init__.py") ];
           stderr := [] |}).
Proof.
  split; [exact is_valid_name_spec|]. by vm_compute.
Qed.

End NameFacts.

(** ** Discovery *)

(** A turn of a loop that leaves the set as it was: the right-hand side
    offers a second way in, which the case at hand rules out. *)
Ltac no_gain :=
  split; [by left|];
  let H := fresh in
  intros [H|H]; [exact H|];
  exfalso; intuition congruence.

Section DiscoveryFacts.
Import PyStr CLIHandler Vocabulary.
Context (h : host).

Lemma issubclass_spec (c t : positive) :
  issubclass h c t = true <-> t = c \/ t ∈ cls_ancestors (classes h c).
Proof.
  unfold issubclass. rewrite bool_decide_eq_true. apply elem_of_cons.
Qed.

Lemma getattr_class_own (cl : positive) (o : string) (v : pyobj) :
  cls_dict (classes h cl) !! o = Some v -> getattr_class h cl o = Some v.
Proof. intros Ho. unfold getattr_class. simpl. by rewrite Ho. Qed.

Lemma dir_class_spec (cl : positive) (o : string) :
  o ∈ dir_class h cl <->
  is_Some (cls_dict (classes h cl) !! o)
  \/ exists a, a ∈ cls_ancestors (classes h cl)
               /\ is_Some (cls_dict (classes h a) !! o).
Proof.
  unfold dir_class.
  rewrite elem_of_elements, elem_of_union, elem_of_dom, elem_of_union_list.
  apply or_iff_compat_l. split.
  - intros (X & HX & Ho). apply list_elem_of_fmap in HX as (a & -> & Ha).
    exists a. split; [done|]. by apply elem_of_dom.
  - intros (a & Ha & Ho). exists (dom (cls_dict (classes h a))). split.
    + apply list_elem_of_fmap. by exists a.
    + by apply elem_of_dom.
Qed.

(** A turn of the loop adds the object bound to the name when the name
    passes the tests, and nothing otherwise. *)
Lemma tcases_step_spec (cl : positive) (tcases : gset pyobj) (o : string)
    (v : pyobj) :
  v ∈ tcases_step h cl tcases o <-> v ∈ tcases \/ is_test_case h cl o v.
Proof.
  unfold tcases_step, is_test_case.
  destruct (startswith o "_") eqn:Hp; [no_gain|].
  case_bool_decide as Hr; [no_gain|].
  case_bool_decide as Hd; [no_gain|].
  destruct (cls_dict (classes h cl) !! o) as [w|] eqn:Ho; [|done].
  rewrite (getattr_class_own cl o w Ho).
  destruct (callable w) eqn:Hc; [|no_gain].
  rewrite elem_of_union, elem_of_singleton. split.
  - intros [->|H]; [by right | by left].
  - intros [H|(_ & _ & [= ->] & _)]; [by right | by left].
Qed.

Lemma tcases_loop_spec (cl : positive) (names : list string)
    (tcases : gset pyobj) (v : pyobj) :
  v ∈ fold_left (tcases_step h cl) names tcases <->
  v ∈ tcases \/ exists o, o ∈ names /\ is_test_case h cl o v.
Proof.
  revert tcases. induction names as [|o names IH]; intros tcases; simpl.
  - split; [by left|]. intros [H|(o & Ho & _)]; [done|]. by inversion Ho.
  - rewrite IH, tcases_step_spec. split.
    + intros [[H|H]|(o' & Ho' & H)]; [by left| |].
      * right. exists o. split; [by left | done].
      * right. exists o'. split; [by right | done].
    + intros [H|(o' & Ho' & H)]; [by left; left|].
      apply elem_of_cons in Ho' as [->|Ho'].
      * by left; right.
      * right. by exists o'.
Qed.

Lemma get_all_tcases_spec (cl : positive) (v : pyobj) :
  v ∈ _get_all_tcases h cl <-> exists o, is_test_case h cl o v.
Proof.
  unfold _get_all_tcases. rewrite tcases_loop_spec. split.
  - intros [H|(o & _ & H)]; [by apply not_elem_of_empty in H | by exists o].
  - intros (o & H). right. exists o. split; [|done].
    apply dir_class_spec. left. destruct H as (_ & _ & Ho & _). by eexists.
Qed.

Lemma tcases_step_skips (cl : positive) (tcases : gset pyobj) (o : string) :
  startswith o "_" = true \/ o ∈ RESERVED_NAMES h
  \/ cls_dict (classes h cl) !! o = None ->
  tcases_step h cl tcases o = tcases.
Proof.
  unfold tcases_step. intros [Hp|[Hr|Hd]].
  - by rewrite Hp.
  - destruct (startswith o "_"); [done|]. by rewrite bool_decide_eq_true_2.
  - destruct (startswith o "_"); [done|]. case_bool_decide; [done|].
    by rewrite bool_decide_eq_true_2.
Qed.

Lemma tsuites_step_spec (m : pymodule) (tsuites : gset positive) (o : string)
    (c : positive) :
  c ∈ tsuites_step h m tsuites o <->
  c ∈ tsuites
  \/ (mod_dict m !! o = Some (PyClass c) /\ issubclass h c (Testsuite h) = true).
Proof.
  unfold tsuites_step.
  destruct (mod_dict m !! o) as [[f|c'|i b]|] eqn:Ho; try no_gain.
  destruct (issubclass h c' (Testsuite h)) eqn:Hs; [|no_gain].
  rewrite elem_of_union, elem_of_singleton. split.
  - intros [->|H]; [by right | by left].
  - intros [H|([= ->] & _)]; [by right | by left].
Qed.

Lemma tsuites_loop_spec (m : pymodule) (names : list string)
    (tsuites : gset positive) (c : positive) :
  c ∈ fold_left (tsuites_step h m) names tsuites <->
  c ∈ tsuites
  \/ exists o, o ∈ names /\ mod_dict m !! o = Some (PyClass c)
               /\ issubclass h c (Testsuite h) = true.
Proof.
  revert tsuites. induction names as [|o names IH]; intros tsuites; simpl.
  - split; [by left|]. intros [H|(o & Ho & _)]; [done|]. by inversion Ho.
  - rewrite IH, tsuites_step_spec. split.
    + intros [[H|H]|(o' & Ho' & H)]; [by left| |].
      * right. exists o. split; [by left | done].
      * right. exists o'. split; [by right | done].
    + intros [H|(o' & Ho' & H)]; [by left; left|].
      apply elem_of_cons in Ho' as [->|Ho'].
      * by left; right.
      * right. by exists o'.
Qed.

Lemma get_all_tsuite_classes_spec (m : pymodule) (c : positive) :
  c ∈ _get_all_tsuite_classes h m <->
  bound_in m c /\ issubclass h c (Testsuite h) = true.
Proof.
  unfold _get_all_tsuite_classes, bound_in. rewrite tsuites_loop_spec. split.
  - intros [H|(o & _ & Ho & Hs)]; [by apply not_elem_of_empty in H|].
    split; [by exists o | done].
  - intros [(o & Ho) Hs]. right. exists o. split; [|done].
    unfold dir_module. apply elem_of_elements, elem_of_dom. by eexists.
Qed.

End DiscoveryFacts.

Section DiscoveryClaims.
Import PyStr CLIHandler Vocabulary.

(** C3: for every suite class, the test cases found are exactly the
    attributes whose name does not start with an underscore, is not a
    reserved name, is in the [__dict__] of the class itself and is bound
    to something callable; a private, reserved or merely inherited name
    never contributes a test case, although [dir] does list the inherited
    names. *)
Theorem test_cases_are_own_public_callables :
  forall h cl,
    (forall v, v ∈ _get_all_tcases h cl <-> exists o, is_test_case h cl o v)
    /\ (forall o tcases,
          startswith o "_" = true \/ o ∈ RESERVED_NAMES h
          \/ cls_dict (classes h cl) !! o = None ->
          tcases_step h cl tcases o = tcases)
    /\ (forall o,
          o ∈ dir_class h cl <->
          is_Some (cls_dict (classes h cl) !! o)
          \/ exists a, a ∈ cls_ancestors (classes h cl)
                       /\ is_Some (cls_dict (classes h a) !! o)).
Proof.
  intros h cl. split; [apply get_all_tcases_spec|].
  split; [intros; by apply tcases_step_skips | apply dir_class_spec].
Qed.

Lemma test_cases_are_own_public_callables_witness :
  "assert_equal" ∈ dir_class Demo.project 2
  /\ cls_dict (classes Demo.project 2) !! "assert_equal" = None
  /\ tcases_step Demo.project 2 ∅ "assert_equal" = ∅
  /\ elements (_get_all_tcases Demo.project 2) = [PyFunc 201; PyFunc 202].
Proof.
  assert (cls_dict (classes Demo.project 2) !! "assert_equal" = None) as Hd
    by reflexivity.
  destruct (test_cases_are_own_public_callables Demo.project 2)
    as (_ & Hskip & Hdir).
  split; [|split; [exact Hd|split]].
  - apply Hdir. right. exists 1%positive. split; [by left|].
    by exists (PyFunc 101).
  - apply Hskip. by right; right.
  - reflexivity.
Defined.

(** C4, as the code has it: for every module, the suite classes found
    are exactly the classes bound to some name of the module that are
    [Testsuite] or have it among their ancestors; where a class was
    declared plays no part, so a suite class imported into the module,
    and [Testsuite] itself when it is imported by name, are found too. *)
Theorem suite_classes_are_bound_subclasses :
  forall h m,
    (forall c,
       c ∈ _get_all_tsuite_classes h m <->
       bound_in m c /\ issubclass h c (Testsuite h) = true)
    /\ (forall c t,
          issubclass h c t = true <-> t = c \/ t ∈ cls_ancestors (classes h c)).
Proof.
  intros h m. split; [apply get_all_tsuite_classes_spec | apply issubclass_spec].
Qed.

(** [login.py] imports [SmokeSuite]: the class is found in [login],
    which does not declare it. *)
Lemma imported_suite_class_is_found :
  ~ (forall c,
       c ∈ _get_all_tsuite_classes Demo.project Demo.login_module <->
       bound_in Demo.login_module c
       /\ issubclass Demo.project c (Testsuite Demo.project) = true
       /\ declared_in Demo.project Demo.login_module c).
Proof.
  intros H. destruct (H 3%positive) as [Hin _].
  assert (3%positive ∈ _get_all_tsuite_classes Demo.project Demo.login_module)
    as H3.
  { apply get_all_tsuite_classes_spec. split; [|reflexivity].
    by exists "SmokeSuite". }
  destruct (Hin H3) as (_ & _ & Hdecl). discriminate Hdecl.
Qed.

End DiscoveryClaims.

(** ** Assertions and counters *)

Section AssertFacts.
Import Asserts BasicTestSuite Session Vocabulary.

Lemma check_counters (a : assertion) (args : list pyval) (c : counters) :
  get_assert_counters (check a args c).2
  = match holds a args with
    | Some true => (S (passed c), S (attempted c))
    | Some false => (passed c, S (attempted c))
    | None => (passed c, attempted c)
    end.
Proof. unfold check. by destruct (holds a args) as [[]|]. Qed.

Lemma check_result (a : assertion) (args : list pyval) (c : counters) :
  (check a args c).1
  = match holds a args with
    | Some true => Ok tt
    | Some false => Raise (AssertionException (raised_by a))
    | None => Raise TypeError
    end.
Proof. unfold check. by destruct (holds a args) as [[]|]. Qed.

(** What one call does to the counters, by its result. *)
Lemma call_cases (name : string) (args : list pyval) (c : counters) :
  let r := (call name args c).1 in
  let c' := (call name args c).2 in
  (is_pass r = true /\ is_failure r = false
   /\ passed c' = S (passed c) /\ attempted c' = S (attempted c))
  \/ (is_pass r = false /\ is_failure r = true
      /\ passed c' = passed c /\ attempted c' = S (attempted c))
  \/ (is_pass r = false /\ is_failure r = false /\ c' = c).
Proof.
  unfold call. destruct (lookup_method methods name) as [a|]; simpl.
  - unfold check. destruct (holds a args) as [[]|]; simpl; auto 10.
  - auto 10.
Qed.

Lemma count_snoc (p : result exn unit -> bool) rs r :
  count p (rs ++ [r]) = count p rs + (if p r then 1 else 0).
Proof.
  unfold count. rewrite filter_app, length_app, filter_cons, filter_nil.
  by destruct (p r).
Qed.

Lemma run_snoc calls cl c : run (calls ++ [cl]) c = step cl (run calls c).
Proof. unfold run. by rewrite fold_left_app. Qed.

(** From any starting point, the first counter has advanced by the
    number of passes and the second by the number of attempts. *)
Lemma run_counters (calls : list (string * list pyval)) (c : counters) :
  passed (run calls c).2 = passed c + count is_pass (run calls c).1
  /\ attempted (run calls c).2 = attempted c + attempts (run calls c).1.
Proof.
  unfold attempts.
  induction calls as [|cl calls IH] using rev_ind.
  - simpl. unfold count; simpl. lia.
  - rewrite run_snoc. destruct (run calls c) as [rs c1]; simpl in *.
    unfold step; simpl.
    pose proof (call_cases cl.1 cl.2 c1) as Hc.
    destruct (call cl.1 cl.2 c1) as [r c2]; simpl in *.
    rewrite !count_snoc.
    destruct Hc as [(-> & -> & Hp & Ha)|[(-> & -> & Hp & Ha)|(-> & -> & ->)]];
      lia.
Qed.

(** C1: on a fresh suite instance one passing [assert_equal] brings the
    counters from (0, 0) to (1, 1), a passing null check and a passing
    less-or-equal bring them to (3, 3), and a failing [assert_in] then
    brings them to (3, 4): the first number advances on a passing
    assertion only, the second on every attempted one. *)
Theorem counters_follow_test_assert_counters :
  get_assert_counters fresh = (0, 0)
  /\ check assert_equal [VInt 9; VInt 9] fresh
     = (Ok tt, {| passed := 1; attempted := 1 |})
  /\ test_equal (VStr "A") (VStr "A") fresh
     = (Ok tt, {| passed := 1; attempted := 1 |})
  /\ (test_null VNone >> test_lesser_than_or_equal (VInt 7) (VInt 9))
       {| passed := 1; attempted := 1 |}
     = (Ok tt, {| passed := 3; attempted := 3 |})
  /\ test_in (VInt 3) (VList [VInt 1; VInt 2; VInt 4])
       {| passed := 3; attempted := 3 |}
     = (Raise (AssertionException AssertionExceptionIn),
        {| passed := 3; attempted := 4 |})
  /\ test_assert_counters fresh = (Ok tt, {| passed := 3; attempted := 4 |})
  /\ (forall a args c,
        get_assert_counters (check a args c).2
        = match holds a args with
          | Some true => (S (passed c), S (attempted c))
          | Some false => (passed c, S (attempted c))
          | None => (passed c, attempted c)
          end).
Proof.
  repeat (split; [reflexivity|]). exact check_counters.
Qed.

(** C2, as the code has it: after a run of assertion calls on a fresh
    suite instance, of which [n] were attempted and [k] of those failed,
    [get_assert_counters] returns [(n - k, n)]: the assertions that
    passed, then all that were attempted. *)
Theorem counters_are_passes_and_attempts :
  forall calls,
    get_assert_counters (run calls fresh).2
    = (attempts (run calls fresh).1 - failures (run calls fresh).1,
       attempts (run calls fresh).1).
Proof.
  intros calls. destruct (run_counters calls fresh) as [Hp Ha].
  unfold get_assert_counters. rewrite Hp, Ha. unfold attempts, failures.
  simpl. f_equal. lia.
Qed.

(** One passing assertion: one attempt and no failure, and the counters
    are (1, 1), not (1, 0). *)
Lemma counters_are_not_attempts_and_failures :
  ~ (forall calls,
       get_assert_counters (run calls fresh).2
       = (attempts (run calls fresh).1, failures (run calls fresh).1)).
Proof.
  intros H. specialize (H [("assert_equal", [VInt 9; VInt 9])]).
  vm_compute in H. discriminate H.
Qed.

(** C5: a short name of an assertion does, for all arguments and from
    all counters, what the full name does: both are bound to the same
    assertion, so they pass together, raise the same exception together
    and leave the same counters. *)
Theorem alias_is_its_assertion :
  forall short full,
    In (short, full) aliases ->
    exists a,
      lookup_method methods short = Some a
      /\ lookup_method methods full = Some a
      /\ forall args c,
           call short args c = call full args c
           /\ call full args c = check a args c.
Proof.
  intros short full Hin. simpl in Hin.
  repeat (destruct Hin as [Heq|Hin];
          [inversion Heq; subst; eexists; repeat split; reflexivity|]).
  destruct Hin.
Qed.

Lemma alias_is_its_assertion_witness :
  In ("a_gte", "assert_greater_than_or_equal") aliases
  /\ (forall args c,
        call "a_gte" args c = call "assert_greater_than_or_equal" args c)
  /\ call "a_gte" [VInt 1; VInt 2] fresh
     = (Raise (AssertionException AssertionExceptionGreaterThanOrEqual),
        {| passed := 0; attempted := 1 |}).
Proof.
  assert (In ("a_gte", "assert_greater_than_or_equal") aliases) as Hin.
  { simpl. do 13 right. left. reflexivity. }
  split; [exact Hin|].
  destruct (alias_is_its_assertion _ _ Hin) as (a & _ & _ & Hcall).
  split; [intros args c; exact (proj1 (Hcall args c))|].
  reflexivity.
Defined.

(** The methods of [BasicTestSuite] that go through a short name do what
    the method that goes through the full name does. *)
Lemma alias_test_methods :
  (forall v1 v2 c, test_equal_alias_1 v1 v2 c = test_equal v1 v2 c)
  /\ (forall v1 v2 c, test_equal_alias_2 v1 v2 c = test_equal v1 v2 c)
  /\ (forall v1 v2 c, test_not_equal_alias_1 v1 v2 c = test_not_equal v1 v2 c)
  /\ (forall v1 v2 c, test_not_equal_alias_2 v1 v2 c = test_not_equal v1 v2 c)
  /\ (forall v c, test_null_alias_1 v c = test_null v c)
  /\ (forall v c, test_not_null_alias_1 v c = test_not_null v c)
  /\ (forall v c, test_true_alias_1 v c = test_true v c)
  /\ (forall v c, test_false_alias_1 v c = test_false v c)
  /\ (forall v l c, test_in_alias_1 v l c = test_in v l c)
  /\ (forall v l c, test_not_in_alias_1 v l c = test_not_in v l c)
  /\ (forall v1 v2 c, test_greater_than_alias_1 v1 v2 c = test_greater_than v1 v2 c)
  /\ (forall v1 v2 c, test_greater_than_alias_2 v1 v2 c = test_greater_than v1 v2 c)
  /\ (forall v1 v2 c,
        test_greater_than_or_equal_alias_1 v1 v2 c
        = test_greater_than_or_equal v1 v2 c)
  /\ (forall v1 v2 c,
        test_greater_than_or_equal_alias_2 v1 v2 c
        = test_greater_than_or_equal v1 v2 c)
  /\ (forall v1 v2 c, test_lesser_than_alias_1 v1 v2 c = test_lesser_than v1 v2 c)
  /\ (forall v1 v2 c, test_lesser_than_alias_2 v1 v2 c = test_lesser_than v1 v2 c)
  /\ (forall v1 v2 c,
        test_lesser_than_or_equal_alias_1 v1 v2 c
        = test_lesser_than_or_equal v1 v2 c)
  /\ (forall v1 v2 c,
        test_lesser_than_or_equal_alias_2 v1 v2 c
        = test_lesser_than_or_equal v1 v2 c)
  /\ (forall v c, test_is_a_number_alias1 v c = test_is_a_number v c)
  /\ (forall v c, test_is_a_number_alias2 v c = test_is_a_number v c).
Proof. repeat split. Qed.

(** The conditions above agree with [tests/test_asserts.py]: every test
    of [TestAsserts] ends as the test expects, the tests marked
    [nose.tools.raises] with the exception they name.  Floats are
    written as the decimal fractions of the source. *)
Lemma test_asserts_pass :
  ends (test_equal (VInt 9) (VInt 9) >> test_equal_alias_1 (VInt 9) (VInt 9)
        >> test_equal_alias_2 (VInt 9) (VInt 9)) = Ok tt
  /\ ends (test_equal (VInt 1) (VInt 3)) = raises AssertionExceptionEqual
  /\ ends (test_equal_alias_1 (VInt 1) (VInt 3)) = raises AssertionExceptionEqual
  /\ ends (test_equal_alias_2 (VInt 6) (VInt 7)) = raises AssertionExceptionEqual
  /\ ends (test_not_equal (VInt 9) (VInt 10)
           >> test_not_equal_alias_1 (VInt 77) (VInt 777)
           >> test_not_equal_alias_2 (VInt 1023) (VFloat (1023 # 100))) = Ok tt
  /\ ends (test_not_equal (VInt 3) (VInt 3)) = raises AssertionExceptionNotEqual
  /\ ends (test_not_equal_alias_1 (VInt 55) (VFloat (55 # 1)))
     = raises AssertionExceptionNotEqual
  /\ ends (test_not_equal_alias_2 (VInt 99999) (VInt 99999))
     = raises AssertionExceptionNotEqual
  /\ ends (test_null VNone >> test_null_alias_1 VNone) = Ok tt
  /\ ends (test_true (VBool true) >> test_true_alias_1 (VBool true)) = Ok tt
  /\ ends (test_true (VBool false)) = raises AssertionExceptionIsNotTrue
  /\ ends (test_true_alias_1 (VBool false)) = raises AssertionExceptionIsNotTrue
  /\ ends (test_false (VBool false) >> test_false_alias_1 (VBool false)) = Ok tt
  /\ ends (test_false (VBool true)) = raises AssertionExceptionIsNotFalse
  /\ ends (test_false_alias_1 (VBool true)) = raises AssertionExceptionIsNotFalse
  /\ ends (test_null (VStr "None")) = raises AssertionExceptionIsNull
  /\ ends (test_null_alias_1 (VStr "None")) = raises AssertionExceptionIsNull
  /\ ends (test_not_null (VStr "None") >> test_not_null_alias_1 (VStr "None"))
     = Ok tt
  /\ ends (test_not_null VNone) = raises AssertionExceptionIsNotNull
  /\ ends (test_not_null_alias_1 VNone) = raises AssertionExceptionIsNotNull
  /\ ends (test_in (VStr "a") (VList [VStr "c"; VStr "b"; VStr "a"])) = Ok tt
  /\ ends (test_in (VStr "None") (VTuple [VStr "f"; VStr "c"; VStr "enoN"]))
     = raises AssertionExceptionIn
  /\ ends (test_in_alias_1 (VStr "None")
             (VTuple [VStr "f"; VStr "c"; VStr "enoN"]))
     = raises AssertionExceptionIn
  /\ ends (test_not_in (VStr "a") (VList [VStr "c"; VStr "b"; VStr "0"])) = Ok tt
  /\ ends (test_not_in (VStr "None")
             (VTuple [VStr "f"; VStr "None"; VStr "enoN"]))
     = raises AssertionExceptionNotIn
  /\ ends (test_not_in_alias_1 (VStr "None")
             (VTuple [VStr "f"; VStr "None"; VStr "enoN"]))
     = raises AssertionExceptionNotIn
  /\ ends (test_greater_than (VInt 9) (VInt 8)
           >> test_greater_than_alias_1 (VFloat (2 # 10)) (VFloat (1 # 10))
           >> test_greater_than_alias_2 (VInt 87) (VInt 12)) = Ok tt
  /\ ends (test_greater_than (VInt 22) (VInt 23))
     = raises AssertionExceptionGreaterThan
  /\ ends (test_greater_than_alias_1 (VFloat (1 # 10)) (VFloat (2 # 10)))
     = raises AssertionExceptionGreaterThan
  /\ ends (test_greater_than_alias_2 (VInt 23) (VInt 100))
     = raises AssertionExceptionGreaterThan
  /\ ends (test_greater_than_or_equal (VInt 2) (VInt 1)
           >> test_greater_than_or_equal (VInt 2) (VInt 2)
           >> test_greater_than_or_equal (VInt 1001) (VInt 997)) = Ok tt
  /\ ends (test_greater_than_or_equal (VInt 1) (VInt 2))
     = raises AssertionExceptionGreaterThanOrEqual
  /\ ends (test_greater_than_or_equal_alias_1 (VInt 432) (VFloat (43201 # 100)))
     = raises AssertionExceptionGreaterThanOrEqual
  /\ ends (test_greater_than_or_equal_alias_2 (VInt 231) (VInt 1000))
     = raises AssertionExceptionGreaterThanOrEqual
  /\ ends (test_lesser_than (VInt 8) (VInt 9)
           >> test_lesser_than_alias_1 (VFloat (1 # 10)) (VFloat (2 # 10))
           >> test_lesser_than_alias_2 (VInt 11) (VInt 88)) = Ok tt
  /\ ends (test_lesser_than (VInt 23) (VInt 22))
     = raises AssertionExceptionLesserThan
  /\ ends (test_lesser_than_alias_1 (VFloat (2 # 10)) (VFloat (1 # 10)))
     = raises AssertionExceptionLesserThan
  /\ ends (test_lesser_than_alias_2 (VInt 100) (VInt 23))
     = raises AssertionExceptionLesserThan
  /\ ends (test_lesser_than_or_equal (VInt 1) (VInt 2)
           >> test_lesser_than_or_equal (VInt 2) (VInt 2)
           >> test_lesser_than_or_equal (VInt 996) (VInt 1001)) = Ok tt
  /\ ends (test_lesser_than_or_equal (VInt 2) (VInt 1))
     = raises AssertionExceptionLesserThanOrEqual
  /\ ends (test_lesser_than_or_equal_alias_1 (VFloat (43201 # 100)) (VInt 432))
     = raises AssertionExceptionLesserThanOrEqual
  /\ ends (test_lesser_than_or_equal_alias_2 (VInt 1000) (VInt 231))
     = raises AssertionExceptionLesserThanOrEqual
  /\ ends test_assert_counters = Ok tt
  /\ ends (test_equal (VStr "A") (VStr "A") >> reset_assert_counter
           >> expect_counters (0, 0)) = Ok tt
  /\ ends (test_is_a_number (VInt 9) >> test_is_a_number (VFloat (99 # 10))
           >> test_is_a_number_alias1 (VFloat (95 # 10))
           >> test_is_a_number_alias2 (VInt 10)) = Ok tt
  /\ ends (test_is_a_number (VStr "234")) = raises AssertionExceptionIsANumber.
Proof. repeat split. Qed.

End AssertFacts.

(** ** Running the suites *)

Section DispatchFacts.
Import PyStr CLIHandler Vocabulary Plan.
Context (h : host).

Lemma invoked_prefix (tcs : list pyobj) (c : Asserts.counters) :
  invoked h tcs c `prefix_of` tcs.
Proof.
  revert c. induction tcs as [|tc tcs IH]; intros c; simpl; [done|].
  apply prefix_cons.
  destruct (apply_to h tc c) as [[[]|e] c']; [apply IH | apply prefix_nil].
Qed.

Lemma invoked_all (tcs : list pyobj) (c : Asserts.counters) :
  (for_each (apply_to h) tcs c).1 = Ok tt -> invoked h tcs c = tcs.
Proof.
  revert c. induction tcs as [|tc tcs IH]; intros c; simpl; [done|].
  unfold bind. destruct (apply_to h tc c) as [[[]|e] c']; simpl; [|done].
  intros H. by rewrite IH.
Qed.

(** The loop over the test cases of one instance: every call reads the
    counters of the instance and writes them back, so the loop as a whole
    runs the test cases one after the other on the same counters. *)
Lemma test_loop (i : nat) (tcs : list pyobj) (c : Asserts.counters) (st : state) :
  insts st !! i = Some c ->
  for_each (fun tc => Testsuite_test h i tc i) tcs st
  = (uncaught (for_each (apply_to h) tcs c).1,
     {| insts := <[i := (for_each (apply_to h) tcs c).2]> (insts st);
        events := (events st ++ map (EvTest i) (invoked h tcs c))%list;
        stderr := stderr st |}).
Proof.
  revert c st. induction tcs as [|tc tcs IH]; intros c st Hi; simpl.
  - rewrite list_insert_id, app_nil_r by done. by destruct st.
  - unfold bind. unfold Testsuite_test at 1. rewrite Hi.
    destruct (apply_to h tc c) as [[[]|e] c'] eqn:Htc; simpl; [|done].
    erewrite IH.
    2:{ simpl. apply list_lookup_insert_eq. by eapply lookup_lt_Some. }
    simpl. by rewrite list_insert_insert_eq, <- app_assoc.
Qed.

Lemma run_tsuite_class_eq (cl : positive) (st : state) :
  let tcs := elements (_get_all_tcases h cl) in
  let body := for_each (apply_to h) tcs Asserts.fresh in
  run_tsuite_class h cl st
  = (uncaught body.1,
     {| insts := (insts st ++ [body.2])%list;
        events := (events st ++ EvConstruct cl (length (insts st))
                     :: map (EvTest (length (insts st)))
                            (invoked h tcs Asserts.fresh))%list;
        stderr := stderr st |}).
Proof.
  intros tcs body. unfold run_tsuite_class, bind, construct.
  erewrite test_loop.
  2:{ simpl. rewrite lookup_app_r by done. by rewrite Nat.sub_diag. }
  simpl. f_equal. f_equal.
  - rewrite insert_app_r_alt by done. by rewrite Nat.sub_diag.
  - by rewrite <- app_assoc.
Qed.

(** The loop over the suite classes of a module, when no test case
    raises: one new instance per class, in order. *)
Lemma run_classes_eq (cls : list positive) (st : state) :
  Forall (all_pass h) cls ->
  for_each (run_tsuite_class h) cls st
  = (Ok tt,
     {| insts := (insts st ++ map (counters_of h) cls)%list;
        events := (events st ++ suite_events h cls (length (insts st)))%list;
        stderr := stderr st |}).
Proof.
  intros Hall. revert st.
  induction Hall as [|cl cls Hcl _ IH]; intros st; simpl.
  - rewrite !app_nil_r. by destruct st.
  - unfold bind. rewrite run_tsuite_class_eq.
    unfold all_pass, tcases_of in Hcl. rewrite Hcl, (invoked_all _ _ Hcl).
    simpl. rewrite IH. simpl.
    rewrite length_app, Nat.add_1_r, <- !app_assoc. reflexivity.
Qed.

Lemma Testsuite_test_no_exit self tc arg st n st' :
  Testsuite_test h self tc arg st <> (Raise (Exit n), st').
Proof.
  unfold Testsuite_test. destruct (insts st !! arg) as [c|]; [|done].
  by destruct (apply_to h tc c) as [[[]|e] c'].
Qed.

Lemma run_tsuite_class_no_exit cl st n st' :
  run_tsuite_class h cl st <> (Raise (Exit n), st').
Proof.
  unfold run_tsuite_class, bind, construct. intros H.
  apply for_each_raise_inv in H as (tc & s0 & _ & H).
  by apply Testsuite_test_no_exit in H.
Qed.

(** A module without suite classes stops the run. *)
Lemma run_tsuite_no_suites tgroup tsuite m st :
  import_module h (module_name tsuite) tgroup = Some m ->
  size (_get_all_tsuite_classes h m) = 0 ->
  run_tsuite h tgroup tsuite st
  = (Raise (Exit 1),
     {| insts := insts st;
        events := (events st ++ [EvImport (module_name tsuite) tgroup])%list;
        stderr := (stderr st
                   ++ ["no subclasses of testvibe.Testsuite found" +:+ nl])%list |}).
Proof.
  intros Hi Hs. unfold run_tsuite. rewrite Hi.
  rewrite bool_decide_eq_true_2 by done. reflexivity.
Qed.

(** [sys.exit] in the course of one suite means that its module has no
    suite class. *)
Lemma run_tsuite_exit_inv tgroup tsuite st n st' :
  run_tsuite h tgroup tsuite st = (Raise (Exit n), st') ->
  n = 1%Z
  /\ exists m, import_module h (module_name tsuite) tgroup = Some m
               /\ size (_get_all_tsuite_classes h m) = 0.
Proof.
  unfold run_tsuite, bind at 1. simpl.
  destruct (import_module h (module_name tsuite) tgroup) as [m|]; [|done].
  unfold bind at 1. case_bool_decide as Hs.
  - intros [= <- _]. split; [done|]. by exists m.
  - simpl. intros H.
    apply for_each_raise_inv in H as (cl & s0 & _ & H).
    by apply run_tsuite_class_no_exit in H.
Qed.

Lemma run_runlist_exit_inv rl st n st' :
  run_runlist h rl st = (Raise (Exit n), st') ->
  n = 1%Z
  /\ exists tsuites tsuite tgroup m,
       _parse_runlist h rl = Some tsuites
       /\ tsuite ∈ tsuites
       /\ import_module h (module_name tsuite) tgroup = Some m
       /\ size (_get_all_tsuite_classes h m) = 0.
Proof.
  unfold run_runlist.
  destruct (_parse_runlist h rl) as [tsuites|]; [|done].
  unfold _run_tsuites. intros H.
  apply for_each_raise_inv in H as (tsuite & s0 & Hin & H).
  apply run_tsuite_exit_inv in H as [-> (m & Hi & Hs)].
  split; [done|]. by eexists tsuites, tsuite, _, m.
Qed.

(** The suite classes of an identifier are those that
    [_get_all_tsuite_classes] finds in its module, each once. *)
Lemma suites_of_spec tgroup tsuite cl :
  cl ∈ suites_of h tgroup tsuite
  <-> exists m, import_module h (module_name tsuite) tgroup = Some m
                /\ cl ∈ _get_all_tsuite_classes h m.
Proof.
  unfold suites_of.
  destruct (import_module h (module_name tsuite) tgroup) as [m|].
  - rewrite elem_of_elements. split; [by exists m|].
    by intros (m' & [= <-] & H).
  - split; [by intros ?%elem_of_nil | by intros (m' & [=] & _)].
Qed.

Lemma suites_of_NoDup tgroup tsuite : NoDup (suites_of h tgroup tsuite).
Proof.
  unfold suites_of.
  destruct (import_module h (module_name tsuite) tgroup) as [m|];
    [apply NoDup_elements | constructor].
Qed.

(** One turn of the loop of [_run_tsuites] on an identifier that can be
    run: the module is imported, then one instance per suite class is
    built and its test cases called on it. *)
Lemma run_tsuite_eq tgroup tsuite st :
  runnable h tgroup tsuite ->
  run_tsuite h tgroup tsuite st
  = (Ok tt,
     {| insts := (insts st
                  ++ map (counters_of h) (suites_of h tgroup tsuite))%list;
        events := (events st
                   ++ EvImport (module_name tsuite) tgroup
                      :: suite_events h (suites_of h tgroup tsuite)
                           (length (insts st)))%list;
        stderr := stderr st |}).
Proof.
  intros [Hne Hall]. unfold suites_of in *. unfold run_tsuite, bind at 1.
  cbn [emit fst snd].
  destruct (import_module h (module_name tsuite) tgroup) as [m|]; [|done].
  unfold bind at 1. rewrite bool_decide_eq_false_2.
  2:{ unfold size, set_size. simpl.
      by destruct (elements (_get_all_tsuite_classes h m)). }
  cbn [ret fst snd]. rewrite run_classes_eq by done. cbn [insts events stderr].
  by rewrite <- app_assoc.
Qed.

Lemma run_tsuites_eq tgroup tsuites st :
  Forall (runnable h tgroup) tsuites ->
  _run_tsuites h tgroup tsuites st
  = (Ok tt,
     {| insts := (insts st ++ dispatch_insts h tgroup tsuites)%list;
        events := (events st
                   ++ dispatch_events h tgroup tsuites
                        (length (insts st)))%list;
        stderr := stderr st |}).
Proof.
  intros Hall. unfold _run_tsuites. revert st.
  induction Hall as [|tsuite tsuites Hr _ IH]; intros st; simpl.
  - rewrite !app_nil_r. by destruct st.
  - unfold bind. rewrite (run_tsuite_eq _ _ _ Hr). rewrite IH.
    cbn [insts events stderr].
    by rewrite length_app, length_map, <- !app_assoc.
Qed.

(** Conversely the loops come to their end only when every test case
    returns and every module has a suite class. *)
Lemma run_classes_ok_inv cls st st' :
  for_each (run_tsuite_class h) cls st = (Ok tt, st') ->
  Forall (all_pass h) cls.
Proof.
  revert st. induction cls as [|cl cls IH]; intros st; simpl; [by constructor|].
  unfold bind. rewrite run_tsuite_class_eq.
  destruct (for_each (apply_to h) (elements (_get_all_tcases h cl))
              Asserts.fresh).1 as [[]|e] eqn:Hb; simpl; [|done].
  intros H. constructor; [exact Hb | by eapply IH].
Qed.

Lemma run_tsuite_ok_inv tgroup tsuite st st' :
  run_tsuite h tgroup tsuite st = (Ok tt, st') -> runnable h tgroup tsuite.
Proof.
  unfold runnable, suites_of, run_tsuite, bind at 1. cbn [emit fst snd].
  destruct (import_module h (module_name tsuite) tgroup) as [m|]; [|done].
  unfold bind at 1. case_bool_decide as Hs; [done|]. cbn [ret fst snd].
  intros H. split; [|by eapply run_classes_ok_inv].
  intros He. apply Hs. unfold size, set_size. simpl. by rewrite He.
Qed.

Lemma run_tsuites_ok_inv tgroup tsuites st st' :
  _run_tsuites h tgroup tsuites st = (Ok tt, st') ->
  Forall (runnable h tgroup) tsuites.
Proof.
  unfold _run_tsuites. revert st.
  induction tsuites as [|tsuite tsuites IH]; intros st; simpl;
    [by constructor|].
  unfold bind.
  destruct (run_tsuite h tgroup tsuite st) as [[[]|e] s1] eqn:H1; [|done].
  intros H. constructor; [by eapply run_tsuite_ok_inv | by eapply IH].
Qed.

(** The run of one run list reaches a module without suite classes. *)
Lemma run_runlist_no_suites rl before tsuite after m st st' :
  _parse_runlist h rl = Some (before ++ tsuite :: after)%list ->
  _run_tsuites h (tgroup_of h rl) before st = (Ok tt, st') ->
  import_module h (module_name tsuite) (tgroup_of h rl) = Some m ->
  size (_get_all_tsuite_classes h m) = 0 ->
  run_runlist h rl st
  = (Raise (Exit 1),
     {| insts := insts st';
        events := (events st'
                   ++ [EvImport (module_name tsuite) (tgroup_of h rl)])%list;
        stderr := (stderr st'
                   ++ ["no subclasses of testvibe.Testsuite found"
                       +:+ nl])%list |}).
Proof.
  intros Hp Hb Hi Hs. unfold run_runlist. rewrite Hp.
  fold (tgroup_of h rl). unfold _run_tsuites in *.
  rewrite for_each_app, Hb. simpl. unfold bind.
  by rewrite (run_tsuite_no_suites _ _ m st' Hi Hs).
Qed.

Lemma cmd_run_no_suites rls1 rl rls2 before tsuite after m st st1 st2 :
  elements (_get_runlists h) = (rls1 ++ rl :: rls2)%list ->
  for_each (run_runlist h) rls1 st = (Ok tt, st1) ->
  _parse_runlist h rl = Some (before ++ tsuite :: after)%list ->
  _run_tsuites h (tgroup_of h rl) before st1 = (Ok tt, st2) ->
  import_module h (module_name tsuite) (tgroup_of h rl) = Some m ->
  size (_get_all_tsuite_classes h m) = 0 ->
  cmd_run h st
  = (Raise (Exit 1),
     {| insts := insts st2;
        events := (events st2
                   ++ [EvImport (module_name tsuite) (tgroup_of h rl)])%list;
        stderr := (stderr st2
                   ++ ["no subclasses of testvibe.Testsuite found"
                       +:+ nl])%list |}).
Proof.
  intros He H1 Hp Hb Hi Hs. unfold cmd_run, bind at 1.
  rewrite bool_decide_eq_false_2.
  2:{ unfold size, set_size. simpl. rewrite He. by destruct rls1. }
  cbn [ret fst snd]. rewrite He, for_each_app, H1. simpl. unfold bind.
  by rewrite (run_runlist_no_suites _ _ _ _ m st1 st2 Hp Hb Hi Hs).
Qed.

(** The run of one run list whose identifiers can all be run. *)
Lemma run_runlist_eq rl tsuites st :
  _parse_runlist h rl = Some tsuites ->
  Forall (runnable h (tgroup_of h rl)) tsuites ->
  run_runlist h rl st
  = (Ok tt,
     {| insts := (insts st ++ dispatch_insts h (tgroup_of h rl) tsuites)%list;
        events := (events st
                   ++ dispatch_events h (tgroup_of h rl) tsuites
                        (length (insts st)))%list;
        stderr := stderr st |}).
Proof.
  intros Hp Hall. unfold run_runlist. rewrite Hp. fold (tgroup_of h rl).
  by apply run_tsuites_eq.
Qed.

End DispatchFacts.

Section DispatchClaims.
Import PyStr CLIHandler Vocabulary Plan.

(** C7: for each suite class that the dispatcher discovers it builds
    exactly one instance, with fresh counters, and calls the discovered
    test cases on that instance one after the other: the counters of the
    instance end where the test cases, run in turn on the same counters,
    leave them; the calls are those of the test cases up to the first
    that raises, and all of them when none raises.  Over the suite
    classes of a module this makes one instance per class, and over a
    run list the loop of [_run_tsuites] (and with it the run of a run
    list) imports each module and then does this for each of the suite
    classes that [_get_all_tsuite_classes] finds in it; the loop comes
    to its end exactly when every module has a suite class and every
    test case returns. *)
Theorem one_instance_runs_all_test_cases :
  (forall h cl st,
     let tcs := elements (_get_all_tcases h cl) in
     let body := for_each (apply_to h) tcs Asserts.fresh in
     let i := length (insts st) in
     run_tsuite_class h cl st
     = (uncaught body.1,
        {| insts := (insts st ++ [body.2])%list;
           events := (events st ++ EvConstruct cl i
                        :: map (EvTest i) (invoked h tcs Asserts.fresh))%list;
           stderr := stderr st |})
     /\ invoked h tcs Asserts.fresh `prefix_of` tcs
     /\ (body.1 = Ok tt -> invoked h tcs Asserts.fresh = tcs)
     /\ NoDup tcs
     /\ (forall tc, tc ∈ tcs <-> tc ∈ _get_all_tcases h cl))
  /\ (forall h cls st,
        Forall (all_pass h) cls ->
        for_each (run_tsuite_class h) cls st
        = (Ok tt,
           {| insts := (insts st ++ map (counters_of h) cls)%list;
              events := (events st
                         ++ suite_events h cls (length (insts st)))%list;
              stderr := stderr st |}))
  /\ (forall h tgroup tsuite st,
        runnable h tgroup tsuite ->
        let r := run_tsuite h tgroup tsuite st in
        r.1 = Ok tt
        /\ insts r.2
           = (insts st
              ++ map (counters_of h) (suites_of h tgroup tsuite))%list
        /\ events r.2
           = (events st
              ++ EvImport (module_name tsuite) tgroup
                 :: suite_events h (suites_of h tgroup tsuite)
                      (length (insts st)))%list)
  /\ (forall h tgroup tsuites st,
        Forall (runnable h tgroup) tsuites ->
        let r := _run_tsuites h tgroup tsuites st in
        r.1 = Ok tt
        /\ insts r.2 = (insts st ++ dispatch_insts h tgroup tsuites)%list
        /\ events r.2
           = (events st
              ++ dispatch_events h tgroup tsuites (length (insts st)))%list)
  /\ (forall h tgroup tsuites st st',
        _run_tsuites h tgroup tsuites st = (Ok tt, st') ->
        Forall (runnable h tgroup) tsuites)
  /\ (forall h rl tsuites st,
        _parse_runlist h rl = Some tsuites ->
        Forall (runnable h (tgroup_of h rl)) tsuites ->
        let r := run_runlist h rl st in
        r.1 = Ok tt
        /\ insts r.2
           = (insts st ++ dispatch_insts h (tgroup_of h rl) tsuites)%list
        /\ events r.2
           = (events st
              ++ dispatch_events h (tgroup_of h rl) tsuites
                   (length (insts st)))%list)
  /\ (forall h tgroup tsuite,
        NoDup (suites_of h tgroup tsuite)
        /\ forall cl,
             cl ∈ suites_of h tgroup tsuite
             <-> exists m,
                   import_module h (module_name tsuite) tgroup = Some m
                   /\ cl ∈ _get_all_tsuite_classes h m).
Proof.
  split.
  { intros h cl st tcs body i.
    split; [apply run_tsuite_class_eq|].
    split; [apply invoked_prefix|].
    split; [apply invoked_all|].
    split; [apply NoDup_elements | intros tc; apply elem_of_elements]. }
  split; [intros h cls st; apply run_classes_eq|].
  split.
  { intros h tgroup tsuite st Hr r. unfold r.
    by rewrite (run_tsuite_eq h tgroup tsuite st Hr). }
  split.
  { intros h tgroup tsuites st Hall r. unfold r.
    by rewrite (run_tsuites_eq h tgroup tsuites st Hall). }
  split; [intros h tgroup tsuites st st'; apply run_tsuites_ok_inv|].
  split.
  { intros h rl tsuites st Hp Hall r. unfold r.
    by rewrite (run_runlist_eq h rl tsuites st Hp Hall). }
  intros h tgroup tsuite.
  split; [apply suites_of_NoDup | intros cl; apply suites_of_spec].
Qed.

Lemma one_instance_runs_all_test_cases_witness :
  (for_each (apply_to Demo.project)
     (elements (_get_all_tcases Demo.project 2)) Asserts.fresh).1 = Ok tt
  /\ run_tsuite_class Demo.project 2 initial
     = (Ok tt,
        {| insts := [ {| Asserts.passed := 3; Asserts.attempted := 3 |} ];
           events := [ EvConstruct 2 0; EvTest 0 (PyFunc 201);
                       EvTest 0 (PyFunc 202) ];
           stderr := [] |})
  /\ Forall (all_pass Demo.project) [3; 2]%positive
  /\ for_each (run_tsuite_class Demo.project) [3; 2]%positive initial
     = (Ok tt,
        {| insts := [ {| Asserts.passed := 1; Asserts.attempted := 1 |};
                      {| Asserts.passed := 3; Asserts.attempted := 3 |} ];
           events := [ EvConstruct 3 0; EvTest 0 (PyFunc 301);
                       EvConstruct 2 1; EvTest 1 (PyFunc 201);
                       EvTest 1 (PyFunc 202) ];
           stderr := [] |})
  /\ Forall (runnable Demo.project "webtests") ["smoke.py"; "login.py"]
  /\ (_run_tsuites Demo.project "webtests" ["smoke.py"; "login.py"]
        initial).1 = Ok tt
  /\ insts (_run_tsuites Demo.project "webtests" ["smoke.py"; "login.py"]
              initial).2
     = [ {| Asserts.passed := 1; Asserts.attempted := 1 |};
         {| Asserts.passed := 1; Asserts.attempted := 1 |};
         {| Asserts.passed := 3; Asserts.attempted := 3 |} ]
  /\ events (_run_tsuites Demo.project "webtests" ["smoke.py"; "login.py"]
               initial).2
     = [ EvImport ".smoke" "webtests";
         EvConstruct 3 0; EvTest 0 (PyFunc 301);
         EvImport ".login" "webtests";
         EvConstruct 3 1; EvTest 1 (PyFunc 301);
         EvConstruct 2 2; EvTest 2 (PyFunc 201); EvTest 2 (PyFunc 202) ].
Proof.
  assert ((for_each (apply_to Demo.project)
             (elements (_get_all_tcases Demo.project 2)) Asserts.fresh).1
          = Ok tt) as Hok by reflexivity.
  assert (Forall (all_pass Demo.project) [3; 2]%positive) as Hall.
  { repeat constructor. }
  assert (Forall (runnable Demo.project "webtests") ["smoke.py"; "login.py"])
    as Hrun'.
  { repeat constructor; vm_compute; discriminate. }
  destruct one_instance_runs_all_test_cases
    as (Hone & Hmany & _ & Hlist & _).
  destruct (Hone Demo.project 2%positive initial) as (Hrun & _ & Hinv & _).
  split; [exact Hok|]. split.
  - rewrite Hrun, (Hinv Hok). reflexivity.
  - split; [exact Hall|]. split.
    + rewrite (Hmany Demo.project _ initial Hall). reflexivity.
    + split; [exact Hrun'|].
      exact (Hlist Demo.project "webtests" _ initial Hrun').
Defined.

(** C8: [run] ends the process with status 1 and a message on [stderr]
    when no run list is found, and when the module of a suite has no
    suite class: [cmd_run] that has come through the run lists and the
    suites before such a module stops there, and nothing further is run
    in either case (the suites that follow in the run list and the run
    lists that follow play no part in the result); these are the only
    two places where [run] itself exits. *)
Theorem run_exits_without_runlists_or_suites :
  (forall h st,
     size (_get_runlists h) = 0 ->
     cmd_run h st
     = (Raise (Exit 1),
        {| insts := insts st; events := events st;
           stderr := (stderr st ++ ["no runlists found..." +:+ nl])%list |}))
  /\ (forall h rls1 rl rls2 before tsuite after m st st1 st2,
        elements (_get_runlists h) = (rls1 ++ rl :: rls2)%list ->
        for_each (run_runlist h) rls1 st = (Ok tt, st1) ->
        _parse_runlist h rl = Some (before ++ tsuite :: after)%list ->
        _run_tsuites h (tgroup_of h rl) before st1 = (Ok tt, st2) ->
        import_module h (module_name tsuite) (tgroup_of h rl) = Some m ->
        size (_get_all_tsuite_classes h m) = 0 ->
        let r := cmd_run h st in
        r.1 = Raise (Exit 1)
        /\ ("no subclasses of testvibe.Testsuite found" +:+ nl) ∈ stderr r.2
        /\ insts r.2 = insts st2
        /\ events r.2
           = (events st2
              ++ [EvImport (module_name tsuite) (tgroup_of h rl)])%list)
  /\ (forall h tgroup before tsuite after m st st',
        _run_tsuites h tgroup before st = (Ok tt, st') ->
        import_module h (module_name tsuite) tgroup = Some m ->
        size (_get_all_tsuite_classes h m) = 0 ->
        _run_tsuites h tgroup (before ++ tsuite :: after) st
        = (Raise (Exit 1),
           {| insts := insts st';
              events := (events st'
                         ++ [EvImport (module_name tsuite) tgroup])%list;
              stderr := (stderr st'
                         ++ ["no subclasses of testvibe.Testsuite found"
                             +:+ nl])%list |}))
  /\ (forall h st n st',
        cmd_run h st = (Raise (Exit n), st') ->
        n = 1%Z
        /\ (size (_get_runlists h) = 0
            \/ exists rl tsuites tsuite tgroup m,
                 rl ∈ _get_runlists h
                 /\ _parse_runlist h rl = Some tsuites
                 /\ tsuite ∈ tsuites
                 /\ import_module h (module_name tsuite) tgroup = Some m
                 /\ size (_get_all_tsuite_classes h m) = 0)).
Proof.
  split; [|split; [|split]].
  - intros h st Hs. unfold cmd_run.
    rewrite bool_decide_eq_true_2 by done. reflexivity.
  - intros h rls1 rl rls2 before tsuite after m st st1 st2 He H1 Hp Hb Hi Hs r.
    unfold r.
    rewrite (cmd_run_no_suites h rls1 rl rls2 before tsuite after m st st1 st2
               He H1 Hp Hb Hi Hs).
    cbn [fst snd insts events stderr].
    split; [done|]. split; [|done].
    apply elem_of_app. right. by constructor.
  - intros h tgroup before tsuite after m st st' Hb Hi Hs.
    unfold _run_tsuites in *. rewrite for_each_app, Hb. simpl.
    unfold bind. by rewrite (run_tsuite_no_suites h tgroup tsuite m st' Hi Hs).
  - intros h st n st'. unfold cmd_run, bind at 1.
    case_bool_decide as Hs.
    + intros [= <- _]. split; [done | by left].
    + simpl. intros H.
      apply for_each_raise_inv in H as (rl & s0 & Hrl & H).
      apply run_runlist_exit_inv in H
        as [-> (tsuites & tsuite & tgroup & m & Hp & Hin & Hi & Hm)].
      split; [done|]. right. exists rl, tsuites, tsuite, tgroup, m.
      split; [by apply elem_of_elements in Hrl | done].
Qed.

Lemma run_exits_without_runlists_or_suites_witness :
  size (_get_runlists Demo.bare_directory) = 0
  /\ cmd_run Demo.bare_directory initial
     = (Raise (Exit 1),
        {| insts := []; events := [];
           stderr := ["no runlists found..." +:+ nl] |})
  /\ ((cmd_run Workspace.with_helpers initial).1 = Raise (Exit 1)
      /\ ("no subclasses of testvibe.Testsuite found" +:+ nl)
           ∈ stderr (cmd_run Workspace.with_helpers initial).2
      /\ insts (cmd_run Workspace.with_helpers initial).2
         = [ {| Asserts.passed := 1; Asserts.attempted := 1 |} ]
      /\ events (cmd_run Workspace.with_helpers initial).2
         = [ EvImport ".smoke" "webtests"; EvConstruct 3 0;
             EvTest 0 (PyFunc 301); EvImport ".helpers" "webtests" ])
  /\ _run_tsuites Demo.project "webtests"
       (["smoke.py"] ++ "helpers.py" :: ["login.py"]) initial
     = (Raise (Exit 1),
        {| insts := [ {| Asserts.passed := 1; Asserts.attempted := 1 |} ];
           events := [ EvImport ".smoke" "webtests"; EvConstruct 3 0;
                       EvTest 0 (PyFunc 301);
                       EvImport ".helpers" "webtests" ];
           stderr := ["no subclasses of testvibe.Testsuite found" +:+ nl] |})
  /\ (size (_get_runlists Demo.bare_directory) = 0
      \/ exists rl tsuites tsuite tgroup m,
           rl ∈ _get_runlists Demo.bare_directory
           /\ _parse_runlist Demo.bare_directory rl = Some tsuites
           /\ tsuite ∈ tsuites
           /\ import_module Demo.bare_directory (module_name tsuite) tgroup
              = Some m
           /\ size (_get_all_tsuite_classes Demo.bare_directory m) = 0).
Proof.
  destruct run_exits_without_runlists_or_suites
    as (Hnone & Hcmd & Hsuite & Hinv).
  assert (size (_get_runlists Demo.bare_directory) = 0) as Hs by reflexivity.
  split; [exact Hs|].
  split; [exact (Hnone Demo.bare_directory initial Hs)|].
  split.
  { exact (Hcmd Workspace.with_helpers [] "RUNLIST" [] ["smoke.py"]
             "helpers.py" ["login.py"] Demo.helpers_module initial initial
             (_run_tsuites Workspace.with_helpers "webtests" ["smoke.py"]
                initial).2
             eq_refl eq_refl eq_refl eq_refl eq_refl eq_refl). }
  split.
  - exact (Hsuite Demo.project "webtests" ["smoke.py"] "helpers.py"
             ["login.py"] Demo.helpers_module initial
             (_run_tsuites Demo.project "webtests" ["smoke.py"] initial).2
             eq_refl eq_refl eq_refl).
  - refine (proj2 (Hinv Demo.bare_directory initial 1%Z _ _)).
    exact (Hnone Demo.bare_directory initial Hs).
Defined.

End DispatchClaims.

(** ** What the dispatcher imports *)

Section ImportFacts.
Import PyStr CLIHandler Vocabulary Plan.

Lemma imports_app evs1 evs2 : imports (evs1 ++ evs2) = (imports evs1 ++ imports evs2)%list.
Proof. unfold imports. apply omap_app. Qed.

Lemma imports_tests i tcs : imports (map (EvTest i) tcs) = [].
Proof. induction tcs as [|tc tcs IH]; [done | exact IH]. Qed.

(** Building an instance and calling its test cases imports nothing. *)
Lemma run_tsuite_class_imports h cl st :
  imports (events (run_tsuite_class h cl st).2) = imports (events st).
Proof.
  rewrite run_tsuite_class_eq. cbn [snd events].
  change (EvConstruct cl (length (insts st)) :: ?l)
    with ([EvConstruct cl (length (insts st))] ++ l)%list.
  rewrite !imports_app, imports_tests. simpl. by rewrite !app_nil_r.
Qed.

Lemma run_classes_imports h cls st :
  imports (events (for_each (run_tsuite_class h) cls st).2) = imports (events st).
Proof.
  apply (for_each_preserves
           (fun s s' => imports (events s') = imports (events s))).
  - done.
  - intros s1 s2 s3 H1 H2. by rewrite H2.
  - intros cl s. apply run_tsuite_class_imports.
Qed.

(** One turn of the loop of [_run_tsuites] imports one module, however
    the turn ends. *)
Lemma run_tsuite_one_import h tgroup tsuite st :
  imports (events (run_tsuite h tgroup tsuite st).2)
  = (imports (events st) ++ [(module_name tsuite, tgroup)])%list.
Proof.
  unfold run_tsuite, bind at 1. cbn [emit fst snd].
  set (st1 := {| insts := insts st; events := _; stderr := stderr st |}).
  assert (imports (events st1)
          = (imports (events st) ++ [(module_name tsuite, tgroup)])%list) as H1.
  { unfold st1. cbn [events]. by rewrite imports_app. }
  rewrite <- H1.
  destruct (import_module h (module_name tsuite) tgroup) as [m|]; [|done].
  unfold bind at 1. case_bool_decide; [done|]. cbn [ret fst snd].
  apply run_classes_imports.
Qed.

(** The loop of [_run_tsuites] that comes to its end has imported, for
    each identifier of the run list and in the order of the run list,
    the module named after it. *)
Lemma run_tsuites_import_list h tgroup tsuites st st' :
  _run_tsuites h tgroup tsuites st = (Ok tt, st') ->
  imports (events st')
  = (imports (events st)
     ++ map (fun tsuite => (module_name tsuite, tgroup)) tsuites)%list.
Proof.
  unfold _run_tsuites. revert st.
  induction tsuites as [|tsuite tsuites IH]; intros st; simpl.
  - intros [= <-]. by rewrite app_nil_r.
  - unfold bind.
    pose proof (run_tsuite_one_import h tgroup tsuite st) as H1.
    destruct (run_tsuite h tgroup tsuite st) as [[[]|e] s1]; [|done].
    intros H. rewrite (IH _ H). simpl in H1. by rewrite H1, <- app_assoc.
Qed.

(** An identifier that the loop reaches is imported under its module
    name, whatever follows. *)
Lemma run_tsuites_imports h tgroup before tsuite after st st' :
  _run_tsuites h tgroup before st = (Ok tt, st') ->
  (events st' ++ [EvImport (module_name tsuite) tgroup])%list
    `prefix_of` events (_run_tsuites h tgroup (before ++ tsuite :: after) st).2.
Proof.
  intros Hb. unfold _run_tsuites in *. rewrite for_each_app, Hb. simpl.
  unfold bind.
  pose proof (run_tsuite_imports h tgroup tsuite st') as Hp.
  destruct (run_tsuite h tgroup tsuite st') as [[[]|e] s1]; simpl in *; [|done].
  etrans; [exact Hp|].
  apply (for_each_grows (run_tsuite h tgroup)). intros. apply grows_trans with
    (st2 := (run_tsuite h tgroup x s).2); [|apply grows_refl].
  unfold grows. etrans; [|apply run_tsuite_imports]. by apply prefix_app_r.
Qed.

Lemma run_tsuites_import_error h tgroup before tsuite after st st' :
  _run_tsuites h tgroup before st = (Ok tt, st') ->
  import_module h (module_name tsuite) tgroup = None ->
  (_run_tsuites h tgroup (before ++ tsuite :: after) st).1
  = Raise (Uncaught Asserts.ImportError).
Proof.
  intros Hb Hi. unfold _run_tsuites in *. rewrite for_each_app, Hb. simpl.
  unfold bind, run_tsuite, bind. simpl. by rewrite Hi.
Qed.

(** C10: for every suite identifier of a run list the dispatcher imports
    the module named by what follows the last slash of the identifier
    (the identifier itself when it has none) without its last three
    characters, with a leading dot and inside the test group: a run that
    comes to its end has imported exactly these modules, in the order of
    the run list, and an identifier that is reached is imported under
    that name whatever follows.  A [.py] suffix is removed, and an
    identifier without it loses three characters of its name, as
    [mysuite] does. *)
Theorem dispatcher_import_name :
  (forall h tgroup tsuites st st',
     _run_tsuites h tgroup tsuites st = (Ok tt, st') ->
     imports (events st')
     = (imports (events st)
        ++ map (fun tsuite => (module_name tsuite, tgroup)) tsuites)%list)
  /\ (forall h tgroup before tsuite after st st',
        _run_tsuites h tgroup before st = (Ok tt, st') ->
        (events st' ++ [EvImport (module_name tsuite) tgroup])%list
          `prefix_of`
          events (_run_tsuites h tgroup (before ++ tsuite :: after) st).2
        /\ (import_module h (module_name tsuite) tgroup = None ->
            (_run_tsuites h tgroup (before ++ tsuite :: after) st).1
            = Raise (Uncaught Asserts.ImportError)))
  /\ (forall h tgroup tsuite st,
        (events st ++ [EvImport (module_name tsuite) tgroup])%list
          `prefix_of` events (run_tsuite h tgroup tsuite st).2
        /\ (import_module h (module_name tsuite) tgroup = None ->
            (run_tsuite h tgroup tsuite st).1
            = Raise (Uncaught Asserts.ImportError)))
  /\ (forall base,
        contains_char "/" base = false ->
        module_name base = "." +:+ drop_last3 base)
  /\ (forall path base,
        contains_char "/" base = false ->
        module_name (path +:+ String "/" base) = "." +:+ drop_last3 base)
  /\ (forall s, exists t,
        s = drop_last3 s +:+ t /\ String.length t = Nat.min 3 (String.length s))
  /\ (forall stem, drop_last3 (stem +:+ ".py") = stem)
  /\ module_name "mysuite" = ".mysu".
Proof.
  split; [exact run_tsuites_import_list|].
  split.
  { intros h tgroup before tsuite after st st' Hb.
    split; [exact (run_tsuites_imports _ _ _ _ _ _ _ Hb)
          | exact (run_tsuites_import_error _ _ _ _ _ _ _ Hb)]. }
  split.
  { intros h tgroup tsuite st. split; [apply run_tsuite_imports|].
    intros Hi. unfold run_tsuite, bind. simpl. by rewrite Hi. }
  split; [exact module_name_bare|].
  split; [exact module_name_in_group|].
  split; [exact drop_last3_split|].
  split; [|reflexivity].
  intros stem. by apply drop_last3_suffix.
Qed.

Lemma dispatcher_import_name_witness :
  _run_tsuites Demo.project "webtests" ["webtests/smoke.py"; "login.py"] initial
  = (Ok tt,
     (_run_tsuites Demo.project "webtests" ["webtests/smoke.py"; "login.py"]
        initial).2)
  /\ imports
       (events (_run_tsuites Demo.project "webtests"
                  ["webtests/smoke.py"; "login.py"] initial).2)
     = [(".smoke", "webtests"); (".login", "webtests")]
  /\ import_module Demo.project (module_name "mysuite") "webtests" = None
  /\ (_run_tsuites Demo.project "webtests"
        (["webtests/smoke.py"; "login.py"] ++ "mysuite" :: ["smoke.py"])
        initial).1
     = Raise (Uncaught Asserts.ImportError)
  /\ contains_char "/" "login.py" = false
  /\ module_name ("webtests" +:+ String "/" "login.py") = ".login".
Proof.
  destruct dispatcher_import_name
    as (Hlist & Hreach & _ & _ & Hgroup & _ & Hpy & _).
  assert (_run_tsuites Demo.project "webtests"
            ["webtests/smoke.py"; "login.py"] initial
          = (Ok tt,
             (_run_tsuites Demo.project "webtests"
                ["webtests/smoke.py"; "login.py"] initial).2)) as Hok
    by reflexivity.
  assert (import_module Demo.project (module_name "mysuite") "webtests" = None)
    as Hi by reflexivity.
  assert (contains_char "/" "login.py" = false) as Hb by reflexivity.
  split; [exact Hok|]. split; [exact (Hlist _ _ _ _ _ Hok)|].
  split; [exact Hi|]. split.
  - exact (proj2 (Hreach Demo.project "webtests" _ "mysuite" ["smoke.py"]
                    initial _ Hok) Hi).
  - split; [exact Hb|].
    rewrite (Hgroup "webtests" "login.py" Hb). exact (f_equal _ (Hpy "login")).
Defined.

End ImportFacts.

(** ** More on run lists *)

Section RunlistMore.
Import PyStr CLIHandler Vocabulary Notions.

Lemma no_break_snoc (s : string) (d : ascii) :
  no_break s = true -> is_break d = false ->
  no_break (s +:+ String d EmptyString) = true.
Proof.
  intros Hs Hd. induction s as [|c s IH]; rewrite ?append_nil, ?append_cons; simpl.
  - by rewrite Hd.
  - simpl in Hs. apply andb_true_iff in Hs as [Hc Hs]. by rewrite Hc, IH.
Qed.

(** The lines that [splitlines] returns have no line break in them.  The
    text is taken apart one or two characters at a time, hence the
    induction on a bound of its length. *)
Lemma splitlines_acc_no_break (n : nat) (s cur : string) :
  String.length s <= n -> no_break cur = true ->
  Forall (fun l => no_break l = true) (splitlines_acc cur s).
Proof.
  revert s cur. induction n as [|n IH]; intros s cur Hn Hcur.
  - destruct s; [|simpl in Hn; lia]. simpl. destruct cur; by repeat constructor.
  - destruct s as [|d s]; simpl.
    { destruct cur; by repeat constructor. }
    simpl in Hn.
    destruct (Ascii.eqb d LF) eqn:Hlf.
    { constructor; [done|]. apply IH; [lia | done]. }
    destruct (Ascii.eqb d CR) eqn:Hcr.
    + destruct s as [|e s].
      * constructor; [done|]. apply IH; [simpl; lia | done].
      * destruct (Ascii.eqb e LF).
        -- constructor; [done|]. apply IH; [simpl in *; lia | done].
        -- constructor; [done|]. apply IH; [simpl in *; lia | done].
    + apply IH; [lia|]. apply no_break_snoc; [done|].
      unfold is_break. by rewrite Hlf, Hcr.
Qed.

Lemma splitlines_no_break (s : string) :
  Forall (fun l => no_break l = true) (splitlines s).
Proof. by apply (splitlines_acc_no_break (String.length s)). Qed.

(** X1: Every suite identifier read from a run list is a single line: it has
    no line feed or carriage return in it, and it does not start with
    the comment prefix. *)
Theorem parsed_identifiers_are_lines :
  forall h path tsuites,
    _parse_runlist h path = Some tsuites ->
    Forall identifier tsuites.
Proof.
  intros h path tsuites. unfold _parse_runlist.
  destruct (read_file h path) as [content|]; simpl; [|done].
  intros [= <-]. rewrite parse_runlist_text_filter.
  apply Forall_forall. intros line Hin.
  apply list_elem_of_filter in Hin as [Hk Hin]. split; [|exact Hk].
  pose proof (splitlines_no_break content) as Hall.
  rewrite Forall_forall in Hall. by apply Hall.
Qed.

Lemma parsed_identifiers_are_lines_witness :
  _parse_runlist Demo.project "RUNLIST" = Some ["smoke.py"; "login.py"]
  /\ Forall identifier ["smoke.py"; "login.py"].
Proof.
  assert (_parse_runlist Demo.project "RUNLIST" = Some ["smoke.py"; "login.py"])
    as Hp by reflexivity.
  split; [exact Hp|].
  exact (parsed_identifiers_are_lines Demo.project "RUNLIST" _ Hp).
Defined.

Lemma splitlines_acc_crlf_line (l cur rest : string) :
  no_break l = true ->
  splitlines_acc cur (l +:+ String CR (String LF rest))
  = (cur +:+ l) :: splitlines_acc EmptyString rest.
Proof.
  revert cur.
  induction l as [|d l IH]; intros cur Hl;
    rewrite ?append_nil, ?append_cons; simpl in *.
  - by rewrite append_empty_r.
  - apply andb_true_iff in Hl as [Hd Hl]. unfold is_break in Hd.
    apply negb_true_iff, orb_false_iff in Hd as [H1 H2].
    rewrite H1, H2, IH by done. by rewrite append_snoc.
Qed.

Lemma splitlines_unlines_crlf (lines : list string) :
  Forall (fun l => no_break l = true) lines ->
  splitlines (unlines_crlf lines) = lines.
Proof.
  unfold splitlines. induction 1 as [|l lines Hl _ IH]; simpl; [done|].
  by rewrite splitlines_acc_crlf_line, append_nil, IH.
Qed.

(** X2: A run list saved with CR LF line ends names the same suites, in the
    same order, as the same run list saved with LF line ends. *)
Theorem crlf_runlist_parses_alike :
  forall lines,
    Forall (fun l => no_break l = true) lines ->
    parse_runlist_text (unlines_crlf lines) = parse_runlist_text (unlines lines)
    /\ parse_runlist_text (unlines_crlf lines) = filter kept lines.
Proof.
  intros lines Hl.
  rewrite !parse_runlist_text_filter, splitlines_unlines_crlf,
    splitlines_unlines by done.
  by split.
Qed.

Lemma crlf_runlist_parses_alike_witness :
  Forall (fun l => no_break l = true) ["# nightly"; "smoke.py"; "login.py"]
  /\ parse_runlist_text (unlines_crlf ["# nightly"; "smoke.py"; "login.py"])
     = ["smoke.py"; "login.py"].
Proof.
  assert (Forall (fun l => no_break l = true)
            ["# nightly"; "smoke.py"; "login.py"]) as H.
  { repeat constructor. }
  split; [exact H|].
  rewrite (proj2 (crlf_runlist_parses_alike _ H)). reflexivity.
Defined.

(** Splitting a text that has a line feed in it: the lines up to and
    including that line feed, then the lines of the rest. *)
Lemma splitlines_acc_app (n : nat) (a b cur : string) :
  String.length a <= n ->
  splitlines_acc cur (a +:+ String LF b)
  = (splitlines_acc cur (a +:+ String LF EmptyString) ++ splitlines b)%list.
Proof.
  revert a cur. induction n as [|n IH]; intros a cur Hn.
  - destruct a; [|simpl in Hn; lia]. by rewrite !append_nil.
  - destruct a as [|d a]; [by rewrite !append_nil|].
    simpl in Hn. rewrite !append_cons. simpl.
    destruct (Ascii.eqb d LF) eqn:Hlf.
    { rewrite IH by lia. done. }
    destruct (Ascii.eqb d CR) eqn:Hcr.
    + destruct a as [|e a].
      * rewrite !append_nil. simpl. done.
      * rewrite !append_cons. destruct (Ascii.eqb e LF).
        -- rewrite IH by (simpl in Hn; lia). done.
        -- rewrite <- !append_cons. rewrite IH by lia. done.
    + apply IH. lia.
Qed.

(** X3: Appending to a run list that ends with a line feed appends to the
    suites it names: nothing of what was there is read differently. *)
Theorem runlist_append :
  forall a b,
    parse_runlist_text (a +:+ String LF b)
    = (parse_runlist_text (a +:+ String LF EmptyString)
       ++ parse_runlist_text b)%list.
Proof.
  intros a b. rewrite !parse_runlist_text_filter. unfold splitlines at 1 2.
  rewrite (splitlines_acc_app (String.length a)) by done.
  apply filter_app.
Qed.

End RunlistMore.

(** ** More on module names and on finding run lists *)

Section PathMore.
Import PyStr CLIHandler Vocabulary Notions.

Lemma contains_char_app (c : ascii) (s t : string) :
  contains_char c (s +:+ t) = contains_char c s || contains_char c t.
Proof.
  induction s as [|d s IH]; rewrite ?append_nil, ?append_cons; simpl; [done|].
  by rewrite IH, orb_assoc.
Qed.

(** No piece of a split has the separator in it. *)
Lemma split_acc_pieces (c : ascii) (s cur : string) :
  contains_char c cur = false ->
  Forall (fun p => contains_char c p = false) (split_acc c cur s).
Proof.
  revert cur. induction s as [|d s IH]; intros cur Hcur; simpl.
  - by repeat constructor.
  - destruct (Ascii.eqb d c) eqn:Hd.
    + constructor; [done | by apply IH].
    + apply IH. rewrite contains_char_app, Hcur. simpl.
      by rewrite Ascii.eqb_sym, Hd.
Qed.

Lemma last_piece_no_sep (c : ascii) (s : string) :
  contains_char c (last_piece (split c s)) = false.
Proof.
  pose proof (split_acc_pieces c s EmptyString eq_refl) as Hall.
  pose proof (split_acc_nonempty c EmptyString s) as Hne.
  unfold split, last_piece. rewrite Forall_forall in Hall. apply Hall.
  apply list_elem_of_In.
  destruct (exists_last Hne) as (l & x & ->). rewrite last_last.
  apply in_or_app. right. by left.
Qed.

Lemma contains_char_substring (c : ascii) (s : string) (n : nat) :
  contains_char c s = false ->
  contains_char c (String.substring 0 n s) = false.
Proof.
  revert n. induction s as [|d s IH]; intros n Hs; destruct n; simpl in *;
    try done.
  apply orb_false_iff in Hs as [Hd Hs]. by rewrite Hd, IH.
Qed.

Lemma module_name_stem (tsuite : string) :
  exists base,
    contains_char "/" base = false
    /\ module_name tsuite = "." +:+ drop_last3 base
    /\ (contains_char "/" tsuite = false -> base = tsuite).
Proof.
  unfold module_name. destruct (contains_char "/" tsuite) eqn:Hs.
  - exists (last_piece (split "/" tsuite)).
    split; [apply last_piece_no_sep | by split].
  - by exists tsuite.
Qed.

(** X4: Whatever the suite identifier, the name that is imported has no
    slash in it: the module is always looked up directly inside the test
    group. *)
Theorem module_name_has_no_slash :
  forall tsuite, contains_char "/" (module_name tsuite) = false.
Proof.
  intros tsuite. destruct (module_name_stem tsuite) as (base & Hb & -> & _).
  rewrite append_cons, append_nil. simpl.
  by apply contains_char_substring.
Qed.

Lemma drop_last3_of_short (s : string) :
  String.length s <= 3 -> drop_last3 s = EmptyString.
Proof.
  intros Hs. unfold drop_last3.
  replace (String.length s - 3) with 0 by lia. by destruct s.
Qed.

(** X5: A suite identifier of at most three characters (after its last
    slash) leaves no module name at all: the dispatcher imports ['.'].
    The empty identifier that a blank line of a run list gives is one of
    them. *)
Theorem short_identifier_imports_dot :
  forall h tgroup path base st,
    contains_char "/" base = false ->
    String.length base <= 3 ->
    module_name base = "."
    /\ module_name (path +:+ String "/" base) = "."
    /\ (events st ++ [EvImport "." tgroup])%list
         `prefix_of` events (run_tsuite h tgroup base st).2.
Proof.
  intros h tgroup path base st Hb Hl.
  assert (module_name base = ".") as Hm.
  { rewrite module_name_bare by done. by rewrite drop_last3_of_short. }
  split; [exact Hm|]. split.
  - rewrite module_name_in_group by done. by rewrite drop_last3_of_short.
  - rewrite <- Hm. apply run_tsuite_imports.
Qed.

Lemma short_identifier_imports_dot_witness :
  contains_char "/" "" = false
  /\ String.length "" <= 3
  /\ "" ∈ parse_runlist_text ("smoke.py" +:+ nl +:+ nl +:+ "login.py")
  /\ module_name "" = "."
  /\ module_name ("webtests" +:+ String "/" "") = ".".
Proof.
  assert (contains_char "/" "" = false) as Hb by reflexivity.
  assert (String.length "" <= 3) as Hl by (simpl; lia).
  destruct (short_identifier_imports_dot Demo.project "webtests" "webtests" ""
              initial Hb Hl) as (H1 & H2 & _).
  split; [exact Hb|]. split; [exact Hl|]. split.
  - change ("" ∈ ["smoke.py"; ""; "login.py"]).
    apply elem_of_cons. right. apply elem_of_cons. by left.
  - split; [exact H1 | exact H2].
Defined.

(** *** [_get_all_dirs] and [_get_runlists] *)

Lemma get_all_dirs_loop (h : host) (fs : list string) (dirs : gset string)
    (d : string) :
  d ∈ fold_left
        (fun dirs f => if path_isdir h f then {[ f ]} ∪ dirs else dirs) fs dirs
  <-> d ∈ dirs \/ (d ∈ fs /\ path_isdir h d = true).
Proof.
  revert dirs. induction fs as [|f fs IH]; intros dirs; simpl.
  - split; [by left|]. intros [H|[H _]]; [done | by inversion H].
  - rewrite IH. destruct (path_isdir h f) eqn:Hf.
    + rewrite elem_of_union, elem_of_singleton, elem_of_cons. split.
      * intros [[->|H]|[H1 H2]]; auto.
      * intros [H|[[->|H1] H2]]; auto.
    + rewrite elem_of_cons. split.
      * intros [H|[H1 H2]]; auto.
      * intros [H|[[->|H1] H2]]; auto. congruence.
Qed.

Lemma get_all_dirs_spec (h : host) (path d : string) :
  d ∈ _get_all_dirs h path <-> d ∈ listdir h path /\ path_isdir h d = true.
Proof.
  unfold _get_all_dirs. rewrite get_all_dirs_loop. split.
  - intros [H|H]; [by apply not_elem_of_empty in H | done].
  - by right.
Qed.

Lemma runlists_inner_loop (d : string) (fs : list string)
    (runlists : gset string) (rl : string) :
  rl ∈ fold_left
         (fun runlists f =>
            if String.eqb f FILENAME_RUNLIST
            then {[ d +:+ "/" +:+ f ]} ∪ runlists else runlists) fs runlists
  <-> rl ∈ runlists
      \/ (FILENAME_RUNLIST ∈ fs /\ rl = d +:+ "/" +:+ FILENAME_RUNLIST).
Proof.
  revert runlists. induction fs as [|f fs IH]; intros runlists; simpl.
  - split; [by left|]. intros [H|[H _]]; [done | by inversion H].
  - rewrite IH. destruct (String.eqb_spec f FILENAME_RUNLIST) as [->|Hf].
    + rewrite elem_of_union, elem_of_singleton, elem_of_cons. split.
      * intros [[->|H]|[H1 H2]]; auto.
      * intros [H|[_ ->]]; auto.
    + rewrite elem_of_cons. split.
      * intros [H|[H1 H2]]; auto.
      * intros [H|[[H1|H1] H2]]; auto. congruence.
Qed.

Lemma runlists_outer_loop (h : host) (ds : list string)
    (runlists : gset string) (rl : string) :
  rl ∈ fold_left
         (fun runlists d =>
            fold_left
              (fun runlists f =>
                 if String.eqb f FILENAME_RUNLIST
                 then {[ d +:+ "/" +:+ f ]} ∪ runlists else runlists)
              (listdir h d) runlists) ds runlists
  <-> rl ∈ runlists
      \/ exists d, d ∈ ds /\ FILENAME_RUNLIST ∈ listdir h d
                   /\ rl = d +:+ "/" +:+ FILENAME_RUNLIST.
Proof.
  revert runlists. induction ds as [|d ds IH]; intros runlists; simpl.
  - split; [by left|]. intros [H|(d & H & _)]; [done | by inversion H].
  - rewrite IH, runlists_inner_loop. split.
    + intros [[H|[H1 H2]]|(d' & H1 & H2 & H3)]; [by left| |].
      * right. exists d. split; [by left | done].
      * right. exists d'. split; [by right | done].
    + intros [H|(d' & H1 & H2 & H3)]; [by left; left|].
      apply elem_of_cons in H1 as [->|H1].
      * left. right. done.
      * right. by exists d'.
Qed.

(** X6: A [RUNLIST] in the current directory is the only run list then: the
    test groups below are not looked at.  Without it, the run lists are
    the [RUNLIST] files of the directories of the current directory, one
    level down. *)
Theorem runlists_found :
  forall h,
    (path_exists h FILENAME_RUNLIST = true ->
     _get_runlists h = {[ FILENAME_RUNLIST ]})
    /\ (path_exists h FILENAME_RUNLIST = false ->
        forall rl,
          rl ∈ _get_runlists h <->
          exists d, d ∈ listdir h CURRENT_WORKING_DIR
                    /\ path_isdir h d = true
                    /\ FILENAME_RUNLIST ∈ listdir h d
                    /\ rl = d +:+ "/" +:+ FILENAME_RUNLIST).
Proof.
  intros h. unfold _get_runlists. split; intros He; rewrite He; [done|].
  intros rl. rewrite runlists_outer_loop. split.
  - intros [H|(d & Hd & Hf & Hrl)]; [by apply not_elem_of_empty in H|].
    apply elem_of_elements, get_all_dirs_spec in Hd as [Hd Hdir].
    by exists d.
  - intros (d & Hd & Hdir & Hf & Hrl). right. exists d.
    split; [|done]. by apply elem_of_elements, get_all_dirs_spec.
Qed.

Lemma runlists_found_witness :
  path_exists Demo.project FILENAME_RUNLIST = true
  /\ _get_runlists Demo.project = {[ FILENAME_RUNLIST ]}
  /\ path_exists Workspace.root FILENAME_RUNLIST = false
  /\ "webtests/RUNLIST" ∈ _get_runlists Workspace.root
  /\ elements (_get_runlists Workspace.root) = ["webtests/RUNLIST"].
Proof.
  assert (path_exists Demo.project FILENAME_RUNLIST = true) as H1
    by reflexivity.
  assert (path_exists Workspace.root FILENAME_RUNLIST = false) as H2
    by reflexivity.
  destruct (runlists_found Demo.project) as [Hcwd _].
  destruct (runlists_found Workspace.root) as [_ Hsub].
  split; [exact H1|]. split; [exact (Hcwd H1)|]. split; [exact H2|]. split.
  - apply (Hsub H2). exists "webtests". split.
    + change ("webtests" ∈ ["README"; "apitests"; "webtests"]).
      do 2 (apply elem_of_cons; right). apply elem_of_cons. by left.
    + split; [reflexivity|]. split; [|reflexivity].
      change ("RUNLIST" ∈ ["RUNLIST"; "__init__.py"; "login.py"; "smoke.py"]).
      apply elem_of_cons. by left.
  - reflexivity.
Defined.

Lemma split_acc_first (c : ascii) (x cur y : string) :
  contains_char c x = false ->
  split_acc c cur (x +:+ String c y)
  = (cur +:+ x) :: split_acc c EmptyString y.
Proof.
  revert cur. induction x as [|d x IH]; intros cur Hx;
    rewrite ?append_nil, ?append_cons; simpl in *.
  - by rewrite Ascii.eqb_refl, append_empty_r.
  - apply orb_false_iff in Hx as [Hd Hx].
    rewrite Ascii.eqb_sym, Hd, IH by done. by rewrite append_snoc.
Qed.

(** X7: The run list of a test group is run inside that group: the suites
    of [d/RUNLIST] are imported from the package [d].  A run list in the
    current directory is run inside the group named by the last
    component of the current directory. *)
Theorem runlist_runs_in_its_group :
  (forall h d tsuites st,
     contains_char "/" d = false ->
     _parse_runlist h (d +:+ "/" +:+ FILENAME_RUNLIST) = Some tsuites ->
     run_runlist h (d +:+ "/" +:+ FILENAME_RUNLIST) st
     = _run_tsuites h d tsuites st)
  /\ (forall h tsuites st,
        _parse_runlist h FILENAME_RUNLIST = Some tsuites ->
        run_runlist h FILENAME_RUNLIST st
        = _run_tsuites h (last_piece (split "/" (getcwd h))) tsuites st).
Proof.
  split.
  - intros h d tsuites st Hd Hp. unfold run_runlist. rewrite Hp.
    change (d +:+ "/" +:+ FILENAME_RUNLIST)
      with (d +:+ String "/" FILENAME_RUNLIST).
    rewrite contains_char_app_sep. unfold split.
    by rewrite split_acc_first, append_nil.
  - intros h tsuites st Hp. unfold run_runlist. by rewrite Hp.
Qed.

Lemma runlist_runs_in_its_group_witness :
  contains_char "/" "webtests" = false
  /\ _parse_runlist Workspace.root ("webtests" +:+ "/" +:+ FILENAME_RUNLIST)
     = Some ["smoke.py"; "login.py"]
  /\ run_runlist Workspace.root ("webtests" +:+ "/" +:+ FILENAME_RUNLIST)
       initial
     = _run_tsuites Workspace.root "webtests" ["smoke.py"; "login.py"] initial
  /\ _parse_runlist Demo.project FILENAME_RUNLIST
     = Some ["smoke.py"; "login.py"]
  /\ run_runlist Demo.project FILENAME_RUNLIST initial
     = _run_tsuites Demo.project "webtests" ["smoke.py"; "login.py"] initial.
Proof.
  assert (contains_char "/" "webtests" = false) as Hd by reflexivity.
  assert (_parse_runlist Workspace.root
            ("webtests" +:+ "/" +:+ FILENAME_RUNLIST)
          = Some ["smoke.py"; "login.py"]) as Hp by reflexivity.
  assert (_parse_runlist Demo.project FILENAME_RUNLIST
          = Some ["smoke.py"; "login.py"]) as Hq by reflexivity.
  destruct runlist_runs_in_its_group as [Hsub Hcwd].
  split; [exact Hd|]. split; [exact Hp|]. split.
  - exact (Hsub Workspace.root "webtests" _ initial Hd Hp).
  - split; [exact Hq|]. exact (Hcwd Demo.project _ initial Hq).
Defined.

End PathMore.

(** ** What the commands keep *)

Section KeepFacts.
Import PyStr CLIHandler Vocabulary Notions.

(** A relation on states kept by every step is kept by a sequence. *)
Lemma bind_preserves {A B} (R : state -> state -> Prop)
    (m : prog state stop A) (k : A -> prog state stop B) st :
  (forall s1 s2 s3, R s1 s2 -> R s2 s3 -> R s1 s3) ->
  (forall s, R s (m s).2) -> (forall a s, R s (k a s).2) ->
  R st (bind m k st).2.
Proof.
  intros Htrans Hm Hk. unfold bind. specialize (Hm st).
  destruct (m st) as [[a|e] s1]; simpl in *; [|done].
  eapply Htrans; [exact Hm | apply Hk].
Qed.

Lemma constructs_app evs1 evs2 :
  constructs (evs1 ++ evs2) = constructs evs1 + constructs evs2.
Proof. unfold constructs. by rewrite filter_app, length_app. Qed.

Lemma constructs_tests i tcs : constructs (map (EvTest i) tcs) = 0.
Proof. induction tcs as [|tc tcs IH]; [done|]. exact IH. Qed.

Lemma run_events_tests i tcs :
  Forall (fun e => is_run_event e = true) (map (EvTest i) tcs).
Proof. induction tcs; by constructor. Qed.

Lemma run_adds_refl st : run_adds st st.
Proof.
  exists []. rewrite app_nil_r.
  split; [done|]. split; [by apply Forall_nil|].
  split; [done | unfold constructs; simpl; lia].
Qed.

Lemma run_adds_trans s1 s2 s3 : run_adds s1 s2 -> run_adds s2 s3 -> run_adds s1 s3.
Proof.
  intros (e1 & He1 & Hr1 & Hp1 & Hl1) (e2 & He2 & Hr2 & Hp2 & Hl2).
  exists (e1 ++ e2)%list. split; [by rewrite He2, He1, app_assoc|].
  split; [by apply Forall_app|]. split; [by etrans|].
  rewrite constructs_app. lia.
Qed.

Lemma run_adds_same_insts st st' evs :
  insts st' = insts st -> events st' = (events st ++ evs)%list ->
  Forall (fun e => is_run_event e = true) evs -> constructs evs = 0 ->
  run_adds st st'.
Proof.
  intros Hi He Hr Hc. exists evs. rewrite Hi, Hc.
  split; [done|]. split; [done|]. split; [done | lia].
Qed.

Section WithHost.
Context (h : host).

Lemma run_tsuite_class_adds cl st : run_adds st (run_tsuite_class h cl st).2.
Proof.
  rewrite run_tsuite_class_eq. simpl. eexists. split; [reflexivity|].
  split; [constructor; [done | apply run_events_tests]|].
  split; [by apply prefix_app_r|].
  cbn [insts]. rewrite length_app.
  change (EvConstruct cl (length (insts st)) :: ?l)
    with ([EvConstruct cl (length (insts st))] ++ l)%list.
  by rewrite constructs_app, constructs_tests.
Qed.

Lemma run_tsuite_adds tgroup tsuite st :
  run_adds st (run_tsuite h tgroup tsuite st).2.
Proof.
  unfold run_tsuite. apply bind_preserves; [apply run_adds_trans| |].
  - intros s.
    apply (run_adds_same_insts _ _ [EvImport (module_name tsuite) tgroup]);
      try done. by repeat constructor.
  - intros _ s. destruct (import_module h (module_name tsuite) tgroup) as [m|].
    + apply bind_preserves; [apply run_adds_trans| |].
      * intros s'. case_bool_decide; [|apply run_adds_refl].
        apply (run_adds_same_insts _ _ []); simpl; by rewrite ?app_nil_r.
      * intros _ s'. apply (for_each_preserves run_adds);
          [apply run_adds_refl | apply run_adds_trans|].
        intros. apply run_tsuite_class_adds.
    + apply run_adds_refl.
Qed.

Lemma run_runlist_adds rl st : run_adds st (run_runlist h rl st).2.
Proof.
  unfold run_runlist. destruct (_parse_runlist h rl) as [tsuites|].
  - apply (for_each_preserves run_adds);
      [apply run_adds_refl | apply run_adds_trans|].
    intros. apply run_tsuite_adds.
  - apply run_adds_refl.
Qed.

Lemma cmd_run_adds st : run_adds st (cmd_run h st).2.
Proof.
  unfold cmd_run. apply bind_preserves; [apply run_adds_trans| |].
  - intros s. case_bool_decide; [|apply run_adds_refl].
    apply (run_adds_same_insts _ _ []); simpl; by rewrite ?app_nil_r.
  - intros _ s. apply (for_each_preserves run_adds);
      [apply run_adds_refl | apply run_adds_trans|].
    intros. apply run_runlist_adds.
Qed.

End WithHost.

(** X8: However [run] ends, the suite instances that existed before are as
    they were (no suite touches the counters of another), every instance
    added was built by the dispatcher (as many [EvConstruct] events as
    new instances), and nothing but imports, constructions and test
    calls has happened. *)
Theorem run_keeps_instances_apart :
  forall h st,
    exists evs,
      events (cmd_run h st).2 = (events st ++ evs)%list
      /\ Forall (fun e => is_run_event e = true) evs
      /\ insts st `prefix_of` insts (cmd_run h st).2
      /\ length (insts (cmd_run h st).2) = length (insts st) + constructs evs.
Proof. intros h st. apply cmd_run_adds. Qed.

End KeepFacts.

(** ** How a run can end *)

Section OutcomeClaims.
Import PyStr CLIHandler Vocabulary Notions.

(** X11: The first suite that does not come to its end ends the run, and
    ends it the way the suite ended: the suites after it in the run list
    are neither imported nor run. *)
Theorem first_failure_ends_the_run :
  forall h tgroup before tsuite after st st' e st'',
    _run_tsuites h tgroup before st = (Ok tt, st') ->
    run_tsuite h tgroup tsuite st' = (Raise e, st'') ->
    _run_tsuites h tgroup (before ++ tsuite :: after) st = (Raise e, st'').
Proof.
  intros h tgroup before tsuite after st st' e st'' Hb Ht.
  unfold _run_tsuites in *. rewrite for_each_app, Hb. simpl.
  unfold bind. by rewrite Ht.
Qed.

Lemma first_failure_ends_the_run_witness :
  _run_tsuites Demo.project "webtests" ["smoke.py"] initial
  = (Ok tt, (_run_tsuites Demo.project "webtests" ["smoke.py"] initial).2)
  /\ _run_tsuites Demo.project "webtests"
       (["smoke.py"] ++ "broken.py" :: ["login.py"]) initial
     = (Raise (Uncaught (Asserts.AssertionException
                           Asserts.AssertionExceptionIn)),
        {| insts := [ {| Asserts.passed := 1; Asserts.attempted := 1 |};
                      {| Asserts.passed := 0; Asserts.attempted := 1 |} ];
           events := [ EvImport ".smoke" "webtests"; EvConstruct 3 0;
                       EvTest 0 (PyFunc 301);
                       EvImport ".broken" "webtests"; EvConstruct 4 1;
                       EvTest 1 (PyFunc 401) ];
           stderr := [] |}).
Proof.
  split; [reflexivity|].
  exact (first_failure_ends_the_run Demo.project "webtests" ["smoke.py"]
           "broken.py" ["login.py"] initial
           (_run_tsuites Demo.project "webtests" ["smoke.py"] initial).2
           _ _ eq_refl eq_refl).
Defined.

(** X12: A suite class without a single test case of its own (a class whose
    body is [pass], say) is still instantiated, once; nothing is called
    on the instance, whose counters stay at zero, and the run goes on. *)
Theorem suite_without_test_cases :
  forall h cl st,
    (forall o v, ~ is_test_case h cl o v) ->
    _get_all_tcases h cl = ∅
    /\ run_tsuite_class h cl st
       = (Ok tt,
          {| insts := (insts st ++ [Asserts.fresh])%list;
             events := (events st ++ [EvConstruct cl (length (insts st))])%list;
             stderr := stderr st |}).
Proof.
  intros h cl st Hnone.
  assert (_get_all_tcases h cl = ∅) as He.
  { apply set_eq. intros v. rewrite get_all_tcases_spec. split.
    - intros (o & Ho). by destruct (Hnone o v).
    - intros Hv. by apply not_elem_of_empty in Hv. }
  split; [exact He|].
  rewrite run_tsuite_class_eq, He, elements_empty. reflexivity.
Qed.

Lemma suite_without_test_cases_witness :
  (forall o v, ~ is_test_case Demo.project 9 o v)
  /\ run_tsuite_class Demo.project 9 initial
     = (Ok tt,
        {| insts := [Asserts.fresh]; events := [EvConstruct 9 0];
           stderr := [] |}).
Proof.
  assert (forall o v, ~ is_test_case Demo.project 9 o v) as Hn.
  { intros o v (_ & _ & Hd & _). discriminate Hd. }
  split; [exact Hn|].
  exact (proj2 (suite_without_test_cases Demo.project 9 initial Hn)).
Defined.

End OutcomeClaims.

(** ** The commands, one by one *)

Section CommandFacts.
Import PyStr CLIHandler Vocabulary Notions.

Lemma file_adds_refl st : file_adds st st.
Proof. split; [done|]. exists []. by rewrite app_nil_r. Qed.

Lemma file_adds_trans s1 s2 s3 :
  file_adds s1 s2 -> file_adds s2 s3 -> file_adds s1 s3.
Proof.
  intros (Hi1 & e1 & He1 & Hf1) (Hi2 & e2 & He2 & Hf2).
  split; [congruence|]. exists (e1 ++ e2)%list.
  split; [by rewrite He2, He1, app_assoc | by apply Forall_app].
Qed.

Lemma file_adds_emit e st : is_file_event e = true -> file_adds st (emit e st).2.
Proof. intros He. split; [done|]. exists [e]. split; [done | by constructor]. Qed.

Lemma file_adds_exit_if_dir_exists h dir_name st :
  file_adds st (_exit_if_dir_exists h dir_name st).2.
Proof.
  unfold _exit_if_dir_exists. destruct (path_exists h dir_name); simpl.
  - split; [done|]. exists []. by rewrite app_nil_r.
  - apply file_adds_refl.
Qed.

Lemma file_adds_cmd_startproject h name st :
  file_adds st (cmd_startproject h name st).2.
Proof.
  unfold cmd_startproject, _copy_file, _add_init_file.
  do 3 (apply bind_preserves;
          [apply file_adds_trans
          | intros ?;
            first [apply file_adds_exit_if_dir_exists | by apply file_adds_emit]
          | intros _ ?]).
  by apply file_adds_emit.
Qed.

Lemma file_adds_cmd_addtestgroup h name st :
  file_adds st (cmd_addtestgroup h name st).2.
Proof.
  unfold cmd_addtestgroup, _copy_file, _add_init_file.
  do 4 (apply bind_preserves;
          [apply file_adds_trans
          | intros ?;
            first [apply file_adds_exit_if_dir_exists | by apply file_adds_emit]
          | intros _ ?]).
  by apply file_adds_emit.
Qed.

(** X13: Each command does its own kind of work and no other: [startproject]
    and [addtestgroup] lay out files and never import a module or build
    a suite instance; [run] imports, builds and calls and never lays out
    a file; any other command does nothing at all and returns. *)
Theorem each_command_does_its_own_work :
  forall h args st,
    (cmd args ∈ CMDS_WITH_NAME_ARG -> file_adds st (execute h args st).2)
    /\ (cmd args = CMD_RUN -> run_adds st (execute h args st).2)
    /\ ((cmd args ∉ CMDS_WITH_NAME_ARG) -> cmd args <> CMD_RUN ->
        execute h args st = (Ok tt, st)).
Proof.
  intros h args st. unfold execute. split; [|split].
  - intros Hc. rewrite bool_decide_eq_true_2 by done.
    apply bind_preserves; [apply file_adds_trans| |].
    + intros s. destruct (_is_valid_name (name args)); simpl.
      * apply file_adds_refl.
      * split; [done|]. exists []. by rewrite app_nil_r.
    + intros _ s. destruct (String.eqb (cmd args) CMD_STARTPROJECT);
        [apply file_adds_cmd_startproject|].
      destruct (String.eqb (cmd args) CMD_ADDTESTGROUP);
        [apply file_adds_cmd_addtestgroup | apply file_adds_refl].
  - intros ->. simpl. apply cmd_run_adds.
  - intros Hn Hr. rewrite bool_decide_eq_false_2 by done.
    apply String.eqb_neq in Hr. by rewrite Hr.
Qed.

Lemma each_command_does_its_own_work_witness :
  "addtestgroup" ∈ CMDS_WITH_NAME_ARG
  /\ file_adds initial
       (execute Demo.project {| cmd := "addtestgroup"; name := "apitests" |}
          initial).2
  /\ run_adds initial
       (execute Demo.project {| cmd := "run"; name := "" |} initial).2
  /\ ("runn" ∉ CMDS_WITH_NAME_ARG)
  /\ execute Demo.project {| cmd := "runn"; name := "" |} initial
     = (Ok tt, initial).
Proof.
  assert ("addtestgroup" ∈ CMDS_WITH_NAME_ARG) as H1.
  { apply elem_of_cons. right. apply elem_of_cons. by left. }
  assert ("runn" ∉ CMDS_WITH_NAME_ARG) as H2.
  { intros H. apply elem_of_cons in H as [H|H]; [discriminate H|].
    apply elem_of_cons in H as [H|H]; [discriminate H|]. by inversion H. }
  split; [exact H1|]. split.
  - exact (proj1 (each_command_does_its_own_work Demo.project
                    {| cmd := "addtestgroup"; name := "apitests" |} initial) H1).
  - split.
    + exact (proj1 (proj2 (each_command_does_its_own_work Demo.project
                             {| cmd := "run"; name := "" |} initial)) eq_refl).
    + split; [exact H2|].
      refine (proj2 (proj2 (each_command_does_its_own_work Demo.project
                              {| cmd := "runn"; name := "" |} initial)) H2 _).
      discriminate.
Defined.

Lemma all_valid_excludes (w : string) (c : ascii) :
  all_valid w = true -> valid_char c = false -> contains_char c w = false.
Proof.
  intros Hw Hc. induction w as [|d w IH]; simpl in *; [done|].
  apply andb_true_iff in Hw as [Hd Hw]. rewrite IH by done.
  destruct (Ascii.eqb_spec c d) as [->|]; [congruence | done].
Qed.

(** X14: A name that is accepted is not empty and has no character outside
    letters, digits and underscore, the line feed apart: in particular
    no slash and no dot, so that [startproject] and [addtestgroup] only
    ever make a directory directly inside the current one. *)
Theorem accepted_name_stays_in_directory :
  forall s,
    _is_valid_name s = true ->
    s <> EmptyString
    /\ (forall c, valid_char c = false -> c <> LF -> contains_char c s = false)
    /\ contains_char "/" s = false
    /\ contains_char "." s = false.
Proof.
  intros s Hs.
  assert (forall c, valid_char c = false -> c <> LF -> contains_char c s = false)
    as Hall.
  { intros c Hc Hlf.
    apply is_valid_name_spec in Hs as (w & Hne & Hw & [->| ->]).
    - by apply all_valid_excludes.
    - rewrite contains_char_app, (all_valid_excludes w c) by done. simpl.
      apply Ascii.eqb_neq in Hlf. by rewrite Hlf. }
  split.
  - intros ->. discriminate Hs.
  - split; [exact Hall|]. split; by apply Hall.
Qed.

Lemma accepted_name_stays_in_directory_witness :
  _is_valid_name "web_tests2" = true
  /\ contains_char "/" "web_tests2" = false
  /\ _is_valid_name "../etc" = false.
Proof.
  assert (_is_valid_name "web_tests2" = true) as H by reflexivity.
  split; [exact H|]. split; [|reflexivity].
  exact (proj1 (proj2 (proj2 (accepted_name_stays_in_directory _ H)))).
Defined.

End CommandFacts.

(** ** Paths and replacement *)

Section ScaffoldPathFacts.
Import PyStr Scaffold.

Implicit Types (name f : string).

Lemma contains_char_false_neq (c d : ascii) (s : string) :
  contains_char c (String d s) = false -> Ascii.eqb d c = false.
Proof.
  simpl. intros H. apply orb_false_iff in H as [H _]. by rewrite Ascii.eqb_sym.
Qed.

Lemma head_upto_last_join name f :
  contains_char "/" f = false ->
  head_upto_last "/" (name +:+ String "/" f) = name +:+ String "/" EmptyString.
Proof.
  intros Hf. induction name as [|d name IH]; rewrite ?append_nil, ?append_cons.
  - simpl. by rewrite Hf.
  - simpl. by rewrite contains_char_app_sep, IH.
Qed.

Lemma head_upto_last_none name :
  contains_char "/" name = false -> head_upto_last "/" name = EmptyString.
Proof.
  destruct name as [|d name]; [done|]. intros H. simpl.
  pose proof (contains_char_false_neq _ _ _ H) as Hd.
  simpl in H. apply orb_false_iff in H as [_ H]. by rewrite H, Hd.
Qed.

Lemma rstrip_join name :
  contains_char "/" name = false ->
  rstrip "/" (name +:+ String "/" EmptyString) = name.
Proof.
  induction name as [|d name IH]; intros H; rewrite ?append_nil, ?append_cons.
  - done.
  - pose proof (contains_char_false_neq _ _ _ H) as Hd.
    simpl in H. apply orb_false_iff in H as [_ H].
    simpl. rewrite IH, Hd by done. by destruct name.
Qed.

(** [os.path.dirname(name + '/' + f) == name] *)
Lemma dirname_join name f :
  name <> EmptyString -> contains_char "/" name = false ->
  contains_char "/" f = false ->
  dirname (name +:+ "/" +:+ f) = name.
Proof.
  intros Hne Hn Hf. unfold dirname.
  change (name +:+ "/" +:+ f) with (name +:+ String "/" f).
  rewrite head_upto_last_join by done.
  destruct name as [|d name]; [done|].
  pose proof (contains_char_false_neq _ _ _ Hn) as Hd.
  rewrite append_cons. cbn [String.eqb all_char negb andb].
  rewrite Hd. cbn [negb andb]. rewrite <- append_cons. by apply rstrip_join.
Qed.

Lemma dirname_bare name :
  contains_char "/" name = false -> dirname name = EmptyString.
Proof. intros H. unfold dirname. by rewrite head_upto_last_none. Qed.

Lemma prefixes_at_none (cur f : string) :
  contains_char "/" f = false -> prefixes_at "/" cur f = [].
Proof.
  revert cur. induction f as [|d f IH]; intros cur H; [done|].
  pose proof (contains_char_false_neq _ _ _ H) as Hd.
  simpl in H. apply orb_false_iff in H as [_ H]. simpl. rewrite Hd.
  by apply IH.
Qed.

Lemma prefixes_at_join (cur name f : string) :
  cur +:+ name <> EmptyString ->
  contains_char "/" name = false -> contains_char "/" f = false ->
  prefixes_at "/" cur (name +:+ String "/" f) = [cur +:+ name].
Proof.
  revert cur. induction name as [|d name IH]; intros cur Hne Hn Hf;
    rewrite ?append_nil, ?append_cons.
  - rewrite append_empty_r in *. simpl.
    destruct cur; [done|]. by rewrite prefixes_at_none.
  - pose proof (contains_char_false_neq _ _ _ Hn) as Hd.
    simpl in Hn. apply orb_false_iff in Hn as [_ Hn].
    simpl. rewrite Hd, IH; [by rewrite append_snoc | | done | done].
    rewrite append_snoc. by destruct cur.
Qed.

Lemma ancestors_join name f :
  name <> EmptyString -> contains_char "/" name = false ->
  contains_char "/" f = false ->
  ancestors (name +:+ "/" +:+ f) = [name].
Proof.
  intros Hne Hn Hf. unfold ancestors.
  change (name +:+ "/" +:+ f) with (name +:+ String "/" f).
  by rewrite prefixes_at_join.
Qed.

Lemma ancestors_bare name :
  contains_char "/" name = false -> ancestors name = [].
Proof. apply prefixes_at_none. Qed.

Lemma join_neq_bare name f : name +:+ "/" +:+ f <> name.
Proof.
  intros H. apply (f_equal String.length) in H.
  rewrite !length_append in H. simpl in H. lia.
Qed.

Lemma join_inj name f g : name +:+ "/" +:+ f = name +:+ "/" +:+ g -> f = g.
Proof.
  change (name +:+ String "/" f = name +:+ String "/" g -> f = g).
  induction name as [|d name IH]; rewrite ?append_nil, ?append_cons.
  - by intros [= ->].
  - intros [= H]. by apply IH.
Qed.

(** *** [str.replace] *)

Lemma prefix_cons_false (c0 c : ascii) (o s : string) :
  Ascii.eqb c c0 = false -> String.prefix (String c0 o) (String c s) = false.
Proof.
  intros H. simpl. destruct (ascii_dec c0 c) as [->|]; [|done].
  by rewrite Ascii.eqb_refl in H.
Qed.

Lemma prefix_app (o s : string) : String.prefix o (o +:+ s) = true.
Proof.
  induction o as [|c o IH]; rewrite ?append_nil, ?append_cons; simpl.
  - by destruct s.
  - destruct (ascii_dec c c); [exact IH | done].
Qed.

(** A text in which the first character of [old] does not occur is left
    as it is. *)
Lemma replace_from_absent (c0 : ascii) (o new s : string) :
  contains_char c0 s = false ->
  replace_from (String c0 o) new 0 s = s.
Proof.
  induction s as [|c s IH]; intros H; [done|].
  pose proof (contains_char_false_neq _ _ _ H) as Hc.
  simpl in H. apply orb_false_iff in H as [_ H].
  cbn [replace_from]. rewrite prefix_cons_false by done. by rewrite IH.
Qed.

Lemma replace_from_skip (old new x s : string) :
  replace_from old new (String.length x) (x +:+ s) = replace_from old new 0 s.
Proof.
  induction x as [|c x IH]; rewrite ?append_nil, ?append_cons; simpl.
  - by destruct s.
  - exact IH.
Qed.

Lemma replace_from_before (c0 : ascii) (o new pre s : string) :
  contains_char c0 pre = false ->
  replace_from (String c0 o) new 0 (pre +:+ s)
  = pre +:+ replace_from (String c0 o) new 0 s.
Proof.
  induction pre as [|c pre IH]; intros H; rewrite ?append_nil, ?append_cons;
    [done|].
  pose proof (contains_char_false_neq _ _ _ H) as Hc.
  simpl in H. apply orb_false_iff in H as [_ H].
  cbn [replace_from]. rewrite prefix_cons_false by done. by rewrite IH.
Qed.

(** One occurrence of [old], in a text that has the first character of
    [old] nowhere else: [new] takes its place. *)
Lemma py_replace_once (c0 : ascii) (o new pre post : string) :
  contains_char c0 pre = false -> contains_char c0 post = false ->
  py_replace (String c0 o) new (pre +:+ String c0 o +:+ post)
  = pre +:+ new +:+ post.
Proof.
  intros Hpre Hpost. unfold py_replace.
  rewrite replace_from_before by done. f_equal.
  rewrite append_cons. cbn [replace_from].
  rewrite <- append_cons, prefix_app. f_equal.
  replace (String.length (String c0 o) - 1) with (String.length o)
    by (simpl; lia).
  rewrite replace_from_skip. by apply replace_from_absent.
Qed.

Lemma py_replace_absent (c0 : ascii) (o new s : string) :
  contains_char c0 s = false -> py_replace (String c0 o) new s = s.
Proof. apply replace_from_absent. Qed.

End ScaffoldPathFacts.

(** ** What [startproject] and [addtestgroup] leave on the file system *)

Section ScaffoldFacts.
Import PyStr Scaffold Layout.

Lemma fs_exists_false fs p :
  fs_exists fs p = false <-> fs_files fs !! p = None /\ p ∉ fs_dirs fs.
Proof.
  unfold fs_exists. rewrite orb_false_iff, !bool_decide_eq_false.
  rewrite <- eq_None_not_Some. done.
Qed.

Lemma fs_exists_dir fs p : p ∈ fs_dirs fs -> fs_exists fs p = true.
Proof.
  intros H. unfold fs_exists. rewrite (bool_decide_eq_true_2 (p ∈ fs_dirs fs)) by done.
  apply orb_true_r.
Qed.

(** In a well-formed file system nothing is inside a directory that is
    not there. *)
Lemma absent_below fs name f :
  well_formed fs -> plain name -> contains_char "/" f = false ->
  fs_exists fs name = false ->
  fs_exists fs (name +:+ "/" +:+ f) = false.
Proof.
  intros [Hd Hf] [Hne Hn] Hfs Hex.
  apply fs_exists_false in Hex as [Hnf Hnd].
  assert (parent_ok fs (name +:+ "/" +:+ f) -> False) as Hno.
  { unfold parent_ok. rewrite dirname_join by done.
    intros [H|[H|H]]; [done | | done]. symmetry in H. by apply join_neq_bare in H. }
  apply fs_exists_false. split.
  - destruct (fs_files fs !! (name +:+ "/" +:+ f)) as [c|] eqn:Hl; [|done].
    destruct (Hf _ _ Hl) as [Hp _]. by destruct Hno.
  - intros Hin. by destruct (Hno (Hd _ Hin)).
Qed.

(** *** The steps *)

Lemma exit_if_absent ins name w :
  fs_exists (w_fs w) name = false -> _exit_if_dir_exists ins name w = (Ok tt, w).
Proof. intros H. unfold _exit_if_dir_exists. by rewrite H. Qed.

Lemma exit_if_present ins name w :
  fs_exists (w_fs w) name = true ->
  _exit_if_dir_exists ins name w = (Raise (Exit 1), complained ins name w).
Proof. intros H. unfold _exit_if_dir_exists. by rewrite H. Qed.

Lemma makedirs_bare name w :
  contains_char "/" name = false -> fs_exists (w_fs w) name = false ->
  makedirs name w = (Ok tt, on_fs w (add_dir (w_fs w) name)).
Proof.
  intros Hn Hex. unfold makedirs. rewrite Hex, ancestors_bare by done. simpl.
  unfold on_fs, add_dir. do 3 f_equal. by rewrite union_empty_r_L.
Qed.

Lemma makedirs_below name f w :
  plain name -> contains_char "/" f = false ->
  fs_exists (w_fs w) name = false ->
  fs_exists (w_fs w) (name +:+ "/" +:+ f) = false ->
  makedirs (name +:+ "/" +:+ f) w
  = (Ok tt, on_fs w (add_dir (add_dir (w_fs w) name) (name +:+ "/" +:+ f))).
Proof.
  intros [Hne Hn] Hf Hex Hex'. unfold makedirs.
  rewrite Hex', ancestors_join by done. simpl.
  apply fs_exists_false in Hex as [Hnf _].
  rewrite bool_decide_eq_false_2 by (rewrite Hnf; by intros [? ?]). simpl.
  unfold on_fs, add_dir. simpl. do 3 f_equal. by rewrite union_empty_r_L.
Qed.

Lemma write_file_in fs name f content (w : world) :
  w_fs w = fs -> plain name -> contains_char "/" f = false ->
  name ∈ fs_dirs fs -> (name +:+ "/" +:+ f) ∉ fs_dirs fs ->
  write_file (name +:+ "/" +:+ f) content w
  = (Ok tt, on_fs w (add_file fs (name +:+ "/" +:+ f) content)).
Proof.
  intros <- [Hne Hn] Hf Hin Hnd. unfold write_file.
  rewrite dirname_join by done.
  rewrite (bool_decide_eq_true_2 _ Hin), (bool_decide_eq_false_2 _ Hnd).
  by rewrite andb_false_r.
Qed.

Lemma read_file_some p content w :
  fs_files (w_fs w) !! p = Some content -> read_file p w = (Ok content, w).
Proof. intros H. unfold read_file. by rewrite H. Qed.

Lemma read_file_none p w :
  fs_files (w_fs w) !! p = None -> read_file p w = (Raise IOError, w).
Proof. intros H. unfold read_file. by rewrite H. Qed.

End ScaffoldFacts.

Section ScaffoldCommands.
Import PyStr Scaffold Layout.

Lemma count_char_app (c : ascii) (s t : string) :
  count_char c (s +:+ t) = count_char c s + count_char c t.
Proof.
  induction s as [|d s IH]; rewrite ?append_nil, ?append_cons; simpl; [done|].
  rewrite IH. lia.
Qed.

Lemma count_char_absent (c : ascii) (s : string) :
  contains_char c s = false -> count_char c s = 0.
Proof.
  induction s as [|d s IH]; intros H; [done|].
  pose proof (contains_char_false_neq _ _ _ H) as Hd.
  simpl in H. apply orb_false_iff in H as [_ H]. simpl. by rewrite Hd, IH.
Qed.

(** A template is two directories deep at least, a file that the
    commands write is one directory deep: the commands never write over
    a template. *)
Lemma template_elsewhere ins name f g :
  contains_char "/" name = false -> contains_char "/" g = false ->
  _get_src ins f <> name +:+ "/" +:+ g.
Proof.
  intros Hn Hg Heq. apply (f_equal (count_char "/")) in Heq.
  unfold _get_src, CLIHandler.DEFAULT_INSTALL_DIR in Heq.
  rewrite !count_char_app, (count_char_absent _ name),
    (count_char_absent _ g) in Heq by done.
  simpl in Heq. lia.
Qed.

Lemma copy_file_ok ins fs name f search replace src (w : world) :
  w_fs w = fs -> plain name -> contains_char "/" f = false ->
  fs_files fs !! _get_src ins f = Some src ->
  name ∈ fs_dirs fs -> (name +:+ "/" +:+ f) ∉ fs_dirs fs ->
  _copy_file ins name f search replace w
  = (Ok tt,
     on_fs w (add_file fs (name +:+ "/" +:+ f)
                (match search, replace with
                 | Some search, Some replace => py_replace search replace src
                 | _, _ => src
                 end))).
Proof.
  intros Hw Hp Hf Hsrc Hin Hnd. unfold _copy_file, bind.
  rewrite (read_file_some _ src) by (by rewrite Hw).
  by apply write_file_in.
Qed.

Lemma copy_file_missing ins name f search replace (w : world) :
  fs_files (w_fs w) !! _get_src ins f = None ->
  _copy_file ins name f search replace w = (Raise IOError, w).
Proof.
  intros Hsrc. unfold _copy_file, bind. by rewrite read_file_none.
Qed.

Lemma add_init_file_ok fs name (w : world) :
  w_fs w = fs -> plain name ->
  name ∈ fs_dirs fs ->
  (name +:+ "/" +:+ CLIHandler.INIT_FILENAME) ∉ fs_dirs fs ->
  _add_init_file name w
  = (Ok tt,
     on_fs w (add_file fs (name +:+ "/" +:+ CLIHandler.INIT_FILENAME)
                EmptyString)).
Proof. intros. unfold _add_init_file. by apply write_file_in. Qed.

(** The entries of a new directory are not directories of the file
    system the directory is added to. *)
Lemma below_not_dir fs name f :
  well_formed fs -> plain name -> contains_char "/" f = false ->
  fs_exists fs name = false ->
  ((name +:+ "/" +:+ f) ∉ fs_dirs fs)
  /\ fs_files fs !! (name +:+ "/" +:+ f) = None.
Proof.
  intros Hwf Hp Hf Hex.
  pose proof (absent_below fs name f Hwf Hp Hf Hex) as H.
  by apply fs_exists_false in H as [? ?].
Qed.

Section Start.
Context (ins : install) (name : string) (w : world).
Hypothesis Hwf : well_formed (w_fs w).
Hypothesis Hplain : plain name.
Hypothesis Hfree : fs_exists (w_fs w) name = false.

Lemma startproject_dirs :
  makedirs (name +:+ "/logs") w = (Ok tt, on_fs w (project_dirs (w_fs w) name)).
Proof.
  change (name +:+ "/logs") with (name +:+ "/" +:+ "logs").
  rewrite makedirs_below; try done.
  by apply absent_below.
Qed.

Lemma in_project_dirs : name ∈ fs_dirs (project_dirs (w_fs w) name).
Proof. unfold project_dirs, add_dir. simpl. set_solver. Qed.

Lemma file_not_in_project_dirs f :
  contains_char "/" f = false -> f <> "logs" ->
  (name +:+ "/" +:+ f) ∉ fs_dirs (project_dirs (w_fs w) name).
Proof.
  intros Hf Hl. unfold project_dirs, add_dir. simpl.
  destruct (below_not_dir (w_fs w) name f Hwf Hplain Hf Hfree) as [Hnd _].
  rewrite !elem_of_union, !elem_of_singleton. intros [[H|H]|H].
  - done.
  - by apply join_neq_bare in H.
  - change (name +:+ "/logs") with (name +:+ "/" +:+ "logs") in H.
    by apply join_inj in H.
Qed.

Lemma startproject_ok settings :
  fs_files (w_fs w) !! _get_src ins CLIHandler.FILENAME_SETTINGS = Some settings ->
  cmd_startproject ins name w
  = (Ok tt,
     on_fs w (project (w_fs w) name
                (py_replace CLIHandler.PLACEHOLDER_NAME name settings))).
Proof.
  intros Hsrc. unfold cmd_startproject, bind.
  rewrite exit_if_absent, startproject_dirs by done.
  erewrite (copy_file_ok ins (project_dirs (w_fs w) name));
    [|done|done|done|exact Hsrc|apply in_project_dirs
     |by apply file_not_in_project_dirs].
  erewrite add_init_file_ok; [done|done|done| |].
  - simpl. apply in_project_dirs.
  - simpl. by apply file_not_in_project_dirs.
Qed.

Lemma startproject_stranded :
  fs_files (w_fs w) !! _get_src ins CLIHandler.FILENAME_SETTINGS = None ->
  cmd_startproject ins name w
  = (Raise IOError, on_fs w (project_dirs (w_fs w) name)).
Proof.
  intros Hsrc. unfold cmd_startproject, bind.
  rewrite exit_if_absent, startproject_dirs by done.
  by rewrite copy_file_missing.
Qed.

End Start.

Section Group.
Context (ins : install) (name : string) (w : world).
Hypothesis Hwf : well_formed (w_fs w).
Hypothesis Hplain : plain name.
Hypothesis Hfree : fs_exists (w_fs w) name = false.

Lemma file_not_in_group_dirs f :
  contains_char "/" f = false ->
  (name +:+ "/" +:+ f) ∉ fs_dirs (add_dir (w_fs w) name).
Proof.
  intros Hf. unfold add_dir. simpl.
  destruct (below_not_dir (w_fs w) name f Hwf Hplain Hf Hfree) as [Hnd _].
  rewrite elem_of_union, elem_of_singleton. intros [H|H]; [done|].
  by apply join_neq_bare in H.
Qed.

Lemma addtestgroup_init :
  (_exit_if_dir_exists ins name >> makedirs name >> _add_init_file name) w
  = (Ok tt, on_fs w (group_init (w_fs w) name)).
Proof.
  destruct Hplain as [Hne Hn]. unfold bind.
  rewrite exit_if_absent, makedirs_bare by done.
  erewrite add_init_file_ok; [done|done|done| |].
  - unfold add_dir. simpl. set_solver.
  - simpl. by apply file_not_in_group_dirs.
Qed.

Lemma addtestgroup_ok runlist testsuite :
  fs_files (w_fs w) !! _get_src ins CLIHandler.FILENAME_RUNLIST = Some runlist ->
  fs_files (w_fs w) !! _get_src ins CLIHandler.FILENAME_TESTSUITE
  = Some testsuite ->
  cmd_addtestgroup ins name w
  = (Ok tt, on_fs w (group (w_fs w) name runlist testsuite)).
Proof.
  intros Hrl Hts. destruct Hplain as [Hne Hn].
  unfold cmd_addtestgroup, bind.
  rewrite exit_if_absent, makedirs_bare by done.
  erewrite add_init_file_ok; [|done|done| |].
  2:{ unfold add_dir. simpl. set_solver. }
  2:{ simpl. by apply file_not_in_group_dirs. }
  erewrite (copy_file_ok ins (group_init (w_fs w) name)); [|done|done|done| | |].
  2:{ simpl. rewrite lookup_insert_ne; [exact Hrl|].
      apply not_eq_sym. by apply template_elsewhere. }
  2:{ simpl. set_solver. }
  2:{ simpl. by apply file_not_in_group_dirs. }
  erewrite (copy_file_ok ins (group_runlist (w_fs w) name runlist));
    [done|done|done|done| | |].
  - simpl. rewrite !lookup_insert_ne; [exact Hts| |];
      apply not_eq_sym; by apply template_elsewhere.
  - simpl. set_solver.
  - simpl. by apply file_not_in_group_dirs.
Qed.

Lemma addtestgroup_stranded_1 :
  fs_files (w_fs w) !! _get_src ins CLIHandler.FILENAME_RUNLIST = None ->
  cmd_addtestgroup ins name w
  = (Raise IOError, on_fs w (group_init (w_fs w) name)).
Proof.
  intros Hrl. destruct Hplain as [Hne Hn].
  unfold cmd_addtestgroup, bind.
  rewrite exit_if_absent, makedirs_bare by done.
  erewrite add_init_file_ok; [|done|done| |].
  2:{ unfold add_dir. simpl. set_solver. }
  2:{ simpl. by apply file_not_in_group_dirs. }
  rewrite copy_file_missing; [done|].
  simpl. rewrite lookup_insert_ne; [exact Hrl|].
  apply not_eq_sym. by apply template_elsewhere.
Qed.

Lemma addtestgroup_stranded_2 runlist :
  fs_files (w_fs w) !! _get_src ins CLIHandler.FILENAME_RUNLIST = Some runlist ->
  fs_files (w_fs w) !! _get_src ins CLIHandler.FILENAME_TESTSUITE = None ->
  cmd_addtestgroup ins name w
  = (Raise IOError, on_fs w (group_runlist (w_fs w) name runlist)).
Proof.
  intros Hrl Hts. destruct Hplain as [Hne Hn].
  unfold cmd_addtestgroup, bind.
  rewrite exit_if_absent, makedirs_bare by done.
  erewrite add_init_file_ok; [|done|done| |].
  2:{ unfold add_dir. simpl. set_solver. }
  2:{ simpl. by apply file_not_in_group_dirs. }
  erewrite (copy_file_ok ins (group_init (w_fs w) name)); [|done|done|done| | |].
  2:{ simpl. rewrite lookup_insert_ne; [exact Hrl|].
      apply not_eq_sym. by apply template_elsewhere. }
  2:{ simpl. set_solver. }
  2:{ simpl. by apply file_not_in_group_dirs. }
  rewrite copy_file_missing; [done|].
  simpl. rewrite !lookup_insert_ne; [exact Hts| |];
    apply not_eq_sym; by apply template_elsewhere.
Qed.

End Group.

End ScaffoldCommands.

Section ScaffoldClaims.
Import PyStr Scaffold Layout.

(** X15: [startproject] on a name that is free: the directory of the project
    and its [logs] directory are made, [settings.py] is the template
    with the placeholder replaced by the name, [__init__.py] is empty,
    and every other file is what it was. *)
Theorem startproject_lays_out_project :
  forall ins name w settings,
    well_formed (w_fs w) -> plain name ->
    fs_exists (w_fs w) name = false ->
    fs_files (w_fs w) !! _get_src ins CLIHandler.FILENAME_SETTINGS
    = Some settings ->
    let fs' := project (w_fs w) name
                 (py_replace CLIHandler.PLACEHOLDER_NAME name settings) in
    cmd_startproject ins name w = (Ok tt, on_fs w fs')
    /\ fs_dirs fs' = fs_dirs (w_fs w) ∪ {[ name ]} ∪ {[ name +:+ "/logs" ]}
    /\ (forall q,
          q <> name +:+ "/" +:+ CLIHandler.FILENAME_SETTINGS ->
          q <> name +:+ "/" +:+ CLIHandler.INIT_FILENAME ->
          fs_files fs' !! q = fs_files (w_fs w) !! q).
Proof.
  intros ins name w settings Hwf Hp Hfree Hsrc fs'.
  split; [by apply startproject_ok|]. split; [done|].
  intros q H1 H2. unfold fs', project, add_file. simpl.
  by rewrite !lookup_insert_ne.
Qed.

Lemma startproject_lays_out_project_witness :
  well_formed installed
  /\ plain "shop"
  /\ cmd_startproject machine "shop" start
     = (Ok tt,
        on_fs start
          (project installed "shop"
             ("PROJECT = 'shop'" +:+ CLIHandler.nl +:+ "LOG_LEVEL_DEBUG = True"
              +:+ CLIHandler.nl))).
Proof.
  assert (well_formed installed) as Hwf.
  { apply (bool_decide_unpack _). vm_compute. exact I. }
  assert (plain "shop") as Hp by (by split).
  split; [exact Hwf|]. split; [exact Hp|].
  exact (proj1 (startproject_lays_out_project machine "shop" start
                  settings_template Hwf Hp eq_refl eq_refl)).
Defined.

(** X16: [addtestgroup] on a name that is free: the directory of the group
    is made, with an empty [__init__.py] and a [RUNLIST] and an
    [example_testsuite.py] that are copies of the templates; every other
    file is what it was. *)
Theorem addtestgroup_lays_out_group :
  forall ins name w runlist testsuite,
    well_formed (w_fs w) -> plain name ->
    fs_exists (w_fs w) name = false ->
    fs_files (w_fs w) !! _get_src ins CLIHandler.FILENAME_RUNLIST
    = Some runlist ->
    fs_files (w_fs w) !! _get_src ins CLIHandler.FILENAME_TESTSUITE
    = Some testsuite ->
    let fs' := group (w_fs w) name runlist testsuite in
    cmd_addtestgroup ins name w = (Ok tt, on_fs w fs')
    /\ fs_dirs fs' = fs_dirs (w_fs w) ∪ {[ name ]}
    /\ fs_files fs' !! (name +:+ "/" +:+ CLIHandler.FILENAME_RUNLIST)
       = Some runlist
    /\ fs_files fs' !! (name +:+ "/" +:+ CLIHandler.INIT_FILENAME)
       = Some EmptyString
    /\ (forall q,
          q <> name +:+ "/" +:+ CLIHandler.INIT_FILENAME ->
          q <> name +:+ "/" +:+ CLIHandler.FILENAME_RUNLIST ->
          q <> name +:+ "/" +:+ CLIHandler.FILENAME_TESTSUITE ->
          fs_files fs' !! q = fs_files (w_fs w) !! q).
Proof.
  intros ins name w runlist testsuite Hwf Hp Hfree Hrl Hts fs'.
  split; [by apply addtestgroup_ok|]. split; [done|].
  unfold fs', group, group_runlist, group_init, add_file. cbn [fs_files].
  split; [|split].
  - rewrite lookup_insert_ne, lookup_insert_eq; [done|].
    intros H. by apply join_inj in H.
  - rewrite lookup_insert_ne; [|intros H; by apply join_inj in H].
    rewrite lookup_insert_ne; [|intros H; by apply join_inj in H].
    by rewrite lookup_insert_eq.
  - intros q H1 H2 H3. by rewrite !lookup_insert_ne.
Qed.

Lemma addtestgroup_lays_out_group_witness :
  well_formed installed
  /\ plain "webtests"
  /\ cmd_addtestgroup machine "webtests" start
     = (Ok tt,
        on_fs start
          (group installed "webtests" runlist_template testsuite_template))
  /\ CLIHandler.parse_runlist_text runlist_template = ["example_testsuite.py"].
Proof.
  assert (well_formed installed) as Hwf.
  { apply (bool_decide_unpack _). vm_compute. exact I. }
  assert (plain "webtests") as Hp by (by split).
  split; [exact Hwf|]. split; [exact Hp|]. split; [|reflexivity].
  exact (proj1 (addtestgroup_lays_out_group machine "webtests" start
                  runlist_template testsuite_template Hwf Hp
                  eq_refl eq_refl eq_refl)).
Defined.

End ScaffoldClaims.

Section ScaffoldMore.
Import PyStr Scaffold Layout.

Lemma startproject_taken ins name w :
  fs_exists (w_fs w) name = true ->
  cmd_startproject ins name w = (Raise (Exit 1), complained ins name w).
Proof.
  intros H. unfold cmd_startproject, bind. by rewrite exit_if_present.
Qed.

Lemma addtestgroup_taken ins name w :
  fs_exists (w_fs w) name = true ->
  cmd_addtestgroup ins name w = (Raise (Exit 1), complained ins name w).
Proof.
  intros H. unfold cmd_addtestgroup, bind. by rewrite exit_if_present.
Qed.

(** X17: The settings of a new project: where the template has the
    placeholder, the project has its name (the template having no other
    [<]); a template without any [<] is copied as it is. *)
Theorem placeholder_gives_way_to_name :
  forall ins name w pre post,
    well_formed (w_fs w) -> plain name ->
    fs_exists (w_fs w) name = false ->
    contains_char "<" pre = false -> contains_char "<" post = false ->
    (fs_files (w_fs w) !! _get_src ins CLIHandler.FILENAME_SETTINGS
     = Some (pre +:+ CLIHandler.PLACEHOLDER_NAME +:+ post) ->
     fs_files (w_fs (cmd_startproject ins name w).2)
       !! (name +:+ "/" +:+ CLIHandler.FILENAME_SETTINGS)
     = Some (pre +:+ name +:+ post))
    /\ (fs_files (w_fs w) !! _get_src ins CLIHandler.FILENAME_SETTINGS
        = Some pre ->
        fs_files (w_fs (cmd_startproject ins name w).2)
          !! (name +:+ "/" +:+ CLIHandler.FILENAME_SETTINGS)
        = Some pre).
Proof.
  intros ins name w pre post Hwf Hp Hfree Hpre Hpost.
  assert (forall settings,
            fs_files (w_fs w) !! _get_src ins CLIHandler.FILENAME_SETTINGS
            = Some settings ->
            fs_files (w_fs (cmd_startproject ins name w).2)
              !! (name +:+ "/" +:+ CLIHandler.FILENAME_SETTINGS)
            = Some (py_replace CLIHandler.PLACEHOLDER_NAME name settings))
    as Hcopy.
  { intros settings Hsrc. rewrite (startproject_ok ins name w Hwf Hp Hfree _ Hsrc).
    unfold project, add_file. cbn [snd w_fs on_fs fs_files].
    rewrite lookup_insert_ne; [by rewrite lookup_insert_eq|].
    intros H. by apply join_inj in H. }
  split; intros Hsrc; rewrite (Hcopy _ Hsrc); f_equal.
  - by apply py_replace_once.
  - by apply py_replace_absent.
Qed.

Lemma placeholder_gives_way_to_name_witness :
  well_formed installed
  /\ plain "shop"
  /\ fs_files (w_fs (cmd_startproject machine "shop" start).2)
       !! "shop/settings.py"
     = Some ("PROJECT = '" +:+ "shop" +:+ "'" +:+ CLIHandler.nl
             +:+ "LOG_LEVEL_DEBUG = True" +:+ CLIHandler.nl).
Proof.
  assert (well_formed installed) as Hwf.
  { apply (bool_decide_unpack _). vm_compute. exact I. }
  assert (plain "shop") as Hp by (by split).
  split; [exact Hwf|]. split; [exact Hp|].
  exact (proj1 (placeholder_gives_way_to_name machine "shop" start
                  "PROJECT = '"
                  ("'" +:+ CLIHandler.nl +:+ "LOG_LEVEL_DEBUG = True"
                   +:+ CLIHandler.nl)
                  Hwf Hp eq_refl eq_refl eq_refl) eq_refl).
Defined.

(** X18: Once one of the two commands has come to its end, the name is
    taken: either command, run again with that name, complains on
    [sys.stderr], exits with status 1 and leaves the file system as it
    is. *)
Theorem name_is_taken_after_success :
  forall ins name w w1,
    well_formed (w_fs w) -> plain name ->
    cmd_startproject ins name w = (Ok tt, w1)
    \/ cmd_addtestgroup ins name w = (Ok tt, w1) ->
    cmd_startproject ins name w1 = (Raise (Exit 1), complained ins name w1)
    /\ cmd_addtestgroup ins name w1 = (Raise (Exit 1), complained ins name w1).
Proof.
  intros ins name w w1 Hwf Hp Hok.
  assert (fs_exists (w_fs w1) name = true) as Hex.
  { destruct (fs_exists (w_fs w) name) eqn:Hfree.
    { destruct Hok as [H|H];
        [rewrite startproject_taken in H | rewrite addtestgroup_taken in H];
        done. }
    destruct Hok as [H|H].
    - destruct (fs_files (w_fs w) !! _get_src ins CLIHandler.FILENAME_SETTINGS)
        as [settings|] eqn:Hsrc.
      + rewrite (startproject_ok ins name w Hwf Hp Hfree _ Hsrc) in H.
        injection H as <-. apply fs_exists_dir. simpl. set_solver.
      + by rewrite (startproject_stranded ins name w Hwf Hp Hfree Hsrc) in H.
    - destruct (fs_files (w_fs w) !! _get_src ins CLIHandler.FILENAME_RUNLIST)
        as [runlist|] eqn:Hrl.
      2:{ by rewrite (addtestgroup_stranded_1 ins name w Hwf Hp Hfree Hrl) in H. }
      destruct (fs_files (w_fs w) !! _get_src ins CLIHandler.FILENAME_TESTSUITE)
        as [testsuite|] eqn:Hts.
      + rewrite (addtestgroup_ok ins name w Hwf Hp Hfree _ _ Hrl Hts) in H.
        injection H as <-. apply fs_exists_dir. simpl. set_solver.
      + by rewrite (addtestgroup_stranded_2 ins name w Hwf Hp Hfree _ Hrl Hts)
          in H. }
  split; [by apply startproject_taken | by apply addtestgroup_taken].
Qed.

Lemma name_is_taken_after_success_witness :
  well_formed installed
  /\ plain "shop"
  /\ cmd_startproject machine "shop" start
     = (Ok tt, (cmd_startproject machine "shop" start).2)
  /\ (cmd_startproject machine "shop" >> cmd_addtestgroup machine "shop") start
     = (Raise (Exit 1),
        complained machine "shop" (cmd_startproject machine "shop" start).2)
  /\ w_stderr (complained machine "shop" start)
     = ["command error: '/home/ci/shop' already exists" +:+ CLIHandler.nl].
Proof.
  assert (well_formed installed) as Hwf.
  { apply (bool_decide_unpack _). vm_compute. exact I. }
  assert (plain "shop") as Hp by (by split).
  assert (cmd_startproject machine "shop" start
          = (Ok tt, (cmd_startproject machine "shop" start).2)) as Hok
    by reflexivity.
  split; [exact Hwf|]. split; [exact Hp|]. split; [exact Hok|].
  split; [|reflexivity].
  unfold bind. rewrite Hok.
  exact (proj2 (name_is_taken_after_success machine "shop" start _ Hwf Hp
                  (or_introl Hok))).
Defined.

(** X19: A template that cannot be read ends the command with [IOError], and
    what was made before stays: [startproject] leaves the directory of
    the project and its [logs] directory, [addtestgroup] leaves the
    directory of the group with its [__init__.py].  The name is taken
    from then on: the same command, run again, exits with status 1. *)
Theorem unreadable_template_leaves_directory :
  forall ins name w,
    well_formed (w_fs w) -> plain name ->
    fs_exists (w_fs w) name = false ->
    (fs_files (w_fs w) !! _get_src ins CLIHandler.FILENAME_SETTINGS = None ->
     cmd_startproject ins name w
     = (Raise IOError, on_fs w (project_dirs (w_fs w) name))
     /\ cmd_startproject ins name (on_fs w (project_dirs (w_fs w) name))
        = (Raise (Exit 1),
           complained ins name (on_fs w (project_dirs (w_fs w) name))))
    /\ (fs_files (w_fs w) !! _get_src ins CLIHandler.FILENAME_RUNLIST = None ->
        cmd_addtestgroup ins name w
        = (Raise IOError, on_fs w (group_init (w_fs w) name))
        /\ cmd_addtestgroup ins name (on_fs w (group_init (w_fs w) name))
           = (Raise (Exit 1),
              complained ins name (on_fs w (group_init (w_fs w) name)))).
Proof.
  intros ins name w Hwf Hp Hfree. split; intros Hsrc.
  - split; [by apply startproject_stranded|].
    apply startproject_taken, fs_exists_dir. simpl. set_solver.
  - split; [by apply addtestgroup_stranded_1|].
    apply addtestgroup_taken, fs_exists_dir. simpl. set_solver.
Qed.

Lemma unreadable_template_leaves_directory_witness :
  well_formed (w_fs stripped)
  /\ plain "shop"
  /\ cmd_startproject machine "shop" stripped
     = (Raise IOError, on_fs stripped (project_dirs (w_fs stripped) "shop"))
  /\ cmd_addtestgroup machine "shop" stripped
     = (Raise IOError, on_fs stripped (group_init (w_fs stripped) "shop")).
Proof.
  assert (well_formed (w_fs stripped)) as Hwf.
  { apply (bool_decide_unpack _). vm_compute. exact I. }
  assert (plain "shop") as Hp by (by split).
  destruct (unreadable_template_leaves_directory machine "shop" stripped
              Hwf Hp eq_refl) as [Hs Hg].
  split; [exact Hwf|]. split; [exact Hp|].
  split; [exact (proj1 (Hs eq_refl)) | exact (proj1 (Hg eq_refl))].
Defined.

End ScaffoldMore.

(** ** The two views of the commands agree *)

Section TwoViews.
Import PyStr.

(** On a name that is there, the command exits with the same status and
    the same words in both views; on a name that is free, the order of
    work of the first view is the order in which the second view makes
    the entries. *)
Lemma startproject_views_agree (h : host) (ins : Scaffold.install)
    (name : string) (st : CLIHandler.state) (w : Scaffold.world) :
  path_exists h name = Scaffold.fs_exists (Scaffold.w_fs w) name ->
  path_abspath h name = Scaffold.abspath ins name ->
  CLIHandler.stderr st = Scaffold.w_stderr w ->
  if Scaffold.fs_exists (Scaffold.w_fs w) name
  then (CLIHandler.cmd_startproject h name st).1 = Raise (CLIHandler.Exit 1)
       /\ (Scaffold.cmd_startproject ins name w).1 = Raise (Scaffold.Exit 1)
       /\ CLIHandler.stderr (CLIHandler.cmd_startproject h name st).2
          = Scaffold.w_stderr (Scaffold.cmd_startproject ins name w).2
  else CLIHandler.cmd_startproject h name st
       = (Ok tt,
          {| CLIHandler.insts := CLIHandler.insts st;
             CLIHandler.events :=
               (CLIHandler.events st
                ++ [ CLIHandler.EvMakedirs (name +:+ "/logs");
                     CLIHandler.EvCopyFile name CLIHandler.FILENAME_SETTINGS
                       (Some (CLIHandler.PLACEHOLDER_NAME, name));
                     CLIHandler.EvAddInitFile
                       (name +:+ "/" +:+ CLIHandler.INIT_FILENAME) ])%list;
             CLIHandler.stderr := CLIHandler.stderr st |}).
Proof.
  intros He Ha Hs.
  destruct (Scaffold.fs_exists (Scaffold.w_fs w) name) eqn:Hex.
  - rewrite startproject_taken by done.
    unfold CLIHandler.cmd_startproject, CLIHandler._exit_if_dir_exists, bind.
    rewrite He. simpl. by rewrite Ha, Hs.
  - unfold CLIHandler.cmd_startproject, CLIHandler._exit_if_dir_exists, bind.
    rewrite He. simpl. unfold CLIHandler._add_init_file, CLIHandler.emit.
    simpl. by rewrite <- !app_assoc.
Qed.

End TwoViews.

(** ** Counters over a session *)

Section CounterMore.
Import Asserts Session Vocabulary.

Lemma count_le_length (p : result exn unit -> bool) rs : count p rs <= length rs.
Proof. unfold count. apply length_filter. Qed.

Lemma run_length calls c : length (run calls c).1 = length calls.
Proof.
  induction calls as [|cl calls IH] using rev_ind; [done|].
  rewrite run_snoc. destruct (run calls c) as [rs c1]. unfold step. simpl in *.
  destruct (call cl.1 cl.2 c1) as [r c2]. simpl.
  rewrite !length_app. simpl. lia.
Qed.

Lemma count_pass_or_failure rs :
  count is_pass rs + count is_failure rs <= length rs.
Proof.
  unfold count. induction rs as [|r rs IH]; [done|].
  rewrite !filter_cons.
  destruct r as [[]|[]]; simpl; repeat case_decide; simpl; try done; lia.
Qed.

(** X21: Over any run of assertion calls on one suite instance the two
    counters never go down, the first stays at or below the second, and
    the second goes up by one per call at most. *)
Theorem counters_only_go_up :
  forall calls c,
    passed c <= attempted c ->
    let c' := (run calls c).2 in
    passed c <= passed c'
    /\ attempted c <= attempted c'
    /\ passed c' <= attempted c'
    /\ attempted c' <= attempted c + length calls.
Proof.
  intros calls c Hc c'. subst c'.
  destruct (run_counters calls c) as [Hp Ha]. unfold attempts in Ha.
  pose proof (count_pass_or_failure (run calls c).1) as Hle.
  rewrite run_length in Hle. lia.
Qed.

Lemma counters_only_go_up_witness :
  passed fresh <= attempted fresh
  /\ (run [ ("assert_equal", [VInt 9; VInt 9]);
            ("assert_in", [VInt 3; VList [VInt 1; VInt 2; VInt 4]]);
            ("assert_no_such_thing", [VNone]) ] fresh).2
     = {| passed := 1; attempted := 2 |}
  /\ passed (run [ ("assert_equal", [VInt 9; VInt 9]) ] fresh).2
     <= attempted (run [ ("assert_equal", [VInt 9; VInt 9]) ] fresh).2.
Proof.
  assert (passed fresh <= attempted fresh) as H by (simpl; lia).
  split; [exact H|]. split; [reflexivity|].
  exact (proj1 (proj2 (proj2
           (counters_only_go_up [ ("assert_equal", [VInt 9; VInt 9]) ] fresh H)))).
Defined.

End CounterMore.
